(** * Window-system image allocator and swapchain base: model and properties

    A shallow embedding of
    - [util/wsialloc/wsialloc_helpers.c]  (format selection, stride and size),
    - [util/wsialloc/wsialloc_ion.c] and [util/wsialloc/wsialloc_dma_buf_heaps.c]
      (the two kernel-heap back-ends),
    - [wsi/swapchain_base.cpp] (image pool, pending ring, present path),
    followed by the properties stated about them.

    C integers are [Z] with the wrap-around of their type written out.
    Pointers that the code compares with NULL are [option]s.  A call either
    returns, stops on a failed [assert], or leaves defined behaviour
    (null dereference, access outside an array, division by zero). *)

From Stdlib Require Import ZArith List Bool Lia.
Import ListNotations.
Open Scope Z_scope.

(** ** Machine integers *)

Definition to_uint32 (x : Z) : Z := x mod 2 ^ 32.
Definition to_uint64 (x : Z) : Z := x mod 2 ^ 64.

(** Conversion to [int]: two's complement on 32 bits. *)
Definition to_int (x : Z) : Z :=
  let u := x mod 2 ^ 32 in if u <? 2 ^ 31 then u else u - 2 ^ 32.

Definition UINT64_MAX : Z := 2 ^ 64 - 1.

(** ** Outcome of a call *)

Inductive outcome (A : Type) : Type :=
| Returns (a : A)        (* the call returns [a] *)
| AssertionFailed        (* an [assert] was violated in a build without NDEBUG *)
| Undefined.             (* null dereference, out-of-bounds access, ... *)

Arguments Returns {A} a.
Arguments AssertionFailed {A}.
Arguments Undefined {A}.

Definition bind {A B : Type} (m : outcome A) (k : A -> outcome B) : outcome B :=
  match m with
  | Returns a => k a
  | AssertionFailed => AssertionFailed
  | Undefined => Undefined
  end.

Declare Scope outcome_scope.
Delimit Scope outcome_scope with outcome.
Notation "x <- m ;; k" := (bind m (fun x => k))
  (at level 61, m at next level, right associativity) : outcome_scope.
Notation "' p <- m ;; k" := (bind m (fun p => k))
  (at level 61, p pattern, m at next level, right associativity) : outcome_scope.
Open Scope outcome_scope.

(** [assert(cond)]: nothing when NDEBUG is defined, a stop otherwise. *)
Definition c_assert (NDEBUG cond : bool) : outcome unit :=
  if NDEBUG || cond then Returns tt else AssertionFailed.

(** Array cells: [a[i]] read and [a[i] = v] write, undefined outside. *)
Definition load {A : Type} (a : list A) (i : nat) : outcome A :=
  match nth_error a i with
  | Some v => Returns v
  | None => Undefined
  end.

Fixpoint update {A : Type} (a : list A) (i : nat) (v : A) : list A :=
  match a, i with
  | [], _ => []
  | _ :: t, O => v :: t
  | h :: t, S j => h :: update t j v
  end.

Definition store {A : Type} (a : list A) (i : nat) (v : A) : outcome (list A) :=
  if (i <? length a)%nat then Returns (update a i v) else Undefined.

(** ** util/wsialloc/wsialloc_helpers.c *)

Module Helpers.

(** Default alignment *)
Definition WSIALLOCP_MIN_ALIGN_SZ : Z := 64.
(** Maximum image size allowed for each dimension *)
Definition MAX_IMAGE_SIZE : Z := 128000.
(** Length of the per-plane arrays ([local_fds] has four initialisers). *)
Definition WSIALLOC_MAX_PLANES : Z := 4.

(** drm_fourcc.h *)
Definition DRM_FORMAT_MOD_LINEAR : Z := 0.
Definition DRM_FORMAT_BIG_ENDIAN : Z := 2 ^ 31.

(** Modelled from the spec: the allocation flags [PROTECTED] and [NO_MEMORY]
    of wsialloc.h, a header that is not among the sources at hand; two
    distinct bits of [info->flags]. *)
Definition WSIALLOC_ALLOCATE_PROTECTED : Z := 1.
Definition WSIALLOC_ALLOCATE_NO_MEMORY : Z := 2.

Inductive wsialloc_error : Type :=
| WSIALLOC_ERROR_NONE
| WSIALLOC_ERROR_INVALID
| WSIALLOC_ERROR_NOT_SUPPORTED
| WSIALLOC_ERROR_NO_RESOURCE.

Definition is_none (e : wsialloc_error) : bool :=
  match e with WSIALLOC_ERROR_NONE => true | _ => false end.

(** [wsialloc_format]: what the application asks for. *)
Record wsialloc_format : Type := Build_wsialloc_format
  { fourcc : Z;        (* uint32_t *)
    modifier : Z;      (* uint64_t *)
    flags : Z }.       (* uint64_t *)

(** [fmt_spec]: one row of the format table. *)
Record fmt_spec : Type := Build_fmt_spec
  { drm_format : Z;    (* uint32_t *)
    nr_planes : Z;     (* uint32_t *)
    bpp : list Z }.    (* uint8_t [WSIALLOC_MAX_PLANES] *)

Record wsialloc_format_descriptor : Type := Build_wsialloc_format_descriptor
  { format : wsialloc_format;
    format_spec : fmt_spec }.

(** [wsialloc_allocate_info].  [width] and [height] are [uint32_t],
    [format_count] is [unsigned] and the flags are [uint64_t]; [formats] is
    the pointer to an array, [None] when NULL.  The flags field is called
    [info_flags] here since [flags] names the field of [wsialloc_format]. *)
Record wsialloc_allocate_info : Type := Build_wsialloc_allocate_info
  { formats : option (list wsialloc_format);
    format_count : Z;
    width : Z;
    height : Z;
    info_flags : Z }.

(** [wsialloc_allocate_result]: the per-plane arrays live in the struct. *)
Record wsialloc_allocate_result : Type := Build_wsialloc_allocate_result
  { result_format : wsialloc_format;
    average_row_strides : list Z;   (* int [WSIALLOC_MAX_PLANES] *)
    offsets : list Z;               (* uint32_t [WSIALLOC_MAX_PLANES] *)
    buffer_fds : list Z;            (* int [WSIALLOC_MAX_PLANES] *)
    is_disjoint : bool }.

(** [(size + 64u - 1) & ~(64u - 1)]: the sum is a [uint64_t]; the mask is
    computed on [unsigned int] and then widened, so it is [0xFFFFFFC0]. *)
Definition round_size_up_to_align (size : Z) : Z :=
  Z.land (to_uint64 (size + WSIALLOCP_MIN_ALIGN_SZ - 1))
         (to_uint32 (Z.lnot (WSIALLOCP_MIN_ALIGN_SZ - 1))).

(** The stack arrays of [wsiallocp_alloc] and its [total_size]: a cell is
    [None] until it is first written. *)
Record locals : Type := Build_locals
  { local_strides : list (option Z);
    local_offsets : list (option Z);
    total_size : Z }.

Section Core.

Variable NDEBUG : bool.

(** The body of [for (plane = 0; plane < num_planes; plane++)]; [todo] counts
    the iterations left. *)
Fixpoint plane_loop (todo : nat) (plane : nat) (bits_per_pixel : list Z)
    (info : wsialloc_allocate_info)
    (strides offs : list (option Z)) (size : Z)
  : outcome (list (option Z) * list (option Z) * Z) :=
  match todo with
  | O => Returns (strides, offs, size)
  | S todo' =>
      b <- load bits_per_pixel plane ;;
      (* Assumes multiple of 8--rework otherwise. *)
      let plane_bytes_per_pixel := to_uint32 (b / 8) in
      _ <- c_assert NDEBUG (to_uint32 (plane_bytes_per_pixel * 8) =? b) ;;
      let stride :=
        to_int (round_size_up_to_align (to_uint32 (width info * plane_bytes_per_pixel))) in
      strides' <- store strides plane (Some stride) ;;
      offs' <- store offs plane (Some (to_uint32 size)) ;;
      (* [int * uint32_t] is an [unsigned int] product *)
      let size' := to_uint64 (size + to_uint32 (stride * height info)) in
      plane_loop todo' (S plane) bits_per_pixel info strides' offs' size'
  end.

Definition calculate_format_properties (descriptor : wsialloc_format_descriptor)
    (info : wsialloc_allocate_info) (l : locals)
  : outcome (wsialloc_error * locals) :=
  let bits_per_pixel := bpp (format_spec descriptor) in
  let modifier := modifier (format descriptor) in
  let num_planes := nr_planes (format_spec descriptor) in
  (* We currently don't support any kind of custom modifiers *)
  if negb (modifier =? DRM_FORMAT_MOD_LINEAR) then
    Returns (WSIALLOC_ERROR_NOT_SUPPORTED, l)
  (* No multi-plane format support *)
  else if num_planes >? 1 then
    Returns (WSIALLOC_ERROR_NOT_SUPPORTED, l)
  else
    '(strides, offs, size) <-
      plane_loop (Z.to_nat num_planes) 0 bits_per_pixel info
                 (local_strides l) (local_offsets l) 0 ;;
    Returns (WSIALLOC_ERROR_NONE,
             {| local_strides := strides; local_offsets := offs; total_size := size |}).

(** [find_format]: the table is searched front to back for the fourcc with
    its big-endian bit masked off. *)
Fixpoint find_format_from (table : list fmt_spec) (fourcc : Z)
  : outcome (option fmt_spec) :=
  match table with
  | [] => Returns None
  | found_fmt :: rest =>
      if fourcc =? drm_format found_fmt then
        _ <- c_assert NDEBUG (nr_planes found_fmt <=? WSIALLOC_MAX_PLANES) ;;
        Returns (Some found_fmt)
      else find_format_from rest fourcc
  end.

Variable fourcc_format_table : list fmt_spec.

Definition find_format (fourcc : Z) : outcome (option fmt_spec) :=
  (* Mask off any bits not necessary for allocation size *)
  let fourcc := Z.land fourcc (to_uint32 (Z.lnot (to_uint32 DRM_FORMAT_BIG_ENDIAN))) in
  find_format_from fourcc_format_table fourcc.

Definition is_null {A : Type} (p : option A) : bool :=
  match p with None => true | Some _ => false end.

(** [validate_parameters]: [allocator] and [result] are compared with NULL,
    [info] is dereferenced without a test. *)
Definition validate_parameters {Allocator : Type} (allocator : option Allocator)
    (info : option wsialloc_allocate_info) (result : option wsialloc_allocate_result)
  : outcome bool :=
  if is_null allocator then Returns false
  else if is_null result then Returns false
  else
    match info with
    | None => Undefined
    | Some info =>
        if (format_count info =? 0) || is_null (formats info) then Returns false
        else if (width info <? 1) || (height info <? 1)
                || (width info >? MAX_IMAGE_SIZE) || (height info >? MAX_IMAGE_SIZE)
        then Returns false
        else Returns true
    end.

(** What the walk over the formats carries from one iteration to the next. *)
Record walk_state : Type := Build_walk_state
  { err : wsialloc_error;
    vars : locals;
    selected_format_desc : wsialloc_format_descriptor }.

(** [for (i = 0; i < info->format_count; i++)]: [todo] is the number of
    iterations left and [array] is [&info->formats[i]]. *)
Fixpoint format_loop (todo : nat) (array : list wsialloc_format)
    (info : wsialloc_allocate_info) (st : walk_state) : outcome walk_state :=
  match todo with
  | O => Returns st
  | S todo' =>
      match array with
      | [] => Undefined
      | current_format :: next =>
          found <- find_format (fourcc current_format) ;;
          match found with
          | None =>
              format_loop todo' next info
                {| err := WSIALLOC_ERROR_NOT_SUPPORTED; vars := vars st;
                   selected_format_desc := selected_format_desc st |}
          | Some format_spec =>
              let current_format_desc :=
                {| format := current_format; format_spec := format_spec |} in
              '(e, l) <- calculate_format_properties current_format_desc info (vars st) ;;
              if negb (is_none e) then
                format_loop todo' next info
                  {| err := e; vars := l;
                     selected_format_desc := selected_format_desc st |}
              else
                (* A compatible format was found *)
                Returns {| err := e; vars := l;
                           selected_format_desc := current_format_desc |}
          end
      end
  end.

(** [wsialloc_format_descriptor selected_format_desc = {}] and the
    uninitialised stack arrays. *)
Definition zero_descriptor : wsialloc_format_descriptor :=
  {| format := {| fourcc := 0; modifier := 0; flags := 0 |};
     format_spec := {| drm_format := 0; nr_planes := 0;
                       bpp := repeat 0 (Z.to_nat WSIALLOC_MAX_PLANES) |} |}.

Definition fresh_locals : locals :=
  {| local_strides := repeat None (Z.to_nat WSIALLOC_MAX_PLANES);
     local_offsets := repeat None (Z.to_nat WSIALLOC_MAX_PLANES);
     total_size := 0 |}.

Definition walk_start : walk_state :=
  {| err := WSIALLOC_ERROR_NONE; vars := fresh_locals;
     selected_format_desc := zero_descriptor |}.

(** [for (plane = 1; plane < nr_planes; plane++) buffer_fds[plane] = buffer_fds[0]] *)
Fixpoint share_fd (todo : nat) (plane : nat) (fds : list Z) : outcome (list Z) :=
  match todo with
  | O => Returns fds
  | S todo' =>
      fd0 <- load fds 0 ;;
      fds' <- store fds plane fd0 ;;
      share_fd todo' (S plane) fds'
  end.

(** [for (plane = 0; plane < nr_planes; plane++)]: copy strides and offsets
    out of the stack arrays. *)
Fixpoint copy_planes (todo : nat) (plane : nat) (l : locals)
    (strides offs : list Z) : outcome (list Z * list Z) :=
  match todo with
  | O => Returns (strides, offs)
  | S todo' =>
      s <- load (local_strides l) plane ;;
      o <- load (local_offsets l) plane ;;
      match s, o with
      | Some s, Some o =>
          strides' <- store strides plane s ;;
          offs' <- store offs plane (to_uint32 (to_int o)) ;;
          copy_planes todo' (S plane) l strides' offs'
      | _, _ => Undefined      (* an uninitialised cell is read *)
      end
  end.

Section Alloc.

(** The allocator struct belongs to the back-end; [World] is the state of
    the kernel the callback talks to. *)
Context {Allocator World : Type}.

Definition wsiallocp_alloc_callback : Type :=
  Allocator -> wsialloc_allocate_info -> Z -> World -> outcome (Z * World).

Definition populate (st : walk_state) (result : wsialloc_allocate_result)
  : outcome wsialloc_allocate_result :=
  let planes := Z.to_nat (nr_planes (format_spec (selected_format_desc st))) in
  '(strides, offs) <-
     copy_planes planes 0 (vars st) (average_row_strides result) (offsets result) ;;
  Returns {| result_format := format (selected_format_desc st);
             average_row_strides := strides;
             offsets := offs;
             buffer_fds := buffer_fds result;
             is_disjoint := false |}.

Definition wsiallocp_alloc (allocator : option Allocator)
    (fn_alloc : wsiallocp_alloc_callback)
    (info : option wsialloc_allocate_info)
    (result : option wsialloc_allocate_result) (w : World)
  : outcome (wsialloc_error * option wsialloc_allocate_result * World) :=
  valid <- validate_parameters allocator info result ;;
  if negb valid then Returns (WSIALLOC_ERROR_INVALID, result, w)
  else
    match allocator, info, result with
    | Some a, Some i, Some r =>
        array <- match formats i with Some f => Returns f | None => Undefined end ;;
        st <- format_loop (Z.to_nat (format_count i)) array i walk_start ;;
        if negb (is_none (err st)) then Returns (err st, Some r, w)
        else if Z.land (info_flags i) WSIALLOC_ALLOCATE_NO_MEMORY =? 0 then
          '(fd, w') <- fn_alloc a i (total_size (vars st)) w ;;
          let fd := to_int fd in
          if fd <? 0 then Returns (WSIALLOC_ERROR_NO_RESOURCE, Some r, w')
          else
            fds <- store (buffer_fds r) 0 fd ;;
            let planes := Z.to_nat (nr_planes (format_spec (selected_format_desc st))) in
            fds <- share_fd (planes - 1) 1 fds ;;
            r' <- populate st
                    {| result_format := result_format r;
                       average_row_strides := average_row_strides r;
                       offsets := offsets r;
                       buffer_fds := fds;
                       is_disjoint := is_disjoint r |} ;;
            Returns (WSIALLOC_ERROR_NONE, Some r', w')
        else
          r' <- populate st r ;;
          Returns (WSIALLOC_ERROR_NONE, Some r', w)
    | _, _, _ => Undefined
    end.

End Alloc.

End Core.

End Helpers.

Import Helpers.

(** ** util/wsialloc/wsialloc_dma_buf_heaps.c *)

Module DmaBufHeaps.

Record wsialloc_allocator : Type := Build_wsialloc_allocator
  { (* File descriptor for a DMA-BUF heap for allocating memory accessible to
       the windowing system (display, compositor, etc.) *)
    memory_fd : Z;
    (* File descriptor for a DMA-BUF heap for allocating protected memory
       accessible to the windowing system. *)
    protected_fd : Z }.

(** The system calls of this file, over a kernel state [K].
    [heap_ioctl fd len] is [ioctl(fd, DMA_HEAP_IOCTL_ALLOC, &heap_data)] and
    yields the return value, [errno] and [heap_data.fd]. *)
Record kernel (K : Type) : Type := Build_kernel
  { malloc : K -> option wsialloc_allocator * K;
    open_heap : K -> Z * K;
    close : Z -> K -> K;
    heap_ioctl : Z -> Z -> K -> (Z * Z * Z) * K }.

Arguments malloc {K}.
Arguments open_heap {K}.
Arguments close {K}.
Arguments heap_ioctl {K}.

Section Backend.

Variable NDEBUG : bool.
Variable fourcc_format_table : list fmt_spec.
Context {K : Type}.
Variable sys : kernel K.

Definition allocate (fd size : Z) (k : K) : outcome (Z * K) :=
  _ <- c_assert NDEBUG (size >? 0) ;;
  _ <- c_assert NDEBUG (negb (fd =? -1)) ;;
  let '(ret, errno, heap_fd, k') := heap_ioctl sys fd size k in
  if negb (ret =? 0) then Returns (- errno, k')
  else
    _ <- c_assert NDEBUG (heap_fd >? 0) ;;
    Returns (heap_fd, k').

Definition dma_allocate (allocator : wsialloc_allocator)
    (info : wsialloc_allocate_info) (size : Z) (k : K) : outcome (Z * K) :=
  _ <- c_assert NDEBUG (size >? 0) ;;
  (* The only error that can be encountered on allocations is lack of resources. *)
  let alloc_fd :=
    if negb (Z.land (info_flags info) WSIALLOC_ALLOCATE_PROTECTED =? 0)
    then protected_fd allocator else memory_fd allocator in
  if alloc_fd <? 0 then
    _ <- c_assert NDEBUG false ;;
    Returns (-1, k)
  else allocate alloc_fd size k.

Definition wsialloc_new (k : K)
  : outcome (wsialloc_error * option wsialloc_allocator * K) :=
  match malloc sys k with
  | (None, k1) => Returns (WSIALLOC_ERROR_NO_RESOURCE, None, k1)
  | (Some _, k1) =>
      let '(fd, k2) := open_heap sys k1 in
      let dma_buf_heaps := {| memory_fd := fd; protected_fd := -1 |} in
      if memory_fd dma_buf_heaps <? 0 then
        Returns (WSIALLOC_ERROR_NO_RESOURCE, None, k2)
      else Returns (WSIALLOC_ERROR_NONE, Some dma_buf_heaps, k2)
  end.

Definition close_fd (fd : Z) (k : K) : K :=
  if fd >=? 0 then close sys fd k else k.

Definition wsialloc_delete (allocator : option wsialloc_allocator) (k : K)
  : outcome K :=
  _ <- c_assert NDEBUG (negb (is_null allocator)) ;;
  match allocator with
  | None => Returns k
  | Some a => Returns (close_fd (protected_fd a) (close_fd (memory_fd a) k))
  end.

Definition wsialloc_alloc (allocator : option wsialloc_allocator)
    (info : option wsialloc_allocate_info)
    (result : option wsialloc_allocate_result) (k : K)
  : outcome (wsialloc_error * option wsialloc_allocate_result * K) :=
  match allocator, info with
  | Some a, Some i =>
      let fd_to_use :=
        if negb (Z.land (info_flags i) WSIALLOC_ALLOCATE_PROTECTED =? 0)
        then protected_fd a else memory_fd a in
      if fd_to_use <? 0 then Returns (WSIALLOC_ERROR_NO_RESOURCE, result, k)
      else wsiallocp_alloc NDEBUG fourcc_format_table allocator dma_allocate info result k
  | _, _ => Undefined
  end.

End Backend.

End DmaBufHeaps.

(** ** util/wsialloc/wsialloc_ion.c *)

Module Ion.

Record wsialloc_allocator : Type := Build_wsialloc_allocator
  { (* File descriptor of /dev/ion. *)
    fd : Z;
    (* Allocator heap id. *)
    alloc_heap_id : Z;               (* uint32_t *)
    (* Protected allocator heap id *)
    protected_alloc_heap_id : Z;     (* uint32_t *)
    protected_heap_exists : bool }.

(** ion.h *)
Definition ION_HEAP_TYPE_DMA : Z := 4.

Record ion_heap_data : Type := Build_ion_heap_data
  { type : Z;       (* __u32 *)
    heap_id : Z }.  (* __u32 *)

(** The system calls of this file, over a kernel state [K].
    [malloc] hands out a block whose content is whatever it is;
    [heap_query fd] is [ioctl(fd, ION_IOC_HEAP_QUERY, &query)] and yields the
    return value, [query.cnt] and the array [heaps];
    [ion_ioctl fd len mask] is [ioctl(fd, ION_IOC_ALLOC, &alloc)] and yields
    the return value and [alloc.fd]. *)
Record kernel (K : Type) : Type := Build_kernel
  { malloc : K -> option wsialloc_allocator * K;
    open_ion : K -> Z * K;
    close : Z -> K -> K;
    heap_query : Z -> K -> (Z * Z * list ion_heap_data) * K;
    ion_ioctl : Z -> Z -> Z -> K -> (Z * Z) * K }.

Arguments malloc {K}.
Arguments open_ion {K}.
Arguments close {K}.
Arguments heap_query {K}.
Arguments ion_ioctl {K}.

Section Backend.

Variable NDEBUG : bool.
Variable fourcc_format_table : list fmt_spec.
Context {K : Type}.
Variable sys : kernel K.

(** [for (i = 0; i < query.cnt; ++i)] with its [break]. *)
Fixpoint heap_loop (todo : nat) (i : nat) (heaps : list ion_heap_data)
    (alloc_heap_id : Z) : outcome Z :=
  match todo with
  | O => Returns alloc_heap_id
  | S todo' =>
      h <- load heaps i ;;
      if ION_HEAP_TYPE_DMA =? type h then Returns (to_int (heap_id h))
      else heap_loop todo' (S i) heaps alloc_heap_id
  end.

Definition find_alloc_heap_id (fd : Z) (k : K) : outcome (Z * K) :=
  _ <- c_assert NDEBUG (negb (fd =? -1)) ;;
  let '(ret, cnt, heaps, k') := heap_query sys fd k in
  if ret <? 0 then Returns (ret, k')
  else
    id <- heap_loop (Z.to_nat cnt) 0 heaps (-1) ;;
    Returns (id, k').

Definition allocate (fd size heap_id : Z) (k : K) : outcome (Z * K) :=
  _ <- c_assert NDEBUG (size >? 0) ;;
  _ <- c_assert NDEBUG (negb (fd =? -1)) ;;
  (* [1u << heap_id] has no meaning from 32 on *)
  if heap_id >=? 32 then Undefined
  else
    let '(ret, alloc_fd, k') := ion_ioctl sys fd size (to_uint32 (2 ^ heap_id)) k in
    if ret <? 0 then Returns (ret, k') else Returns (alloc_fd, k').

Definition wsialloc_delete (allocator : option wsialloc_allocator) (k : K)
  : outcome K :=
  _ <- c_assert NDEBUG (negb (is_null allocator)) ;;
  match allocator with
  | None => Returns k
  | Some a => if fd a >=? 0 then Returns (close sys (fd a) k) else Returns k
  end.

Definition wsialloc_new (k : K)
  : outcome (wsialloc_error * option wsialloc_allocator * K) :=
  match malloc sys k with
  | (None, k1) =>
      k2 <- wsialloc_delete None k1 ;;
      Returns (WSIALLOC_ERROR_NO_RESOURCE, None, k2)
  | (Some block, k1) =>
      let '(dev, k2) := open_ion sys k1 in
      let ion := {| fd := dev;
                    alloc_heap_id := alloc_heap_id block;
                    protected_alloc_heap_id := protected_alloc_heap_id block;
                    protected_heap_exists := protected_heap_exists block |} in
      if fd ion <? 0 then
        k3 <- wsialloc_delete (Some ion) k2 ;;
        Returns (WSIALLOC_ERROR_NO_RESOURCE, None, k3)
      else
        '(id, k3) <- find_alloc_heap_id (fd ion) k2 ;;
        (* the [int] is stored into a [uint32_t] field *)
        let ion := {| fd := fd ion;
                      alloc_heap_id := to_uint32 id;
                      protected_alloc_heap_id := protected_alloc_heap_id ion;
                      protected_heap_exists := protected_heap_exists ion |} in
        if alloc_heap_id ion <? 0 then
          k4 <- wsialloc_delete (Some ion) k3 ;;
          Returns (WSIALLOC_ERROR_NO_RESOURCE, None, k4)
        else
          let ion := {| fd := fd ion;
                        alloc_heap_id := alloc_heap_id ion;
                        protected_alloc_heap_id := protected_alloc_heap_id ion;
                        protected_heap_exists := false |} in
          Returns (WSIALLOC_ERROR_NONE, Some ion, k3)
  end.

Definition ion_allocate (allocator : wsialloc_allocator)
    (info : wsialloc_allocate_info) (size : Z) (k : K) : outcome (Z * K) :=
  _ <- c_assert NDEBUG (negb (fd allocator =? -1)) ;;
  _ <- c_assert NDEBUG (size >? 0) ;;
  if negb (Z.land (info_flags info) WSIALLOC_ALLOCATE_PROTECTED =? 0) then
    (* Exit if we don't support allocating protected memory. *)
    if negb (protected_heap_exists allocator) then
      _ <- c_assert NDEBUG false ;;
      Returns (-1, k)
    else allocate (fd allocator) size (protected_alloc_heap_id allocator) k
  else allocate (fd allocator) size (alloc_heap_id allocator) k.

Definition wsialloc_alloc (allocator : option wsialloc_allocator)
    (info : option wsialloc_allocate_info)
    (result : option wsialloc_allocate_result) (k : K)
  : outcome (wsialloc_error * option wsialloc_allocate_result * K) :=
  match allocator, info with
  | Some a, Some i =>
      if negb (Z.land (info_flags i) WSIALLOC_ALLOCATE_PROTECTED =? 0)
         && negb (protected_heap_exists a)
      then Returns (WSIALLOC_ERROR_NO_RESOURCE, result, k)
      else wsiallocp_alloc NDEBUG fourcc_format_table allocator ion_allocate info result k
  | _, _ => Undefined
  end.

End Backend.

End Ion.

(** ** wsi/swapchain_base.cpp *)

Module Wsi.

Inductive VkResult : Type :=
| VK_SUCCESS
| VK_NOT_READY
| VK_TIMEOUT
| VK_INCOMPLETE
| VK_ERROR_OUT_OF_HOST_MEMORY
| VK_ERROR_INITIALIZATION_FAILED
| VK_ERROR_DEVICE_LOST
| VK_ERROR_SURFACE_LOST_KHR
| VK_ERROR_OUT_OF_DATE_KHR.

Definition is_success (r : VkResult) : bool :=
  match r with VK_SUCCESS => true | _ => false end.

Definition is_not_ready (r : VkResult) : bool :=
  match r with VK_NOT_READY => true | _ => false end.

Inductive VkPresentModeKHR : Type :=
| VK_PRESENT_MODE_IMMEDIATE_KHR
| VK_PRESENT_MODE_MAILBOX_KHR
| VK_PRESENT_MODE_FIFO_KHR
| VK_PRESENT_MODE_FIFO_RELAXED_KHR.

Definition present_mode_eqb (a b : VkPresentModeKHR) : bool :=
  match a, b with
  | VK_PRESENT_MODE_IMMEDIATE_KHR, VK_PRESENT_MODE_IMMEDIATE_KHR
  | VK_PRESENT_MODE_MAILBOX_KHR, VK_PRESENT_MODE_MAILBOX_KHR
  | VK_PRESENT_MODE_FIFO_KHR, VK_PRESENT_MODE_FIFO_KHR
  | VK_PRESENT_MODE_FIFO_RELAXED_KHR, VK_PRESENT_MODE_FIFO_RELAXED_KHR => true
  | _, _ => false
  end.

(** Handles are integers, [VK_NULL_HANDLE] is zero. *)
Definition VK_NULL_HANDLE : Z := 0.

(** [swapchain_image::status] *)
Inductive status_t : Type := INVALID | ACQUIRED | PENDING | PRESENTED | FREE.

Definition status_eqb (a b : status_t) : bool :=
  match a, b with
  | INVALID, INVALID | ACQUIRED, ACQUIRED | PENDING, PENDING
  | PRESENTED, PRESENTED | FREE, FREE => true
  | _, _ => false
  end.

Record swapchain_image : Type := Build_swapchain_image
  { data : Z;            (* void * *)
    image : Z;           (* VkImage *)
    status : status_t;
    present_fence : Z }. (* VkFence *)

Definition set_status (img : swapchain_image) (s : status_t) : swapchain_image :=
  {| data := data img; image := image img; status := s;
     present_fence := present_fence img |}.

(** [m_pending_buffer_pool] *)
Record ring_buffer : Type := Build_ring_buffer
  { ring : list Z;       (* uint32_t * *)
    head : Z;
    tail : Z;
    size : Z }.

(** The members of [swapchain_base] that this file reads and writes.  The
    image count [m_num_swapchain_images] is the length of the image array:
    [init] sets the two together. *)
Record swapchain_base : Type := Build_swapchain_base
  { m_thread_sem_defined : bool;
    m_first_present : bool;
    m_pending_buffer_pool : ring_buffer;
    m_swapchain_images : list swapchain_image;
    m_surface : Z;
    m_present_mode : VkPresentModeKHR;
    m_descendant : Z;
    m_ancestor : Z;
    m_device : Z;
    m_queue : Z;
    m_page_flip_thread_run : bool;
    m_is_valid : bool }.

Definition m_num_swapchain_images (sc : swapchain_base) : Z :=
  Z.of_nat (length (m_swapchain_images sc)).

Definition with_images (sc : swapchain_base) (imgs : list swapchain_image)
  : swapchain_base :=
  {| m_thread_sem_defined := m_thread_sem_defined sc;
     m_first_present := m_first_present sc;
     m_pending_buffer_pool := m_pending_buffer_pool sc;
     m_swapchain_images := imgs;
     m_surface := m_surface sc;
     m_present_mode := m_present_mode sc;
     m_descendant := m_descendant sc;
     m_ancestor := m_ancestor sc;
     m_device := m_device sc;
     m_queue := m_queue sc;
     m_page_flip_thread_run := m_page_flip_thread_run sc;
     m_is_valid := m_is_valid sc |}.

Definition with_pool (sc : swapchain_base) (pool : ring_buffer) : swapchain_base :=
  {| m_thread_sem_defined := m_thread_sem_defined sc;
     m_first_present := m_first_present sc;
     m_pending_buffer_pool := pool;
     m_swapchain_images := m_swapchain_images sc;
     m_surface := m_surface sc;
     m_present_mode := m_present_mode sc;
     m_descendant := m_descendant sc;
     m_ancestor := m_ancestor sc;
     m_device := m_device sc;
     m_queue := m_queue sc;
     m_page_flip_thread_run := m_page_flip_thread_run sc;
     m_is_valid := m_is_valid sc |}.

Definition with_descendant (sc : swapchain_base) (d : Z) : swapchain_base :=
  {| m_thread_sem_defined := m_thread_sem_defined sc;
     m_first_present := m_first_present sc;
     m_pending_buffer_pool := m_pending_buffer_pool sc;
     m_swapchain_images := m_swapchain_images sc;
     m_surface := m_surface sc;
     m_present_mode := m_present_mode sc;
     m_descendant := d;
     m_ancestor := m_ancestor sc;
     m_device := m_device sc;
     m_queue := m_queue sc;
     m_page_flip_thread_run := m_page_flip_thread_run sc;
     m_is_valid := m_is_valid sc |}.

Definition with_device (sc : swapchain_base) (device surface : Z) : swapchain_base :=
  {| m_thread_sem_defined := m_thread_sem_defined sc;
     m_first_present := m_first_present sc;
     m_pending_buffer_pool := m_pending_buffer_pool sc;
     m_swapchain_images := m_swapchain_images sc;
     m_surface := surface;
     m_present_mode := m_present_mode sc;
     m_descendant := m_descendant sc;
     m_ancestor := m_ancestor sc;
     m_device := device;
     m_queue := m_queue sc;
     m_page_flip_thread_run := m_page_flip_thread_run sc;
     m_is_valid := m_is_valid sc |}.

Definition with_queue (sc : swapchain_base) (queue : Z) : swapchain_base :=
  {| m_thread_sem_defined := m_thread_sem_defined sc;
     m_first_present := m_first_present sc;
     m_pending_buffer_pool := m_pending_buffer_pool sc;
     m_swapchain_images := m_swapchain_images sc;
     m_surface := m_surface sc;
     m_present_mode := m_present_mode sc;
     m_descendant := m_descendant sc;
     m_ancestor := m_ancestor sc;
     m_device := m_device sc;
     m_queue := queue;
     m_page_flip_thread_run := m_page_flip_thread_run sc;
     m_is_valid := m_is_valid sc |}.

Definition with_ancestor (sc : swapchain_base) (a : Z) : swapchain_base :=
  {| m_thread_sem_defined := m_thread_sem_defined sc;
     m_first_present := m_first_present sc;
     m_pending_buffer_pool := m_pending_buffer_pool sc;
     m_swapchain_images := m_swapchain_images sc;
     m_surface := m_surface sc;
     m_present_mode := m_present_mode sc;
     m_descendant := m_descendant sc;
     m_ancestor := a;
     m_device := m_device sc;
     m_queue := m_queue sc;
     m_page_flip_thread_run := m_page_flip_thread_run sc;
     m_is_valid := m_is_valid sc |}.

Definition with_thread_sem_defined (sc : swapchain_base) (b : bool) : swapchain_base :=
  {| m_thread_sem_defined := b;
     m_first_present := m_first_present sc;
     m_pending_buffer_pool := m_pending_buffer_pool sc;
     m_swapchain_images := m_swapchain_images sc;
     m_surface := m_surface sc;
     m_present_mode := m_present_mode sc;
     m_descendant := m_descendant sc;
     m_ancestor := m_ancestor sc;
     m_device := m_device sc;
     m_queue := m_queue sc;
     m_page_flip_thread_run := m_page_flip_thread_run sc;
     m_is_valid := m_is_valid sc |}.

Definition with_valid (sc : swapchain_base) (b : bool) : swapchain_base :=
  {| m_thread_sem_defined := m_thread_sem_defined sc;
     m_first_present := m_first_present sc;
     m_pending_buffer_pool := m_pending_buffer_pool sc;
     m_swapchain_images := m_swapchain_images sc;
     m_surface := m_surface sc;
     m_present_mode := m_present_mode sc;
     m_descendant := m_descendant sc;
     m_ancestor := m_ancestor sc;
     m_device := m_device sc;
     m_queue := m_queue sc;
     m_page_flip_thread_run := m_page_flip_thread_run sc;
     m_is_valid := b |}.

(** The state a freshly constructed object has (the constructor's
    initialiser list); [m_is_valid] is not initialised there. *)
Definition constructed (is_valid : bool) : swapchain_base :=
  {| m_thread_sem_defined := false;
     m_first_present := true;
     m_pending_buffer_pool := {| ring := []; head := 0; tail := 0; size := 0 |};
     m_swapchain_images := [];
     m_surface := VK_NULL_HANDLE;
     m_present_mode := VK_PRESENT_MODE_IMMEDIATE_KHR;
     m_descendant := VK_NULL_HANDLE;
     m_ancestor := VK_NULL_HANDLE;
     m_device := VK_NULL_HANDLE;
     m_queue := VK_NULL_HANDLE;
     m_page_flip_thread_run := true;
     m_is_valid := is_valid |}.

(** The swapchains that exist, by handle: a handle is the address of the
    object ([reinterpret_cast]). *)
Definition objects : Type := Z -> option swapchain_base.

Definition put (h : objects) (p : Z) (sc : swapchain_base) : objects :=
  fun q => if q =? p then Some sc else h q.

(** The two semaphores of class [timed_semaphore]. *)
Inductive semaphore : Type := m_free_image_semaphore | m_page_flip_semaphore.

Record VkSwapchainCreateInfoKHR : Type := Build_VkSwapchainCreateInfoKHR
  { surface : Z;
    minImageCount : Z;
    presentMode : VkPresentModeKHR;
    oldSwapchain : Z }.

Record VkPresentInfoKHR : Type := Build_VkPresentInfoKHR
  { pWaitSemaphores : list Z }.

(** What the swapchain calls and this file does not define: the device
    dispatch table, the presenter's virtual methods, the semaphores of
    [timed_semaphore], the host allocator and the POSIX calls, each a step on
    the state [World] of everything outside.  [sem_wait] stands for
    [timed_semaphore::wait(timeout)], [sem_post] for [post()] and
    [sem_init] for [init(count)]. *)
Record platform (World : Type) : Type := Build_platform
  { sem_init : semaphore -> Z -> World -> VkResult * World;
    sem_wait : semaphore -> Z -> World -> VkResult * World;
    sem_post : semaphore -> World -> World;
    get_free_buffer : Z -> World -> (VkResult * Z) * World;
    ResetFences : Z -> Z -> World -> VkResult * World;
    QueueSubmit : Z -> list Z -> Z -> World -> VkResult * World;
    GetDeviceQueue : Z -> World -> Z * World;
    SetDeviceLoaderData : Z -> Z -> World -> VkResult * World;
    host_allocation : Z -> World -> bool * World;
    init_platform : Z -> VkSwapchainCreateInfoKHR -> World -> VkResult * World;
    create_image : swapchain_image -> World -> (VkResult * swapchain_image) * World;
    destroy_image : swapchain_image -> World -> swapchain_image * World;
    posix_sem_init : World -> Z * World;
    start_thread : World -> World }.

Arguments sem_init {World}.
Arguments sem_wait {World}.
Arguments sem_post {World}.
Arguments get_free_buffer {World}.
Arguments ResetFences {World}.
Arguments QueueSubmit {World}.
Arguments GetDeviceQueue {World}.
Arguments SetDeviceLoaderData {World}.
Arguments host_allocation {World}.
Arguments init_platform {World}.
Arguments create_image {World}.
Arguments destroy_image {World}.
Arguments posix_sem_init {World}.
Arguments start_thread {World}.

(** Storage that [init] reads, or hands on, before anything was written to
    it: the local [int res], and the blocks the host allocator returns for
    the image array and for the ring. *)
Record indeterminate : Type := Build_indeterminate
  { res_value : Z;
    image_block : nat -> swapchain_image;
    ring_block : nat -> Z }.

Definition null_image : swapchain_image :=
  {| data := 0; image := VK_NULL_HANDLE; status := INVALID;
     present_fence := VK_NULL_HANDLE |}.

(** Does some image of [desc] have status PRESENTED or PENDING?  (The scan
    with its [break].) *)
Definition started_presenting (desc : swapchain_base) : bool :=
  existsb (fun img => status_eqb (status img) PRESENTED
                      || status_eqb (status img) PENDING)
          (m_swapchain_images desc).

(** The number of images with status ACQUIRED ([++num_acquired_images]). *)
Fixpoint count_acquired (imgs : list swapchain_image) : Z :=
  match imgs with
  | [] => 0
  | img :: rest =>
      (if status_eqb (status img) ACQUIRED then 1 else 0) + count_acquired rest
  end.

(** [ring[tail] = image_index; tail = (tail + 1) % size] *)
Definition enqueue (pool : ring_buffer) (image_index : Z) : outcome ring_buffer :=
  cells <- store (ring pool) (Z.to_nat (tail pool)) image_index ;;
  if size pool =? 0 then Undefined
  else Returns {| ring := cells; head := head pool;
                  tail := to_uint32 (tail pool + 1) mod size pool;
                  size := size pool |}.

Section Operations.

Variable NDEBUG : bool.
Context {World : Type}.
Variable P : platform World.

(** The [do ... while] of [get_swapchain_images]; [array] is
    [&m_swapchain_images[current_image]]. *)
Fixpoint copy_images (array : list swapchain_image) (current_image : Z)
    (num count : Z) (out : list Z) : outcome (VkResult * Z * list Z) :=
  match array with
  | [] => Undefined
  | img :: next =>
      out' <- store out (Z.to_nat current_image) (image img) ;;
      let current_image := current_image + 1 in
      if current_image =? num then Returns (VK_SUCCESS, current_image, out')
      else if current_image <? count then copy_images next current_image num count out'
      else
        (* If swapchain_image_count is smaller than the number of presentable
           images in the swapchain, VK_INCOMPLETE must be returned instead of
           VK_SUCCESS. *)
        Returns (VK_INCOMPLETE, current_image, out')
  end.

(** The result, the value left in [*swapchain_image_count] and the array. *)
Definition get_swapchain_images (sc : swapchain_base) (swapchain_image_count : Z)
    (swapchain_images : option (list Z))
  : outcome (VkResult * Z * option (list Z)) :=
  match swapchain_images with
  | None =>
      (* Return the number of swapchain images. *)
      Returns (VK_SUCCESS, m_num_swapchain_images sc, None)
  | Some out =>
      _ <- c_assert NDEBUG (m_num_swapchain_images sc >? 0) ;;
      _ <- c_assert NDEBUG (swapchain_image_count >? 0) ;;
      (* Populate array, write actual number of images returned. *)
      '(r, n, out') <- copy_images (m_swapchain_images sc) 0
                         (m_num_swapchain_images sc) swapchain_image_count out ;;
      Returns (r, n, Some out')
  end.

Definition queue_present (h : objects) (sc : swapchain_base) (queue : Z)
    (present_info : VkPresentInfoKHR) (image_index : Z) (w : World)
  : outcome (VkResult * swapchain_base * World) :=
  descendent_started_presenting <-
    (if negb (m_descendant sc =? VK_NULL_HANDLE) then
       match h (m_descendant sc) with
       | Some desc => Returns (started_presenting desc)
       | None => Undefined
       end
     else Returns false) ;;
  img <- load (m_swapchain_images sc) (Z.to_nat image_index) ;;
  _ <- c_assert NDEBUG (status_eqb (status img) ACQUIRED) ;;
  let '(result, w1) := ResetFences P (m_device sc) (present_fence img) w in
  if negb (is_success result) then Returns (result, sc, w1)
  else
    let '(result, w2) :=
      QueueSubmit P queue (pWaitSemaphores present_info) (present_fence img) w1 in
    if negb (is_success result) then Returns (result, sc, w2)
    else if descendent_started_presenting then
      (* If the descendant has started presenting, we should release the image
         however we do not want to block inside the main thread so we mark it
         as free and let the page flip thread take care of it. *)
      imgs <- store (m_swapchain_images sc) (Z.to_nat image_index) (set_status img FREE) ;;
      pool <- enqueue (m_pending_buffer_pool sc) image_index ;;
      Returns (VK_ERROR_OUT_OF_DATE_KHR, with_pool (with_images sc imgs) pool,
               sem_post P m_page_flip_semaphore w2)
    else
      imgs <- store (m_swapchain_images sc) (Z.to_nat image_index) (set_status img PENDING) ;;
      pool <- enqueue (m_pending_buffer_pool sc) image_index ;;
      Returns (VK_SUCCESS, with_pool (with_images sc imgs) pool,
               sem_post P m_page_flip_semaphore w2).

(** [for] over the images: those in FREE are destroyed. *)
Fixpoint destroy_free (imgs : list swapchain_image) (w : World)
  : list swapchain_image * World :=
  match imgs with
  | [] => ([], w)
  | img :: rest =>
      let '(img', w1) :=
        if status_eqb (status img) FREE then destroy_image P img w else (img, w) in
      let '(rest', w2) := destroy_free rest w1 in
      (img' :: rest', w2)
  end.

Definition deprecate (sc : swapchain_base) (descendant : Z) (w : World)
  : swapchain_base * World :=
  let '(imgs, w') := destroy_free (m_swapchain_images sc) w in
  (* Set its descendant. *)
  (with_descendant (with_images sc imgs) descendant, w').

Definition wait_for_free_buffer (timeout : Z) (w : World) : VkResult * World :=
  (* first see if a buffer is already marked as free *)
  let '(retval, w1) := sem_wait P m_free_image_semaphore 0 w in
  if is_not_ready retval then
    let '(retval, timeout, w2) := get_free_buffer P timeout w1 in
    if is_success retval then
      (* the sub-implementation has done it's thing, so re-check the semaphore *)
      sem_wait P m_free_image_semaphore timeout w2
    else (retval, w2)
  else (retval, w1).

(** [while (wait > 0) { wait_for_free_buffer(UINT64_MAX); --wait; }] *)
Fixpoint wait_loop (fuel : nat) (wait : Z) (w : World) : option World :=
  if wait >? 0 then
    match fuel with
    | O => None
    | S fuel' => wait_loop fuel' (wait - 1) (snd (wait_for_free_buffer UINT64_MAX w))
    end
  else Some w.

(** The value of [int wait]: the subtraction is done on [uint32_t]. *)
Definition pending_wait (sc : swapchain_base) : Z :=
  let num_acquired_images := count_acquired (m_swapchain_images sc) in
  to_int (to_uint32 (m_num_swapchain_images sc - num_acquired_images - 1)).

Definition wait_for_pending_buffers (sc : swapchain_base) (w : World) : option World :=
  let wait := pending_wait sc in
  wait_loop (Z.to_nat wait) wait w.

(** [for] over the image slots: the presenter's [create_image] on each, the
    first failure ends the loop. *)
Fixpoint create_images (slots : list swapchain_image) (w : World)
  : VkResult * list swapchain_image * World :=
  match slots with
  | [] => (VK_SUCCESS, [], w)
  | slot :: rest =>
      let '(result, slot', w1) := create_image P slot w in
      if negb (is_success result) then (result, slot' :: rest, w1)
      else
        let '(result, rest', w2) := create_images rest w1 in
        (result, slot' :: rest', w2)
  end.

Definition present_modes : list VkPresentModeKHR :=
  [VK_PRESENT_MODE_FIFO_KHR; VK_PRESENT_MODE_FIFO_RELAXED_KHR].

(** [init] on the object at address [self].  It yields the result, the
    object, the other swapchains (the ancestor is deprecated) and the world. *)
Definition init (junk : indeterminate) (self : Z) (h : objects)
    (sc : swapchain_base) (device : Z)
    (swapchain_create_info : VkSwapchainCreateInfoKHR) (w : World)
  : outcome (VkResult * swapchain_base * objects * World) :=
  _ <- c_assert NDEBUG (negb (device =? VK_NULL_HANDLE)) ;;
  _ <- c_assert NDEBUG (negb (surface swapchain_create_info =? VK_NULL_HANDLE)) ;;
  let res := res_value junk in
  let sc := with_device sc device (surface swapchain_create_info) in
  (* Check presentMode has a compatible value with swapchain *)
  let present_mode_found :=
    existsb (present_mode_eqb (presentMode swapchain_create_info)) present_modes in
  if negb present_mode_found then Returns (VK_ERROR_INITIALIZATION_FAILED, sc, h, w)
  else
    let num := Z.to_nat (to_uint32 (minImageCount swapchain_create_info)) in
    let '(allocated, w) := host_allocation P (Z.of_nat num) w in
    if negb allocated then
      Returns (VK_ERROR_OUT_OF_HOST_MEMORY, with_images sc [], h, w)
    else
      let sc := with_images sc (map (image_block junk) (seq 0 num)) in
      (* We have allocated images, we can call the platform init function *)
      let '(result, w) := init_platform P device swapchain_create_info w in
      if negb (is_success result) then Returns (result, sc, h, w)
      else
        (* Init image to invalid values. *)
        let sc := with_images sc (repeat null_image num) in
        (* Initialize ring buffer. *)
        let '(allocated, w) := host_allocation P (Z.of_nat num) w in
        if negb allocated then Returns (VK_ERROR_OUT_OF_HOST_MEMORY, sc, h, w)
        else
          let sc := with_pool sc {| ring := map (ring_block junk) (seq 0 num);
                                    head := 0; tail := 0; size := Z.of_nat num |} in
          let '(result, w) := sem_init P m_free_image_semaphore (Z.of_nat num) w in
          if negb (is_success result) then
            _ <- c_assert NDEBUG
                   (match result with VK_ERROR_OUT_OF_HOST_MEMORY => true | _ => false end) ;;
            Returns (result, sc, h, w)
          else
            let '(result, imgs, w) := create_images (m_swapchain_images sc) w in
            let sc := with_images sc imgs in
            if negb (is_success result) then Returns (result, sc, h, w)
            else
              let '(queue, w) := GetDeviceQueue P device w in
              let sc := with_queue sc queue in
              let '(result, w) := SetDeviceLoaderData P device queue w in
              if negb (is_success result) then Returns (result, sc, h, w)
              else
                (* Setup semaphore for signaling pageflip thread *)
                let '(result, w) := sem_init P m_page_flip_semaphore 0 w in
                if negb (is_success result) then Returns (result, sc, h, w)
                else
                  (* Only programming error can cause this to fail. *)
                  _ <- c_assert NDEBUG (res =? 0) ;;
                  if negb (res =? 0) then Returns (VK_ERROR_OUT_OF_HOST_MEMORY, sc, h, w)
                  else
                    let '(res, w) := posix_sem_init P w in
                    (* Only programming error can cause this to fail. *)
                    _ <- c_assert NDEBUG (res =? 0) ;;
                    if negb (res =? 0) then Returns (VK_ERROR_OUT_OF_HOST_MEMORY, sc, h, w)
                    else
                      let sc := with_thread_sem_defined sc true in
                      (* Launch page flipping thread *)
                      let w := start_thread P w in
                      if negb (oldSwapchain swapchain_create_info =? VK_NULL_HANDLE) then
                        (* Set ancestor. *)
                        let sc := with_ancestor sc (oldSwapchain swapchain_create_info) in
                        match h (m_ancestor sc) with
                        | None => Undefined
                        | Some ancestor =>
                            let '(ancestor, w) := deprecate ancestor self w in
                            Returns (VK_SUCCESS, with_valid sc true,
                                     put h (m_ancestor sc) ancestor, w)
                        end
                      else Returns (VK_SUCCESS, with_valid sc true, h, w).

End Operations.

End Wsi.

(** ** wsi/swapchain_base.cpp: acquire, unpresent, the page-flip worker and
    teardown *)

Module Lifecycle.

Import Wsi.

Definition with_first_present (sc : swapchain_base) (b : bool) : swapchain_base :=
  {| m_thread_sem_defined := m_thread_sem_defined sc;
     m_first_present := b;
     m_pending_buffer_pool := m_pending_buffer_pool sc;
     m_swapchain_images := m_swapchain_images sc;
     m_surface := m_surface sc;
     m_present_mode := m_present_mode sc;
     m_descendant := m_descendant sc;
     m_ancestor := m_ancestor sc;
     m_device := m_device sc;
     m_queue := m_queue sc;
     m_page_flip_thread_run := m_page_flip_thread_run sc;
     m_is_valid := m_is_valid sc |}.

Definition with_thread_run (sc : swapchain_base) (b : bool) : swapchain_base :=
  {| m_thread_sem_defined := m_thread_sem_defined sc;
     m_first_present := m_first_present sc;
     m_pending_buffer_pool := m_pending_buffer_pool sc;
     m_swapchain_images := m_swapchain_images sc;
     m_surface := m_surface sc;
     m_present_mode := m_present_mode sc;
     m_descendant := m_descendant sc;
     m_ancestor := m_ancestor sc;
     m_device := m_device sc;
     m_queue := m_queue sc;
     m_page_flip_thread_run := b;
     m_is_valid := m_is_valid sc |}.

(** The fields of [VkSubmitInfo] that [acquire_next_image] fills in. *)
Record VkSubmitInfo : Type := Build_VkSubmitInfo
  { pSignalSemaphores : list Z;
    commandBufferCount : Z }.

(** The further calls to the outside made by the functions of this part:
    [SubmitSignal] is [disp.QueueSubmit] with a signalling-only submit,
    [WaitForFences device fence timeout] is the dispatch entry of that name,
    [present_image] is the presenter's virtual method, which reaches the
    swapchain itself (it may call [unpresent_image]); the POSIX semaphore
    calls name the swapchain whose [m_start_present_semaphore] they act on. *)
Record calls (World : Type) : Type := Build_calls
  { SubmitSignal : Z -> VkSubmitInfo -> Z -> World -> VkResult * World;
    WaitForFences : Z -> Z -> Z -> World -> VkResult * World;
    QueueWaitIdle : Z -> World -> World;
    present_image : swapchain_base -> Z -> World -> swapchain_base * World;
    posix_sem_post : Z -> World -> World;
    posix_sem_wait : Z -> World -> World;
    posix_sem_destroy : Z -> World -> Z * World;
    joinable : World -> bool;
    join : World -> World;
    host_free : World -> World }.

Arguments SubmitSignal {World}.
Arguments WaitForFences {World}.
Arguments QueueWaitIdle {World}.
Arguments present_image {World}.
Arguments posix_sem_post {World}.
Arguments posix_sem_wait {World}.
Arguments posix_sem_destroy {World}.
Arguments joinable {World}.
Arguments join {World}.
Arguments host_free {World}.

(** The scan of [acquire_next_image]: the first image in FREE becomes
    ACQUIRED and its index is written; [i] is the index of the head of
    [imgs].  Without a FREE image nothing is written. *)
Fixpoint acquire_first_free (imgs : list swapchain_image) (i : Z)
  : list swapchain_image * option Z :=
  match imgs with
  | [] => ([], None)
  | img :: rest =>
      if status_eqb (status img) FREE then (set_status img ACQUIRED :: rest, Some i)
      else
        let '(rest', found) := acquire_first_free rest (i + 1) in
        (img :: rest', found)
  end.

Definition is_some {A : Type} (o : option A) : bool :=
  match o with Some _ => true | None => false end.

(** [ring[head]] is taken and [head] advances. *)
Definition dequeue (pool : ring_buffer) : outcome (Z * ring_buffer) :=
  pending_index <- load (ring pool) (Z.to_nat (head pool)) ;;
  if size pool =? 0 then Undefined
  else Returns (pending_index,
                {| ring := ring pool;
                   head := to_uint32 (head pool + 1) mod size pool;
                   tail := tail pool;
                   size := size pool |}).

(** What one pass through the loop of [page_flip_thread] ends with. *)
Inductive pass : Type :=
| ThreadEnds      (* [break] *)
| LoopAgain.      (* [continue], or the end of the body *)

(** Whether [m_swapchain_images] and [m_pending_buffer_pool.ring] point to
    a block of no cell, which is what a successful allocation of size 0
    leaves: the lists of the model cannot tell such a block from a null
    pointer. *)
Record blocks : Type := Build_blocks
  { images_block : bool;
    ring_block : bool }.

Section Operations.

Variable NDEBUG : bool.
Context {World : Type}.
Variable P : platform World.
Variable C : calls World.

(** The result, the swapchain, the index written to [*image_index] if one
    was written, and the world. *)
Definition acquire_next_image (sc : swapchain_base) (timeout semaphore fence : Z)
    (w : World) : outcome (VkResult * swapchain_base * option Z * World) :=
  let '(retval, w1) := wait_for_free_buffer P timeout w in
  if negb (is_success retval) then Returns (retval, sc, None, w1)
  else if negb (m_is_valid sc) then Returns (VK_ERROR_OUT_OF_HOST_MEMORY, sc, None, w1)
  else
    let '(imgs, image_index) := acquire_first_free (m_swapchain_images sc) 0 in
    let sc := with_images sc imgs in
    _ <- c_assert NDEBUG (is_some image_index) ;;
    if negb (semaphore =? VK_NULL_HANDLE) || negb (fence =? VK_NULL_HANDLE) then
      let submit :=
        {| pSignalSemaphores :=
             if negb (semaphore =? VK_NULL_HANDLE) then [semaphore] else [];
           commandBufferCount := 0 |} in
      let '(retval, w2) := SubmitSignal C (m_queue sc) submit fence w1 in
      _ <- c_assert NDEBUG (is_success retval) ;;
      Returns (retval, sc, image_index, w2)
    else Returns (retval, sc, image_index, w1).

Definition unpresent_image (sc : swapchain_base) (presented_index : Z) (w : World)
  : outcome (swapchain_base * World) :=
  img <- load (m_swapchain_images sc) (Z.to_nat presented_index) ;;
  let img := set_status img FREE in
  let '(img, w1) :=
    if negb (m_descendant sc =? VK_NULL_HANDLE) then destroy_image P img w
    else (img, w) in
  imgs <- store (m_swapchain_images sc) (Z.to_nat presented_index) img ;;
  Returns (with_images sc imgs, sem_post P m_free_image_semaphore w1).

Definition clear_ancestor (sc : swapchain_base) : swapchain_base :=
  with_ancestor sc VK_NULL_HANDLE.

Definition clear_descendant (sc : swapchain_base) : swapchain_base :=
  with_descendant sc VK_NULL_HANDLE.

(** One pass through the [while (true)] of [page_flip_thread], run without
    another thread in between, for the swapchain [sc] at address [self].
    [PA] holds the semaphores and the presenter of the ancestor. *)
Definition page_flip_pass (PA : platform World) (self : Z) (h : objects)
    (sc : swapchain_base) (w : World) : outcome (pass * swapchain_base * World) :=
  (* Check if this thread needs to be terminated. *)
  if negb (m_page_flip_thread_run sc) then Returns (ThreadEnds, sc, w)
  else
    let '(vk_res, w) := sem_wait P m_page_flip_semaphore 0 w in
    if is_not_ready vk_res then
      (* Image is not ready yet. *)
      Returns (LoopAgain, sc, w)
    else
      _ <- c_assert NDEBUG (is_success vk_res) ;;
      '(pending_index, pool) <- dequeue (m_pending_buffer_pool sc) ;;
      let sc := with_pool sc pool in
      img <- load (m_swapchain_images sc) (Z.to_nat pending_index) ;;
      (* We wait for the fence of the oldest pending image to be signalled. *)
      let '(vk_res, w) := WaitForFences C (m_device sc) (present_fence img) UINT64_MAX w in
      if negb (is_success vk_res) then
        Returns (LoopAgain, with_valid sc false, sem_post P m_free_image_semaphore w)
      else if status_eqb (status img) FREE then
        (* the queue_present operation has marked the image as FREE so we
           simply release it and continue *)
        let '(img, w) := destroy_image P img w in
        imgs <- store (m_swapchain_images sc) (Z.to_nat pending_index) img ;;
        Returns (LoopAgain, with_images sc imgs, sem_post P m_free_image_semaphore w)
      else if m_first_present sc then
        w <- (if negb (m_ancestor sc =? VK_NULL_HANDLE) then
                match h (m_ancestor sc) with
                | None => Undefined
                | Some ancestor =>
                    match wait_for_pending_buffers PA ancestor w with
                    | Some w => Returns w
                    | None => Undefined
                    end
                end
              else Returns w) ;;
        let w := posix_sem_post C self w in
        let '(sc, w) := present_image C sc pending_index w in
        Returns (LoopAgain, with_first_present sc false, w)
      else
        (* The swapchain has already started presenting. *)
        let '(sc, w) := present_image C sc pending_index w in
        Returns (LoopAgain, sc, w).

(** [for] over all images: the presenter's [destroy_image] on each. *)
Fixpoint destroy_all (imgs : list swapchain_image) (w : World)
  : list swapchain_image * World :=
  match imgs with
  | [] => ([], w)
  | img :: rest =>
      let '(img', w1) := destroy_image P img w in
      let '(rest', w2) := destroy_all rest w1 in
      (img' :: rest', w2)
  end.

Definition is_nil {A : Type} (l : list A) : bool :=
  match l with [] => true | _ :: _ => false end.

(** [m_swapchain_images != nullptr]: an array with cells is not null; for
    an array without cells [held] says whether it is a block. *)
Definition images_not_null (sc : swapchain_base) (held : blocks) : bool :=
  negb (is_nil (m_swapchain_images sc)) || images_block held.

(** [m_pending_buffer_pool.ring != nullptr], likewise. *)
Definition ring_not_null (sc : swapchain_base) (held : blocks) : bool :=
  negb (is_nil (ring (m_pending_buffer_pool sc))) || ring_block held.

(** [teardown] of the swapchain [sc] at address [self], whose blocks are
    [held]. *)
Definition teardown (self : Z) (h : objects) (sc : swapchain_base) (held : blocks)
    (w : World) : outcome (swapchain_base * objects * World) :=
  descendent_started_presenting <-
    (if negb (m_descendant sc =? VK_NULL_HANDLE) then
       match h (m_descendant sc) with
       | Some desc => Returns (started_presenting desc)
       | None => Undefined
       end
     else Returns false) ;;
  let w :=
    if descendent_started_presenting then posix_sem_wait C (m_descendant sc) w else w in
  (* If descendant started presenting, there is no pending buffer in the swapchain. *)
  w <- (if negb descendent_started_presenting then
          match wait_for_pending_buffers P sc w with
          | Some w => Returns w
          | None => Undefined
          end
        else Returns w) ;;
  (* Make sure the vkFences are done signaling. *)
  let w := QueueWaitIdle C (m_queue sc) w in
  let '(sc, w) :=
    if m_thread_sem_defined sc then
      (* Tell flip thread to end. *)
      let sc := with_thread_run sc false in
      let w := if joinable C w then join C w else w in
      let '(_, w) := posix_sem_destroy C self w in
      (sc, w)
    else (sc, w) in
  h <- (if negb (m_descendant sc =? VK_NULL_HANDLE) then
          match h (m_descendant sc) with
          | Some desc => Returns (put h (m_descendant sc) (clear_ancestor desc))
          | None => Undefined
          end
        else Returns h) ;;
  h <- (if negb (m_ancestor sc =? VK_NULL_HANDLE) then
          match h (m_ancestor sc) with
          | Some anc => Returns (put h (m_ancestor sc) (clear_descendant anc))
          | None => Undefined
          end
        else Returns h) ;;
  (* Release the images array. *)
  let '(sc, w) :=
    if images_not_null sc held then
      let '(imgs, w) := destroy_all (m_swapchain_images sc) w in
      (with_images sc imgs, host_free C w)
    else (sc, w) in
  (* Free ring buffer. *)
  let w := if ring_not_null sc held then host_free C w else w in
  Returns (sc, h, w).

End Operations.

End Lifecycle.

(** ** wsi/time_domains.hpp and wsi/time_domains.cpp *)

Module TimeDomains.

Import Wsi.

(** vulkan_core.h *)
Definition VK_TIME_DOMAIN_PRESENT_STAGE_LOCAL_EXT : Z := 1000208000.

Record swapchain_calibrated_time : Type := Build_swapchain_calibrated_time
  { time_domain : Z;   (* VkTimeDomainKHR *)
    offset : Z }.      (* uint64_t *)

(** A [swapchain_time_domain]: its present stages and what its virtual
    method [calibrate] returns. *)
Record swapchain_time_domain : Type := Build_swapchain_time_domain
  { m_present_stages : Z;   (* VkPresentStageFlagsEXT *)
    calibrate_result : swapchain_calibrated_time }.

Definition get_present_stages (d : swapchain_time_domain) : Z := m_present_stages d.

(** The class [vulkan_time_domain]: the domain it was built with, offset 0. *)
Definition vulkan_time_domain (presentStages m_time_domain : Z) : swapchain_time_domain :=
  {| m_present_stages := presentStages;
     calibrate_result := {| time_domain := m_time_domain; offset := 0 |} |}.

(** [swapchain_time_domains::calibrate]: the result and what is written to
    [*calibrated_time], if anything. *)
Fixpoint calibrate (m_time_domains : list swapchain_time_domain) (present_stage : Z)
  : VkResult * option swapchain_calibrated_time :=
  match m_time_domains with
  | [] => (VK_ERROR_OUT_OF_HOST_MEMORY, None)
  | domain :: rest =>
      if negb (Z.land (get_present_stages domain) present_stage =? 0)
      then (VK_SUCCESS, Some (calibrate_result domain))
      else calibrate rest present_stage
  end.

(** [VkSwapchainTimeDomainPropertiesEXT]: the two arrays are pointers. *)
Record VkSwapchainTimeDomainPropertiesEXT : Type :=
  Build_VkSwapchainTimeDomainPropertiesEXT
  { timeDomainCount : Z;
    pTimeDomains : option (list Z);
    pTimeDomainIds : option (list Z) }.

(** [pProps->pTimeDomains[0] = VK_TIME_DOMAIN_PRESENT_STAGE_LOCAL_EXT] *)
Definition write_domain (domains : option (list Z)) : outcome (option (list Z)) :=
  match domains with
  | None => Undefined
  | Some cells =>
      cells' <- store cells 0 VK_TIME_DOMAIN_PRESENT_STAGE_LOCAL_EXT ;;
      Returns (Some cells')
  end.

(** [set_swapchain_time_domain_properties]: the result, the struct behind
    the first pointer and the counter behind the second. *)
Definition set_swapchain_time_domain_properties
    (pSwapchainTimeDomainProperties : option VkSwapchainTimeDomainPropertiesEXT)
    (pTimeDomainsCounter : option Z)
  : outcome (VkResult * option VkSwapchainTimeDomainPropertiesEXT * option Z) :=
  match pTimeDomainsCounter with
  | Some counter =>
      match pSwapchainTimeDomainProperties with
      | None => Returns (VK_SUCCESS, None, Some 1)
      | Some props =>
          domains <- write_domain (pTimeDomains props) ;;
          let props' := {| timeDomainCount := 1;
                           pTimeDomains := domains;
                           pTimeDomainIds := None |} in
          Returns (if counter <? 1 then VK_INCOMPLETE else VK_SUCCESS,
                   Some props', Some counter)
      end
  | None =>
      match pSwapchainTimeDomainProperties with
      | Some props =>
          match pTimeDomains props, pTimeDomainIds props with
          | None, None =>
              Returns (VK_SUCCESS,
                       Some {| timeDomainCount := 1;
                               pTimeDomains := None;
                               pTimeDomainIds := None |},
                       None)
          | Some _, Some _ =>
              domains <- write_domain (pTimeDomains props) ;;
              Returns (VK_SUCCESS,
                       Some {| timeDomainCount := 1;
                               pTimeDomains := domains;
                               pTimeDomainIds := None |},
                       None)
          | _, _ => Returns (VK_SUCCESS, Some props, None)
          end
      | None => Returns (VK_SUCCESS, None, None)
      end
  end.

End TimeDomains.

(** * Vocabulary of the statements *)

(** [round_up(size, 64)] as the specification writes it. *)
Definition round_up64 (size : Z) : Z := 64 * ((size + 63) / 64).

(** The stride of a plane of [b] bits per pixel in an image [w] wide. *)
Definition plane_stride (w b : Z) : Z := round_up64 (w * (b / 8)).

Section AllocatorVocabulary.

Import Helpers.

(** The row of the table a fourcc resolves to: the first one whose format is
    the fourcc without its big-endian bit. *)
Definition lookup (table : list fmt_spec) (fourcc : Z) : option fmt_spec :=
  find (fun s => Z.land fourcc (Z.ones 31) =? drm_format s) table.

(** A row as the code expects it: between one and [WSIALLOC_MAX_PLANES]
    planes, and four bytes of bits-per-pixel that are multiples of 8. *)
Definition row_ok (s : fmt_spec) : bool :=
  (1 <=? nr_planes s) && (nr_planes s <=? WSIALLOC_MAX_PLANES)
  && (length (bpp s) =? 4)%nat
  && forallb (fun b => (0 <=? b) && (b <? 256) && (b mod 8 =? 0)) (bpp s).

Definition table_ok (table : list fmt_spec) : bool := forallb row_ok table.

(** A candidate the allocator can serve: it resolves, to one plane, and its
    modifier is linear. *)
Definition acceptable (table : list fmt_spec) (f : wsialloc_format) : bool :=
  match lookup table (fourcc f) with
  | Some s => (nr_planes s =? 1) && (modifier f =? DRM_FORMAT_MOD_LINEAR)
  | None => false
  end.

(** Bits per pixel of the first plane of a candidate. *)
Definition bits_of (table : list fmt_spec) (f : wsialloc_format) : Z :=
  match lookup table (fourcc f) with
  | Some s => hd 0 (bpp s)
  | None => 0
  end.

(** A request that meets the input contract: [array] is what [formats] points
    to, [format_count] is its length and is not zero, and both dimensions are
    in [1, 128000]. *)
Definition request_ok (info : wsialloc_allocate_info) (array : list wsialloc_format)
  : Prop :=
  formats info = Some array
  /\ format_count info = Z.of_nat (length array)
  /\ array <> []
  /\ 1 <= width info <= MAX_IMAGE_SIZE
  /\ 1 <= height info <= MAX_IMAGE_SIZE.

(** The per-plane arrays of a result have [WSIALLOC_MAX_PLANES] cells. *)
Definition result_ok (r : wsialloc_allocate_result) : bool :=
  (length (average_row_strides r) =? 4)%nat
  && (length (offsets r) =? 4)%nat
  && (length (buffer_fds r) =? 4)%nat.

(** The state of the walk once candidate [c] was taken. *)
Definition accepted_state (table : list fmt_spec) (info : wsialloc_allocate_info)
    (c : wsialloc_format) (l : locals) : walk_state :=
  let stride := plane_stride (width info) (bits_of table c) in
  {| err := WSIALLOC_ERROR_NONE;
     vars := {| local_strides := update (local_strides l) 0 (Some stride);
                local_offsets := update (local_offsets l) 0 (Some 0);
                total_size := to_uint32 (stride * height info) |};
     selected_format_desc :=
       {| format := c;
          format_spec := match lookup table (fourcc c) with
                         | Some s => s
                         | None => format_spec zero_descriptor
                         end |} |}.

(** The result written for candidate [c], with [fds] as its descriptors. *)
Definition populated (table : list fmt_spec) (info : wsialloc_allocate_info)
    (c : wsialloc_format) (r : wsialloc_allocate_result) (fds : list Z)
  : wsialloc_allocate_result :=
  {| result_format := c;
     average_row_strides :=
       update (average_row_strides r) 0 (plane_stride (width info) (bits_of table c));
     offsets := update (offsets r) 0 0;
     buffer_fds := fds;
     is_disjoint := false |}.

(** The ways a call can violate the input contract while [info] can be read. *)
Definition violates_contract {Allocator : Type} (allocator : option Allocator)
    (info : wsialloc_allocate_info) (result : option wsialloc_allocate_result)
  : Prop :=
  allocator = None \/ result = None
  \/ format_count info = 0 \/ formats info = None
  \/ width info < 1 \/ MAX_IMAGE_SIZE < width info
  \/ height info < 1 \/ MAX_IMAGE_SIZE < height info.

(** Example data: the fourcc codes XR24 and NV12, a table of two rows (one
    plane of 32 bits; two planes of 8 and 16 bits), an empty result, and a
    callback that hands out descriptor [fd] and notes the size it was asked
    for. *)
Definition XR24 : Z := 875713112.
Definition NV12 : Z := 842094158.

Definition example_table : list fmt_spec :=
  [ {| drm_format := XR24; nr_planes := 1; bpp := [32; 0; 0; 0] |};
    {| drm_format := NV12; nr_planes := 2; bpp := [8; 16; 0; 0] |} ].

Definition linear (fourcc : Z) : wsialloc_format :=
  {| fourcc := fourcc; modifier := DRM_FORMAT_MOD_LINEAR; flags := 0 |}.

Definition empty_result : wsialloc_allocate_result :=
  {| result_format := {| fourcc := 0; modifier := 0; flags := 0 |};
     average_row_strides := [0; 0; 0; 0];
     offsets := [0; 0; 0; 0];
     buffer_fds := [-1; -1; -1; -1];
     is_disjoint := true |}.

Definition noting_callback (fd : Z) : @wsiallocp_alloc_callback unit (list Z) :=
  fun _ _ size sizes => Returns (fd, sizes ++ [size]).

(** Three requests: a 32768 x 32768 image in XR24; the negotiation of an
    unknown fourcc, XR24 and NV12 for a 1920 x 1080 image; and the same with
    NO_MEMORY set. *)
Definition big_square_request : wsialloc_allocate_info :=
  {| formats := Some [linear XR24]; format_count := 1;
     width := 32768; height := 32768; info_flags := 0 |}.

Definition negotiation : list wsialloc_format :=
  [ {| fourcc := 88; modifier := 7; flags := 0 |}; linear XR24; linear NV12 ].

Definition negotiation_request (flags : Z) : wsialloc_allocate_info :=
  {| formats := Some negotiation; format_count := 3;
     width := 1920; height := 1080; info_flags := flags |}.

End AllocatorVocabulary.

Section BackendVocabulary.

Import Helpers.

(** Example kernels whose state is the list of sizes asked of the allocation
    ioctl.  [malloc] succeeds with a block of arbitrary content, [open]
    yields descriptor 5, the allocation ioctl yields descriptor 9; the ION
    heap query answers with [ret] and the heaps [heaps]. *)
Definition example_dma_kernel : DmaBufHeaps.kernel (list Z) :=
  {| DmaBufHeaps.malloc := fun k =>
       (Some {| DmaBufHeaps.memory_fd := 77; DmaBufHeaps.protected_fd := 78 |}, k);
     DmaBufHeaps.open_heap := fun k => (5, k);
     DmaBufHeaps.close := fun _ k => k;
     DmaBufHeaps.heap_ioctl := fun _ len k => ((0, 0, 9), k ++ [len]) |}.

Definition example_ion_kernel (ret : Z) (heaps : list Ion.ion_heap_data)
  : Ion.kernel (list Z) :=
  {| Ion.malloc := fun k =>
       (Some {| Ion.fd := 77; Ion.alloc_heap_id := 78;
                Ion.protected_alloc_heap_id := 79;
                Ion.protected_heap_exists := true |}, k);
     Ion.open_ion := fun k => (5, k);
     Ion.close := fun _ k => k;
     Ion.heap_query := fun _ k => ((ret, Z.of_nat (length heaps), heaps), k);
     Ion.ion_ioctl := fun _ len _ k => ((0, 9), k ++ [len]) |}.

Definition protected_request : wsialloc_allocate_info :=
  negotiation_request WSIALLOC_ALLOCATE_PROTECTED.

End BackendVocabulary.

Section SwapchainVocabulary.

Import Wsi.

(** The descendant exists and has an image in PRESENTED or PENDING. *)
Definition descendant_took_over (h : objects) (sc : swapchain_base) : bool :=
  negb (m_descendant sc =? VK_NULL_HANDLE)
  && match h (m_descendant sc) with
     | Some desc => started_presenting desc
     | None => false
     end.

(** The pending ring as [init] leaves it and the present path keeps it: as
    many cells as [size] says, at least one, and [tail] inside. *)
Definition pool_ok (pool : ring_buffer) : Prop :=
  size pool = Z.of_nat (length (ring pool))
  /\ 0 <= tail pool < size pool
  /\ size pool < 2 ^ 32.

(** The swapchain after a present of image [image_index], then in [s]. *)
Definition presented (sc : swapchain_base) (image_index : Z) (img : swapchain_image)
    (s : status_t) : swapchain_base :=
  let pool := m_pending_buffer_pool sc in
  with_pool
    (with_images sc (update (m_swapchain_images sc) (Z.to_nat image_index)
                            (set_status img s)))
    {| ring := update (ring pool) (Z.to_nat (tail pool)) image_index;
       head := head pool;
       tail := (tail pool + 1) mod size pool;
       size := size pool |}.

(** The calls that reach the outside, in the order they are made. *)
Inductive call : Type :=
| CallSemInit (s : semaphore) (count : Z)
| CallSemWait (s : semaphore) (timeout : Z)
| CallSemPost (s : semaphore)
| CallGetFreeBuffer (timeout : Z)
| CallResetFences (fence : Z)
| CallQueueSubmit (queue fence : Z)
| CallGetDeviceQueue
| CallSetDeviceLoaderData
| CallHostAllocation (cells : Z)
| CallInitPlatform
| CallCreateImage
| CallDestroyImage
| CallPosixSemInit
| CallStartThread.

(** An example platform that notes every call.  [reset] and [submit] are the
    results of [ResetFences] and [QueueSubmit], [poll] is the result of a
    semaphore wait with timeout 0; every other call succeeds. *)
Definition noting_platform (reset submit poll : VkResult) : platform (list call) :=
  {| sem_init := fun s n w => (VK_SUCCESS, w ++ [CallSemInit s n]);
     sem_wait := fun s t w =>
       (if t =? 0 then poll else VK_SUCCESS, w ++ [CallSemWait s t]);
     sem_post := fun s w => w ++ [CallSemPost s];
     get_free_buffer := fun t w => ((VK_SUCCESS, t), w ++ [CallGetFreeBuffer t]);
     ResetFences := fun _ f w => (reset, w ++ [CallResetFences f]);
     QueueSubmit := fun q _ f w => (submit, w ++ [CallQueueSubmit q f]);
     GetDeviceQueue := fun _ w => (11, w ++ [CallGetDeviceQueue]);
     SetDeviceLoaderData := fun _ _ w => (VK_SUCCESS, w ++ [CallSetDeviceLoaderData]);
     host_allocation := fun n w => (true, w ++ [CallHostAllocation n]);
     init_platform := fun _ _ w => (VK_SUCCESS, w ++ [CallInitPlatform]);
     create_image := fun slot w =>
       ((VK_SUCCESS, {| data := 0; image := 40; status := FREE; present_fence := 50 |}),
        w ++ [CallCreateImage]);
     destroy_image := fun slot w => (set_status slot INVALID, w ++ [CallDestroyImage]);
     posix_sem_init := fun w => (0, w ++ [CallPosixSemInit]);
     start_thread := fun w => w ++ [CallStartThread] |}.

Definition all_succeed : platform (list call) :=
  noting_platform VK_SUCCESS VK_SUCCESS VK_SUCCESS.



(** A platform together with the list of the calls made to it: every call
    is answered as [P] answers it and noted behind the earlier ones. *)
Definition logged {World : Type} (P : platform World) : platform (World * list call) :=
  {| sem_init := fun s n v =>
       let '(r, w) := sem_init P s n (fst v) in (r, (w, snd v ++ [CallSemInit s n]));
     sem_wait := fun s t v =>
       let '(r, w) := sem_wait P s t (fst v) in (r, (w, snd v ++ [CallSemWait s t]));
     sem_post := fun s v => (sem_post P s (fst v), snd v ++ [CallSemPost s]);
     get_free_buffer := fun t v =>
       let '(r, w) := get_free_buffer P t (fst v) in
       (r, (w, snd v ++ [CallGetFreeBuffer t]));
     ResetFences := fun d f v =>
       let '(r, w) := ResetFences P d f (fst v) in (r, (w, snd v ++ [CallResetFences f]));
     QueueSubmit := fun q s f v =>
       let '(r, w) := QueueSubmit P q s f (fst v) in
       (r, (w, snd v ++ [CallQueueSubmit q f]));
     GetDeviceQueue := fun d v =>
       let '(q, w) := GetDeviceQueue P d (fst v) in (q, (w, snd v ++ [CallGetDeviceQueue]));
     SetDeviceLoaderData := fun d q v =>
       let '(r, w) := SetDeviceLoaderData P d q (fst v) in
       (r, (w, snd v ++ [CallSetDeviceLoaderData]));
     host_allocation := fun n v =>
       let '(b, w) := host_allocation P n (fst v) in
       (b, (w, snd v ++ [CallHostAllocation n]));
     init_platform := fun d i v =>
       let '(r, w) := init_platform P d i (fst v) in (r, (w, snd v ++ [CallInitPlatform]));
     create_image := fun slot v =>
       let '(r, w) := create_image P slot (fst v) in (r, (w, snd v ++ [CallCreateImage]));
     destroy_image := fun slot v =>
       let '(r, w) := destroy_image P slot (fst v) in
       (r, (w, snd v ++ [CallDestroyImage]));
     posix_sem_init := fun v =>
       let '(r, w) := posix_sem_init P (fst v) in (r, (w, snd v ++ [CallPosixSemInit]));
     start_thread := fun v => (start_thread P (fst v), snd v ++ [CallStartThread]) |}.




(** An example platform on which no buffer ever gets free: a poll answers
    NOT_READY and the presenter answers TIMEOUT. *)
Definition without_free_buffer : platform (list call) :=
  {| sem_init := sem_init all_succeed;
     sem_wait := sem_wait (noting_platform VK_SUCCESS VK_SUCCESS VK_NOT_READY);
     sem_post := sem_post all_succeed;
     get_free_buffer := fun t w => ((VK_TIMEOUT, t), w ++ [CallGetFreeBuffer t]);
     ResetFences := ResetFences all_succeed;
     QueueSubmit := QueueSubmit all_succeed;
     GetDeviceQueue := GetDeviceQueue all_succeed;
     SetDeviceLoaderData := SetDeviceLoaderData all_succeed;
     host_allocation := host_allocation all_succeed;
     init_platform := init_platform all_succeed;
     create_image := create_image all_succeed;
     destroy_image := destroy_image all_succeed;
     posix_sem_init := posix_sem_init all_succeed;
     start_thread := start_thread all_succeed |}.

(** The number of handles [get_swapchain_images] copies. *)
Definition copied (sc : swapchain_base) (count : Z) : Z :=
  Z.min count (m_num_swapchain_images sc).

Definition example_image (handle : Z) (s : status_t) : swapchain_image :=
  {| data := 0; image := handle; status := s; present_fence := handle + 100 |}.

(** An example swapchain of four images, with one present pending. *)
Definition example_swapchain : swapchain_base :=
  with_pool
    (with_images (constructed true)
       [ example_image 1 PRESENTED; example_image 2 PENDING;
         example_image 3 ACQUIRED; example_image 4 FREE ])
    {| ring := [1; 0; 0; 0]; head := 0; tail := 1; size := 4 |}.

(** No other swapchain exists. *)
Definition no_objects : objects := fun _ => None.

(** The result of a call of [init], when it returns. *)
Definition init_result {World : Type}
    (o : outcome (VkResult * swapchain_base * objects * World)) : option VkResult :=
  match o with
  | Returns (result, _, _, _) => Some result
  | _ => None
  end.

Definition junk (res : Z) : indeterminate :=
  {| res_value := res;
     image_block := fun _ => example_image 9 PRESENTED;
     ring_block := fun _ => 99 |}.

Definition fifo_create_info : VkSwapchainCreateInfoKHR :=
  {| surface := 21; minImageCount := 3;
     presentMode := VK_PRESENT_MODE_FIFO_KHR; oldSwapchain := VK_NULL_HANDLE |}.

End SwapchainVocabulary.

Section FurtherVocabulary.

Import Helpers.

(** Two more requests: one that offers NV12 only, and the negotiation for an
    image of width 0. *)
Definition nv12_request : wsialloc_allocate_info :=
  {| formats := Some [linear NV12]; format_count := 1;
     width := 1920; height := 1080; info_flags := 0 |}.

Definition zero_width_request : wsialloc_allocate_info :=
  {| formats := Some negotiation; format_count := 3;
     width := 0; height := 1080; info_flags := 0 |}.

(** An example DMA-BUF kernel whose allocation ioctl fails with [errno] 12
    and whose [close] notes the descriptor as a negative number. *)
Definition failing_dma_kernel : DmaBufHeaps.kernel (list Z) :=
  {| DmaBufHeaps.malloc := fun k =>
       (Some {| DmaBufHeaps.memory_fd := 77; DmaBufHeaps.protected_fd := 78 |}, k);
     DmaBufHeaps.open_heap := fun k => (5, k);
     DmaBufHeaps.close := fun fd k => k ++ [- fd];
     DmaBufHeaps.heap_ioctl := fun _ len k => ((-1, 12, 0), k ++ [len]) |}.

(** An example ION kernel whose [malloc] fails. *)
Definition ion_kernel_without_memory : Ion.kernel (list Z) :=
  {| Ion.malloc := fun k => (None, k);
     Ion.open_ion := fun k => (5, k);
     Ion.close := fun _ k => k;
     Ion.heap_query := fun _ k => ((0, 0, []), k);
     Ion.ion_ioctl := fun _ len _ k => ((0, 9), k ++ [len]) |}.

End FurtherVocabulary.

Section LifecycleVocabulary.

Import Wsi.
Import Lifecycle.

(** The pending ring [pool] holds the indices [xs], oldest first: they sit
    in the cells from [head] on, modulo the capacity, and [tail] is the cell
    after the last of them. *)
Definition holds (pool : ring_buffer) (xs : list Z) : Prop :=
  size pool = Z.of_nat (length (ring pool))
  /\ size pool < 2 ^ 32
  /\ 0 <= head pool < size pool
  /\ Z.of_nat (length xs) <= size pool
  /\ tail pool = (head pool + Z.of_nat (length xs)) mod size pool
  /\ forall j : nat,
       (j < length xs)%nat ->
       nth_error (ring pool) (Z.to_nat ((head pool + Z.of_nat j) mod size pool))
       = nth_error xs j.

(** Example calls: a signalling submit answers [submit], a fence wait
    answers [fence], the presenter puts the image in PRESENTED; the world is
    left as it is. *)
Definition quiet_calls (submit fence : VkResult) : calls (list call) :=
  {| SubmitSignal := fun _ _ _ w => (submit, w);
     WaitForFences := fun _ _ _ w => (fence, w);
     QueueWaitIdle := fun _ w => w;
     present_image := fun sc i w =>
       (with_images sc
          (match nth_error (m_swapchain_images sc) (Z.to_nat i) with
           | Some img => update (m_swapchain_images sc) (Z.to_nat i)
                                (set_status img PRESENTED)
           | None => m_swapchain_images sc
           end), w);
     posix_sem_post := fun _ w => w;
     posix_sem_wait := fun _ w => w;
     posix_sem_destroy := fun _ w => (0, w);
     joinable := fun _ => true;
     join := fun w => w;
     host_free := fun w => w |}.

(** The example swapchain with an empty ring. *)
Definition idle_swapchain : swapchain_base :=
  with_pool example_swapchain {| ring := [0; 0; 0; 0]; head := 1; tail := 1; size := 4 |}.

(** An example swapchain whose ring wraps around: the presents of image 3
    and then of image 1 are pending, image 2 is ACQUIRED, and the first
    present is over. *)
Definition busy_swapchain : swapchain_base :=
  with_first_present
    (with_pool
       (with_images (constructed true)
          [ example_image 1 PRESENTED; example_image 2 PENDING;
            example_image 3 ACQUIRED; example_image 4 PENDING ])
       {| ring := [1; 0; 0; 3]; head := 3; tail := 1; size := 4 |})
    false.


(** The submit with which [acquire_next_image] has [semaphore] and [fence]
    signalled: no command buffer, and the semaphore, if there is one, as
    the only one to signal. *)
Definition signalling_submit {World : Type} (C : calls World) (sc : swapchain_base)
    (semaphore fence : Z) (w : World) : VkResult * World :=
  SubmitSignal C (m_queue sc)
    {| pSignalSemaphores := if semaphore =? VK_NULL_HANDLE then [] else [semaphore];
       commandBufferCount := 0 |}
    fence w.

End LifecycleVocabulary.

(** * Properties *)

(** ** Machine arithmetic *)

Lemma to_uint32_small (x : Z) : 0 <= x < 2 ^ 32 -> to_uint32 x = x.
Proof. intros H. unfold to_uint32. apply Z.mod_small. exact H. Qed.

Lemma to_uint64_small (x : Z) : 0 <= x < 2 ^ 64 -> to_uint64 x = x.
Proof. intros H. unfold to_uint64. apply Z.mod_small. exact H. Qed.

Lemma to_uint32_range (x : Z) : 0 <= to_uint32 x < 2 ^ 32.
Proof. unfold to_uint32. apply Z.mod_pos_bound. reflexivity. Qed.

Lemma to_int_small (x : Z) : 0 <= x < 2 ^ 31 -> to_int x = x.
Proof.
  intros H. unfold to_int.
  rewrite Z.mod_small by lia.
  destruct (Z.ltb_spec x (2 ^ 31)); lia.
Qed.

Lemma to_int_to_uint32 (x : Z) : - 2 ^ 31 <= x < 2 ^ 31 -> to_int (to_uint32 x) = x.
Proof.
  intros H. unfold to_int, to_uint32. rewrite Z.mod_mod by lia.
  destruct (Z_lt_le_dec x 0) as [Hneg | Hpos].
  - replace (x mod 2 ^ 32) with (x + 2 ^ 32).
    + destruct (Z.ltb_spec (x + 2 ^ 32) (2 ^ 31)); lia.
    + apply Z.mod_unique with (q := -1); lia.
  - rewrite Z.mod_small by lia.
    destruct (Z.ltb_spec x (2 ^ 31)); lia.
Qed.

(** The widened mask [0xFFFFFFC0] clears the six low bits of a 32-bit value. *)
Lemma land_align_mask (y : Z) :
  0 <= y < 2 ^ 32 -> Z.land y (to_uint32 (Z.lnot 63)) = 64 * (y / 64).
Proof.
  intros Hy.
  change (to_uint32 (Z.lnot 63)) with (Z.shiftl (Z.ones 26) 6).
  apply Z.bits_inj'. intros n Hn.
  rewrite Z.land_spec.
  replace (64 * (y / 64)) with (Z.shiftl (Z.shiftr y 6) 6)
    by (rewrite Z.shiftl_mul_pow2, Z.shiftr_div_pow2 by lia; change (2 ^ 6) with 64; lia).
  destruct (Z.ltb_spec n 6) as [Hlow | Hhigh].
  - rewrite !Z.shiftl_spec_low by lia. apply andb_false_r.
  - rewrite !Z.shiftl_spec by lia.
    rewrite Z.shiftr_spec by lia. replace (n - 6 + 6) with n by lia.
    destruct (Z.ltb_spec n 32) as [Hin | Hout].
    + rewrite Z.ones_spec_low by lia. apply andb_true_r.
    + rewrite Z.ones_spec_high by lia. rewrite andb_false_r.
      symmetry. destruct (Z.eq_dec y 0) as [-> | Hnz]; [apply Z.bits_0 |].
      apply Z.bits_above_log2; try lia.
      assert (Z.log2 y < 32) by (apply Z.log2_lt_pow2; lia). lia.
Qed.

(** ** The allocator core *)

Section AllocatorFacts.

Import Helpers.

Lemma round_up64_bounds (size : Z) :
  size <= round_up64 size < size + 64 /\ round_up64 size mod 64 = 0.
Proof.
  unfold round_up64. split.
  - pose proof (Z.div_mod (size + 63) 64 ltac:(lia)) as Hdm.
    pose proof (Z.mod_pos_bound (size + 63) 64 ltac:(lia)) as Hb. lia.
  - rewrite Z.mul_comm. apply Z.mod_mul. lia.
Qed.

Lemma round_size_up_to_align_small (size : Z) :
  0 <= size < 2 ^ 32 - 63 -> round_size_up_to_align size = round_up64 size.
Proof.
  intros H. unfold round_size_up_to_align, round_up64, WSIALLOCP_MIN_ALIGN_SZ.
  replace (size + 64 - 1) with (size + 63) by lia.
  rewrite to_uint64_small by lia.
  change (64 - 1) with 63.
  apply land_align_mask. lia.
Qed.

Lemma stride_as_computed (w b : Z) :
  1 <= w <= MAX_IMAGE_SIZE -> 0 <= b < 256 ->
  to_int (round_size_up_to_align (to_uint32 (w * to_uint32 (b / 8)))) = plane_stride w b
  /\ 0 <= plane_stride w b < 2 ^ 22.
Proof.
  unfold MAX_IMAGE_SIZE. intros Hw Hb.
  assert (Hq : 0 <= b / 8 <= 31).
  { split; [apply Z.div_pos; lia |].
    apply Z.lt_succ_r. apply Z.div_lt_upper_bound; lia. }
  assert (Hprod : 0 <= w * (b / 8) <= 3968000) by nia.
  rewrite (to_uint32_small (b / 8)) by lia.
  rewrite to_uint32_small by lia.
  rewrite round_size_up_to_align_small by lia.
  fold (plane_stride w b).
  pose proof (round_up64_bounds (w * (b / 8))) as [Hr _].
  fold (plane_stride w b) in Hr.
  assert (Hrange : 0 <= plane_stride w b < 2 ^ 22) by lia.
  split; [apply to_int_small; lia | exact Hrange].
Qed.

Lemma store_head {A : Type} (x : A) (xs : list A) (v : A) :
  store (x :: xs) 0 v = Returns (v :: xs).
Proof. reflexivity. Qed.

(** What [calculate_format_properties] computes for a linear format of one
    plane: the stride rounded up to 64, offset zero, and the product
    [stride * height] cut to 32 bits. *)
Lemma calculate_single_plane (NDEBUG : bool) (f : wsialloc_format) (s : fmt_spec)
    (info : wsialloc_allocate_info) (b : Z) (bs : list Z)
    (s0 o0 : option Z) (ss os : list (option Z)) (sz : Z) :
  modifier f = DRM_FORMAT_MOD_LINEAR ->
  nr_planes s = 1 ->
  bpp s = b :: bs ->
  0 <= b < 256 ->
  NDEBUG = true \/ b mod 8 = 0 ->
  1 <= width info <= MAX_IMAGE_SIZE ->
  1 <= height info <= MAX_IMAGE_SIZE ->
  calculate_format_properties NDEBUG {| format := f; format_spec := s |} info
    {| local_strides := s0 :: ss; local_offsets := o0 :: os; total_size := sz |}
  = Returns (WSIALLOC_ERROR_NONE,
             {| local_strides := Some (plane_stride (width info) b) :: ss;
                local_offsets := Some 0 :: os;
                total_size := to_uint32 (plane_stride (width info) b * height info) |}).
Proof.
  intros Hmod Hplanes Hbpp Hb Hassert Hw Hh.
  unfold calculate_format_properties. cbn [format format_spec].
  rewrite Hmod, Hplanes, Hbpp. cbn [Z.eqb negb Z.gtb Z.compare Pos.compare].
  change (Z.to_nat 1) with 1%nat.
  cbn [plane_loop load nth_error bind local_strides local_offsets].
  destruct (stride_as_computed (width info) b Hw Hb) as [Hstride Hrange].
  rewrite Hstride.
  assert (Hok : c_assert NDEBUG (to_uint32 (to_uint32 (b / 8) * 8) =? b) = Returns tt).
  { unfold c_assert. destruct Hassert as [-> | Hmul]; [reflexivity |].
    assert (Hq : 0 <= b / 8 <= 31).
    { split; [apply Z.div_pos; lia |].
      apply Z.lt_succ_r. apply Z.div_lt_upper_bound; lia. }
    rewrite (to_uint32_small (b / 8)) by lia.
    rewrite to_uint32_small by lia.
    pose proof (Z.div_mod b 8 ltac:(lia)) as Hdm.
    replace (b / 8 * 8 =? b) with true by (symmetry; apply Z.eqb_eq; lia).
    rewrite orb_true_r. reflexivity. }
  rewrite Hok. cbn [bind].
  rewrite !store_head. cbn [bind].
  rewrite (to_uint32_small 0) by lia.
  replace (to_uint64 (0 + to_uint32 (plane_stride (width info) b * height info)))
    with (to_uint32 (plane_stride (width info) b * height info)).
  - reflexivity.
  - rewrite Z.add_0_l. symmetry. apply to_uint64_small.
    pose proof (to_uint32_range (plane_stride (width info) b * height info)). lia.
Qed.

End AllocatorFacts.

Section WalkFacts.

Import Helpers.

Variable NDEBUG : bool.
Variable table : list fmt_spec.
Hypothesis Htable : table_ok table = true.

Lemma row_ok_planes (s : fmt_spec) :
  row_ok s = true -> 1 <= nr_planes s <= WSIALLOC_MAX_PLANES.
Proof.
  unfold row_ok. rewrite !andb_true_iff.
  intros [[[Hlo Hhi] _] _].
  apply Z.leb_le in Hlo. apply Z.leb_le in Hhi. lia.
Qed.

Lemma row_ok_bpp (s : fmt_spec) :
  row_ok s = true ->
  exists b bs, bpp s = b :: bs /\ 0 <= b < 256 /\ b mod 8 = 0.
Proof.
  unfold row_ok. rewrite !andb_true_iff.
  intros [[_ Hlen] Hall].
  destruct (bpp s) as [| b bs]; [discriminate Hlen |].
  exists b, bs. cbn [forallb] in Hall.
  rewrite !andb_true_iff in Hall.
  destruct Hall as [[[Hlo Hhi] Hmul] _].
  apply Z.leb_le in Hlo. apply Z.ltb_lt in Hhi. apply Z.eqb_eq in Hmul.
  repeat split; try assumption; lia.
Qed.

Lemma lookup_row_ok (fourcc : Z) (s : fmt_spec) :
  lookup table fourcc = Some s -> row_ok s = true.
Proof.
  unfold lookup. intros Hfind.
  apply find_some in Hfind. destruct Hfind as [Hin _].
  unfold table_ok in Htable. rewrite forallb_forall in Htable.
  apply Htable. exact Hin.
Qed.

(** On a table of well-formed rows [find_format] is the lookup: its
    assertion holds for every row. *)
Lemma find_format_lookup (fourcc : Z) :
  find_format NDEBUG table fourcc = Returns (lookup table fourcc).
Proof.
  unfold find_format, lookup.
  change (to_uint32 (Z.lnot (to_uint32 DRM_FORMAT_BIG_ENDIAN))) with (Z.ones 31).
  generalize (Z.land fourcc (Z.ones 31)). intros key.
  unfold table_ok in Htable. revert Htable.
  induction table as [| row rest IH]; intros Hok.
  - reflexivity.
  - cbn [forallb] in Hok. apply andb_true_iff in Hok. destruct Hok as [Hrow Hrest].
    cbn [find_format_from find].
    destruct (key =? drm_format row).
    + pose proof (row_ok_planes row Hrow) as [_ Hhi].
      unfold c_assert.
      replace (nr_planes row <=? WSIALLOC_MAX_PLANES) with true
        by (symmetry; apply Z.leb_le; exact Hhi).
      rewrite orb_true_r. reflexivity.
    + apply IH. exact Hrest.
Qed.

Variable info : wsialloc_allocate_info.
Hypothesis Hwidth : 1 <= width info <= MAX_IMAGE_SIZE.
Hypothesis Hheight : 1 <= height info <= MAX_IMAGE_SIZE.

(** One iteration on an acceptable candidate ends the walk. *)
Lemma format_loop_accepts (todo : nat) (c : wsialloc_format)
    (next : list wsialloc_format) (st : walk_state)
    (s0 o0 : option Z) (ss os : list (option Z)) (sz : Z) :
  acceptable table c = true ->
  vars st = {| local_strides := s0 :: ss; local_offsets := o0 :: os; total_size := sz |} ->
  format_loop NDEBUG table (S todo) (c :: next) info st
  = Returns (accepted_state table info c (vars st)).
Proof.
  intros Hacc Hvars. cbn [format_loop].
  rewrite find_format_lookup. cbn [bind].
  unfold acceptable in Hacc. unfold accepted_state, bits_of.
  destruct (lookup table (fourcc c)) as [s |] eqn:Hlook; [| discriminate Hacc].
  apply andb_true_iff in Hacc. destruct Hacc as [Hone Hlin].
  apply Z.eqb_eq in Hone. apply Z.eqb_eq in Hlin.
  destruct (row_ok_bpp s (lookup_row_ok _ _ Hlook)) as (b & bs & Hbpp & Hb & Hmul).
  rewrite Hvars.
  rewrite (calculate_single_plane NDEBUG c s info b bs s0 o0 ss os sz
             Hlin Hone Hbpp Hb (or_intror Hmul) Hwidth Hheight).
  cbn [bind is_none negb]. rewrite Hbpp. reflexivity.
Qed.

(** One iteration on any other candidate changes the error only. *)
Lemma format_loop_skips (todo : nat) (c : wsialloc_format)
    (next : list wsialloc_format) (st : walk_state) :
  acceptable table c = false ->
  format_loop NDEBUG table (S todo) (c :: next) info st
  = format_loop NDEBUG table todo next info
      {| err := WSIALLOC_ERROR_NOT_SUPPORTED; vars := vars st;
         selected_format_desc := selected_format_desc st |}.
Proof.
  intros Hrej. cbn [format_loop].
  rewrite find_format_lookup. cbn [bind].
  unfold acceptable in Hrej.
  destruct (lookup table (fourcc c)) as [s |] eqn:Hlook; [| reflexivity].
  pose proof (row_ok_planes s (lookup_row_ok _ _ Hlook)) as [Hlo _].
  unfold calculate_format_properties. cbn [format format_spec].
  destruct (Z.eqb_spec (modifier c) DRM_FORMAT_MOD_LINEAR) as [Hlin | Hnl].
  - rewrite andb_true_r in Hrej. apply Z.eqb_neq in Hrej.
    cbn [negb].
    replace (nr_planes s >? 1) with true
      by (symmetry; apply Z.gtb_lt; lia).
    reflexivity.
  - reflexivity.
Qed.

(** The walk ends on the first acceptable candidate of the array. *)
Lemma format_loop_first_acceptable (array : list wsialloc_format) :
  forall (st : walk_state) (c : wsialloc_format)
         (s0 o0 : option Z) (ss os : list (option Z)) (sz : Z),
    find (acceptable table) array = Some c ->
    vars st = {| local_strides := s0 :: ss; local_offsets := o0 :: os; total_size := sz |} ->
    format_loop NDEBUG table (length array) array info st
    = Returns (accepted_state table info c (vars st)).
Proof.
  induction array as [| f rest IH]; intros st c s0 o0 ss os sz Hfind Hvars.
  - discriminate Hfind.
  - cbn [find] in Hfind. cbn [length].
    destruct (acceptable table f) eqn:Hacc.
    + injection Hfind as <-.
      eapply format_loop_accepts; eassumption.
    + rewrite format_loop_skips by exact Hacc.
      erewrite IH; [reflexivity | exact Hfind | exact Hvars].
Qed.

(** When no candidate is acceptable the walk ends with NOT_SUPPORTED. *)
Lemma format_loop_none_acceptable (array : list wsialloc_format) :
  forall st : walk_state,
    array <> [] ->
    find (acceptable table) array = None ->
    format_loop NDEBUG table (length array) array info st
    = Returns {| err := WSIALLOC_ERROR_NOT_SUPPORTED; vars := vars st;
                 selected_format_desc := selected_format_desc st |}.
Proof.
  induction array as [| f rest IH]; intros st Hne Hfind.
  - contradiction Hne. reflexivity.
  - cbn [find] in Hfind. cbn [length].
    destruct (acceptable table f) eqn:Hacc; [discriminate Hfind |].
    rewrite format_loop_skips by exact Hacc.
    destruct rest as [| g rest'].
    + reflexivity.
    + rewrite IH; [reflexivity | discriminate | exact Hfind].
Qed.

End WalkFacts.

Section AllocFacts.

Import Helpers.

Context {Allocator World : Type}.
Variable NDEBUG : bool.
Variable table : list fmt_spec.

Lemma validate_request_ok (a : Allocator) (info : wsialloc_allocate_info)
    (array : list wsialloc_format) (r : wsialloc_allocate_result) :
  request_ok info array ->
  validate_parameters (Some a) (Some info) (Some r) = Returns true.
Proof.
  intros (Hformats & Hcount & Hne & Hw & Hh).
  unfold validate_parameters, is_null. rewrite Hformats.
  assert (Hpos : (format_count info =? 0) = false).
  { apply Z.eqb_neq. rewrite Hcount. destruct array; [contradiction | cbn; lia]. }
  rewrite Hpos. cbn [orb].
  replace (width info <? 1) with false by (symmetry; apply Z.ltb_ge; lia).
  replace (height info <? 1) with false by (symmetry; apply Z.ltb_ge; lia).
  replace (width info >? MAX_IMAGE_SIZE) with false
    by (symmetry; apply not_true_is_false; rewrite Z.gtb_lt; lia).
  replace (height info >? MAX_IMAGE_SIZE) with false
    by (symmetry; apply not_true_is_false; rewrite Z.gtb_lt; lia).
  reflexivity.
Qed.

(** A call that violates the contract, with an [info] that can be read, is
    answered INVALID; the result and the world are as they were. *)
Lemma wsiallocp_alloc_invalid (allocator : option Allocator)
    (fn_alloc : wsiallocp_alloc_callback) (info : wsialloc_allocate_info)
    (result : option wsialloc_allocate_result) (w : World) :
  violates_contract allocator info result ->
  wsiallocp_alloc NDEBUG table allocator fn_alloc (Some info) result w
  = Returns (WSIALLOC_ERROR_INVALID, result, w).
Proof.
  intros Hbad. unfold wsiallocp_alloc.
  assert (Hval : validate_parameters allocator (Some info) result = Returns false).
  { unfold validate_parameters.
    destruct allocator as [a |]; [| reflexivity].
    destruct result as [r |]; [| reflexivity].
    cbn [is_null].
    destruct Hbad as [H | [H | [H | [H | [H | [H | [H | H]]]]]]];
      try discriminate H.
    - rewrite H. reflexivity.
    - rewrite H. cbn [is_null]. rewrite orb_true_r. reflexivity.
    - destruct ((format_count info =? 0) || is_null (formats info)); [reflexivity |].
      replace (width info <? 1) with true by (symmetry; apply Z.ltb_lt; lia).
      reflexivity.
    - destruct ((format_count info =? 0) || is_null (formats info)); [reflexivity |].
      replace (width info >? MAX_IMAGE_SIZE) with true by (symmetry; apply Z.gtb_lt; lia).
      rewrite !orb_true_r. reflexivity.
    - destruct ((format_count info =? 0) || is_null (formats info)); [reflexivity |].
      replace (height info <? 1) with true by (symmetry; apply Z.ltb_lt; lia).
      rewrite !orb_true_r. reflexivity.
    - destruct ((format_count info =? 0) || is_null (formats info)); [reflexivity |].
      replace (height info >? MAX_IMAGE_SIZE) with true by (symmetry; apply Z.gtb_lt; lia).
      rewrite !orb_true_r. reflexivity. }
  rewrite Hval. reflexivity.
Qed.

Hypothesis Htable : table_ok table = true.

Lemma acceptable_row (c : wsialloc_format) :
  acceptable table c = true ->
  exists s, lookup table (fourcc c) = Some s /\ nr_planes s = 1.
Proof.
  unfold acceptable. destruct (lookup table (fourcc c)) as [s |]; [| discriminate].
  intros H. apply andb_true_iff in H. destruct H as [Hone _].
  apply Z.eqb_eq in Hone. exists s. split; [reflexivity | exact Hone].
Qed.

(** The result is filled in from the state the walk ended in. *)
Lemma populate_accepted (info : wsialloc_allocate_info) (c : wsialloc_format)
    (r : wsialloc_allocate_result) :
  acceptable table c = true ->
  result_ok r = true ->
  populate (accepted_state table info c fresh_locals) r
  = Returns (populated table info c r (buffer_fds r)).
Proof.
  intros Hacc Hres.
  destruct (acceptable_row c Hacc) as (s & Hlook & Hone).
  unfold result_ok in Hres. rewrite !andb_true_iff in Hres.
  destruct Hres as [[Hs Ho] _].
  unfold populate, populated, accepted_state.
  cbn [selected_format_desc format format_spec vars].
  rewrite Hlook, Hone. change (Z.to_nat 1) with 1%nat.
  destruct (average_row_strides r) as [| x xs]; [discriminate Hs |].
  destruct (offsets r) as [| y ys]; [discriminate Ho |].
  reflexivity.
Qed.

Variable a : Allocator.
Variable fn_alloc : @wsiallocp_alloc_callback Allocator World.
Variable info : wsialloc_allocate_info.
Variable array : list wsialloc_format.
Variable r : wsialloc_allocate_result.
Variable c : wsialloc_format.
Hypothesis Hrequest : request_ok info array.
Hypothesis Hresult : result_ok r = true.
Hypothesis Hfirst : find (acceptable table) array = Some c.

Lemma walk_selects :
  format_loop NDEBUG table (Z.to_nat (format_count info)) array info walk_start
  = Returns (accepted_state table info c fresh_locals).
Proof.
  destruct Hrequest as (_ & Hcount & _ & Hw & Hh).
  rewrite Hcount, Nat2Z.id.
  apply (format_loop_first_acceptable NDEBUG table Htable info Hw Hh array
           walk_start c None None [None; None; None] [None; None; None] 0 Hfirst).
  reflexivity.
Qed.

Lemma first_is_acceptable : acceptable table c = true.
Proof. apply find_some in Hfirst. apply Hfirst. Qed.

(** With NO_MEMORY the callback is left alone. *)
Lemma alloc_no_memory (w : World) :
  Z.land (info_flags info) WSIALLOC_ALLOCATE_NO_MEMORY <> 0 ->
  wsiallocp_alloc NDEBUG table (Some a) fn_alloc (Some info) (Some r) w
  = Returns (WSIALLOC_ERROR_NONE, Some (populated table info c r (buffer_fds r)), w).
Proof.
  intros Hflag. unfold wsiallocp_alloc.
  rewrite (validate_request_ok a info array r Hrequest). cbn [bind negb].
  destruct Hrequest as (Hformats & _). rewrite Hformats. cbn [bind].
  rewrite walk_selects. cbn [bind].
  cbn [err accepted_state is_none negb].
  apply Z.eqb_neq in Hflag. rewrite Hflag.
  rewrite (populate_accepted info c r first_is_acceptable Hresult).
  reflexivity.
Qed.

(** Without NO_MEMORY the callback is asked for [total_size] bytes, and its
    answer decides between NO_RESOURCE and the filled-in result. *)
Lemma alloc_with_memory (w w' : World) (fd : Z) :
  Z.land (info_flags info) WSIALLOC_ALLOCATE_NO_MEMORY = 0 ->
  fn_alloc a info
    (to_uint32 (plane_stride (width info) (bits_of table c) * height info)) w
  = Returns (fd, w') ->
  wsiallocp_alloc NDEBUG table (Some a) fn_alloc (Some info) (Some r) w
  = if to_int fd <? 0
    then Returns (WSIALLOC_ERROR_NO_RESOURCE, Some r, w')
    else Returns (WSIALLOC_ERROR_NONE,
                  Some (populated table info c r (update (buffer_fds r) 0 (to_int fd))),
                  w').
Proof.
  intros Hflag Hcall. unfold wsiallocp_alloc.
  rewrite (validate_request_ok a info array r Hrequest). cbn [bind negb].
  destruct Hrequest as (Hformats & _). rewrite Hformats. cbn [bind].
  rewrite walk_selects. cbn [bind].
  cbn [err vars total_size accepted_state is_none negb].
  apply Z.eqb_eq in Hflag. rewrite Hflag.
  rewrite Hcall. cbn [bind].
  destruct (to_int fd <? 0); [reflexivity |].
  destruct (acceptable_row c first_is_acceptable) as (s & Hlook & Hone).
  assert (Hplanes : nr_planes (format_spec (selected_format_desc
                      (accepted_state table info c fresh_locals))) = 1).
  { unfold accepted_state. cbn [selected_format_desc format_spec].
    rewrite Hlook. exact Hone. }
  rewrite Hplanes.
  change (Z.to_nat 1 - 1)%nat with 0%nat. cbn [share_fd].
  pose proof Hresult as Hlen. unfold result_ok in Hlen.
  rewrite !andb_true_iff in Hlen. destruct Hlen as [[Hs Ho] Hf].
  destruct (buffer_fds r) as [| f0 fs] eqn:Hfds; [discriminate Hf |].
  rewrite store_head. cbn [bind update].
  rewrite (populate_accepted info c
    {| result_format := result_format r;
       average_row_strides := average_row_strides r;
       offsets := offsets r;
       buffer_fds := to_int fd :: fs;
       is_disjoint := is_disjoint r |} first_is_acceptable).
  - reflexivity.
  - unfold result_ok. cbn [average_row_strides offsets buffer_fds].
    rewrite Hs, Ho. cbn [length] in *. exact Hf.
Qed.

End AllocFacts.

Section AllocatorClaims.

Import Helpers.

(** C1 (evaluated where the code departs from it).  The claim: for every
    accepted request, stride = round_up(width * bpp/8, 64), offset = 0 and
    total_size = stride * height.  For a 32768 x 32768 image of 32 bits per
    pixel, a request inside the accepted range, the stride is 131072 and the
    offset 0, but [stride * height] is formed on 32 bits, so that
    [total_size] is 0 while stride * height is 2^32; [wsiallocp_alloc] then
    asks the kernel-heap callback for 0 bytes and reports success. *)
Theorem C1_total_size_is_cut_to_32_bits :
  forall NDEBUG : bool,
    calculate_format_properties NDEBUG
      {| format := linear XR24;
         format_spec := {| drm_format := XR24; nr_planes := 1; bpp := [32; 0; 0; 0] |} |}
      big_square_request fresh_locals
    = Returns (WSIALLOC_ERROR_NONE,
               {| local_strides := [Some 131072; None; None; None];
                  local_offsets := [Some 0; None; None; None];
                  total_size := 0 |})
    /\ 131072 * height big_square_request = 2 ^ 32
    /\ wsiallocp_alloc NDEBUG example_table (Some tt) (noting_callback 3)
         (Some big_square_request) (Some empty_result) []
       = Returns (WSIALLOC_ERROR_NONE,
                  Some {| result_format := linear XR24;
                          average_row_strides := [131072; 0; 0; 0];
                          offsets := [0; 0; 0; 0];
                          buffer_fds := [3; -1; -1; -1];
                          is_disjoint := false |},
                  [0]).
Proof.
  intros NDEBUG. destruct NDEBUG; repeat split; vm_compute; reflexivity.
Qed.

(** What does hold of the accepted single-plane request: the stride is the
    smallest multiple of 64 that holds a row, and [total_size] is
    [stride * height] whenever that product fits 32 bits. *)
Lemma accepted_stride_and_size (NDEBUG : bool) (f : wsialloc_format) (s : fmt_spec)
    (info : wsialloc_allocate_info) (b : Z) (bs : list Z) :
  modifier f = DRM_FORMAT_MOD_LINEAR -> nr_planes s = 1 -> bpp s = b :: bs ->
  0 <= b < 256 -> NDEBUG = true \/ b mod 8 = 0 ->
  1 <= width info <= MAX_IMAGE_SIZE -> 1 <= height info <= MAX_IMAGE_SIZE ->
  exists stride size ss os,
    calculate_format_properties NDEBUG {| format := f; format_spec := s |} info fresh_locals
    = Returns (WSIALLOC_ERROR_NONE,
               {| local_strides := Some stride :: ss; local_offsets := Some 0 :: os;
                  total_size := size |})
    /\ stride = round_up64 (width info * (b / 8))
    /\ width info * (b / 8) <= stride < width info * (b / 8) + 64
    /\ stride mod 64 = 0
    /\ (stride * height info < 2 ^ 32 -> size = stride * height info).
Proof.
  intros Hlin Hone Hbpp Hb Hassert Hw Hh.
  exists (plane_stride (width info) b),
         (to_uint32 (plane_stride (width info) b * height info)),
         [None; None; None], [None; None; None].
  pose proof (round_up64_bounds (width info * (b / 8))) as [[Hge Hlt] Hmod].
  fold (plane_stride (width info) b) in Hge, Hlt, Hmod.
  split; [| repeat split].
  - apply (calculate_single_plane NDEBUG f s info b bs None None
             [None; None; None] [None; None; None] 0); assumption.
  - exact Hge.
  - exact Hlt.
  - exact Hmod.
  - intros Hfit. apply to_uint32_small.
    assert (0 <= width info * (b / 8)).
    { apply Z.mul_nonneg_nonneg; [lia | apply Z.div_pos; lia]. }
    unfold MAX_IMAGE_SIZE in *. nia.
Qed.

(** C4 (evaluated where the code departs from it).  The claim: a null
    allocator, result or info pointer, an empty format list or a dimension
    outside [1, 128000] is answered INVALID without a call of the callback.
    [validate_parameters] compares [allocator] and [result] with NULL but
    reads [info->format_count] without a test: with the other two pointers
    set and [info] null the call dereferences a null pointer. *)
Theorem C4_null_info_is_dereferenced :
  forall (Allocator World : Type) (NDEBUG : bool) (table : list fmt_spec)
         (a : Allocator) (fn_alloc : @wsiallocp_alloc_callback Allocator World)
         (r : wsialloc_allocate_result) (w : World),
    wsiallocp_alloc NDEBUG table (Some a) fn_alloc None (Some r) w = Undefined.
Proof. intros. reflexivity. Qed.

(** C2 (as stated, refuted).  The negotiation request has XR24 as its first
    acceptable candidate; when the kernel-heap callback fails, the call ends
    with NO_RESOURCE before [result->format] is written, and the result
    still holds the format it held before. *)
Lemma C2_format_not_written_when_allocation_fails :
  find (acceptable example_table) negotiation = Some (linear XR24)
  /\ wsiallocp_alloc false example_table (Some tt) (noting_callback (-1))
       (Some (negotiation_request 0)) (Some empty_result) []
     = Returns (WSIALLOC_ERROR_NO_RESOURCE, Some empty_result, [8294400])
  /\ result_format empty_result <> linear XR24.
Proof.
  split; [reflexivity |]. split; [vm_compute; reflexivity |].
  discriminate.
Qed.

(** C2 (amended).  For a request that meets the input contract, on a table
    of well-formed rows, let [c] be the first candidate in list order that
    resolves to one plane and is linear.  The walk ends on [c]: it is the
    selected descriptor's format.  With NO_MEMORY the call returns NONE and
    [result->format] is [c].  Otherwise the callback is asked for the size
    computed for [c]; if it fails the call returns NO_RESOURCE and leaves the
    result as it was, else it returns NONE and [result->format] is [c]. *)
Theorem C2_first_acceptable_candidate_is_selected :
  forall (Allocator World : Type) (NDEBUG : bool) (table : list fmt_spec)
         (a : Allocator) (fn_alloc : @wsiallocp_alloc_callback Allocator World)
         (info : wsialloc_allocate_info) (array : list wsialloc_format)
         (r : wsialloc_allocate_result) (c : wsialloc_format) (w : World),
    table_ok table = true ->
    request_ok info array ->
    result_ok r = true ->
    find (acceptable table) array = Some c ->
    (exists st,
        format_loop NDEBUG table (Z.to_nat (format_count info)) array info walk_start
        = Returns st
        /\ err st = WSIALLOC_ERROR_NONE
        /\ format (selected_format_desc st) = c)
    /\ (Z.land (info_flags info) WSIALLOC_ALLOCATE_NO_MEMORY <> 0 ->
        exists r',
          wsiallocp_alloc NDEBUG table (Some a) fn_alloc (Some info) (Some r) w
          = Returns (WSIALLOC_ERROR_NONE, Some r', w)
          /\ result_format r' = c)
    /\ (Z.land (info_flags info) WSIALLOC_ALLOCATE_NO_MEMORY = 0 ->
        forall (fd : Z) (w' : World),
          fn_alloc a info
            (to_uint32 (plane_stride (width info) (bits_of table c) * height info)) w
          = Returns (fd, w') ->
          (to_int fd < 0 ->
           wsiallocp_alloc NDEBUG table (Some a) fn_alloc (Some info) (Some r) w
           = Returns (WSIALLOC_ERROR_NO_RESOURCE, Some r, w'))
          /\ (0 <= to_int fd ->
              exists r',
                wsiallocp_alloc NDEBUG table (Some a) fn_alloc (Some info) (Some r) w
                = Returns (WSIALLOC_ERROR_NONE, Some r', w')
                /\ result_format r' = c)).
Proof.
  intros Allocator World NDEBUG table a fn_alloc info array r c w
         Htable Hrequest Hresult Hfirst.
  split; [| split].
  - exists (accepted_state table info c fresh_locals).
    split; [| split; reflexivity].
    apply walk_selects; assumption.
  - intros Hflag. eexists. split.
    + eapply alloc_no_memory; eassumption.
    + reflexivity.
  - intros Hflag fd w' Hcall.
    pose proof (alloc_with_memory NDEBUG table Htable a fn_alloc info array r c
                  Hrequest Hresult Hfirst w w' fd Hflag Hcall) as Hrun.
    split.
    + intros Hneg. rewrite Hrun.
      replace (to_int fd <? 0) with true by (symmetry; apply Z.ltb_lt; exact Hneg).
      reflexivity.
    + intros Hpos. rewrite Hrun.
      replace (to_int fd <? 0) with false by (symmetry; apply Z.ltb_ge; exact Hpos).
      eexists. split; reflexivity.
Qed.

Lemma negotiation_request_ok (flags : Z) :
  request_ok (negotiation_request flags) negotiation.
Proof.
  unfold request_ok, MAX_IMAGE_SIZE. cbn.
  repeat split; try discriminate; lia.
Qed.

(** The negotiation of the amended C2, run: XR24 is taken, 8294400 bytes are
    asked of the callback. *)
Lemma C2_negotiation_selects_XR24 :
  table_ok example_table = true
  /\ request_ok (negotiation_request 0) negotiation
  /\ result_ok empty_result = true
  /\ find (acceptable example_table) negotiation = Some (linear XR24)
  /\ exists r',
       wsiallocp_alloc false example_table (Some tt) (noting_callback 3)
         (Some (negotiation_request 0)) (Some empty_result) []
       = Returns (WSIALLOC_ERROR_NONE, Some r', [8294400])
       /\ result_format r' = linear XR24.
Proof.
  split; [reflexivity |]. split; [apply negotiation_request_ok |].
  split; [reflexivity |]. split; [reflexivity |].
  destruct (C2_first_acceptable_candidate_is_selected unit (list Z) false
              example_table tt (noting_callback 3) (negotiation_request 0)
              negotiation empty_result (linear XR24) []
              eq_refl (negotiation_request_ok 0) eq_refl eq_refl)
    as (_ & _ & Hmem).
  destruct (Hmem eq_refl 3 [8294400] eq_refl) as [_ Hgood].
  apply Hgood. vm_compute. discriminate.
Defined.

(** C7.  For a request that meets the input contract, with NO_MEMORY set
    and an acceptable candidate (the first being [c]), on a table of
    well-formed rows: the call returns NONE, the world of the callback is
    untouched whatever the callback is, the descriptors of the result are
    the ones it held, and the result carries the format [c], the stride and
    the offset 0 of its plane, and [is_disjoint = false]. *)
Theorem C7_no_memory_fills_metadata_only :
  forall (Allocator World : Type) (NDEBUG : bool) (table : list fmt_spec)
         (a : Allocator) (fn_alloc : @wsiallocp_alloc_callback Allocator World)
         (info : wsialloc_allocate_info) (array : list wsialloc_format)
         (r : wsialloc_allocate_result) (c : wsialloc_format) (w : World),
    table_ok table = true ->
    request_ok info array ->
    result_ok r = true ->
    Z.land (info_flags info) WSIALLOC_ALLOCATE_NO_MEMORY <> 0 ->
    find (acceptable table) array = Some c ->
    exists r',
      wsiallocp_alloc NDEBUG table (Some a) fn_alloc (Some info) (Some r) w
      = Returns (WSIALLOC_ERROR_NONE, Some r', w)
      /\ buffer_fds r' = buffer_fds r
      /\ result_format r' = c
      /\ nth_error (average_row_strides r') 0
         = Some (round_up64 (width info * (bits_of table c / 8)))
      /\ nth_error (offsets r') 0 = Some 0
      /\ is_disjoint r' = false.
Proof.
  intros Allocator World NDEBUG table a fn_alloc info array r c w
         Htable Hrequest Hresult Hflag Hfirst.
  exists (populated table info c r (buffer_fds r)).
  split.
  - eapply alloc_no_memory; eassumption.
  - unfold result_ok in Hresult. rewrite !andb_true_iff in Hresult.
    destruct Hresult as [[Hs Ho] _].
    unfold populated. cbn [buffer_fds result_format average_row_strides offsets is_disjoint].
    destruct (average_row_strides r) as [| x xs]; [discriminate Hs |].
    destruct (offsets r) as [| y ys]; [discriminate Ho |].
    repeat split; reflexivity.
Qed.

(** C7 run on the negotiation with NO_MEMORY: no size reaches the callback
    and the stride written for XR24 is 7680. *)
Lemma C7_negotiation_without_memory :
  table_ok example_table = true
  /\ request_ok (negotiation_request WSIALLOC_ALLOCATE_NO_MEMORY) negotiation
  /\ result_ok empty_result = true
  /\ Z.land (info_flags (negotiation_request WSIALLOC_ALLOCATE_NO_MEMORY))
            WSIALLOC_ALLOCATE_NO_MEMORY <> 0
  /\ find (acceptable example_table) negotiation = Some (linear XR24)
  /\ exists r',
       wsiallocp_alloc false example_table (Some tt) (noting_callback 3)
         (Some (negotiation_request WSIALLOC_ALLOCATE_NO_MEMORY)) (Some empty_result) []
       = Returns (WSIALLOC_ERROR_NONE, Some r', [])
       /\ buffer_fds r' = [-1; -1; -1; -1]
       /\ result_format r' = linear XR24
       /\ nth_error (average_row_strides r') 0 = Some 7680
       /\ nth_error (offsets r') 0 = Some 0
       /\ is_disjoint r' = false.
Proof.
  assert (Hflag : Z.land (info_flags (negotiation_request WSIALLOC_ALLOCATE_NO_MEMORY))
                         WSIALLOC_ALLOCATE_NO_MEMORY <> 0)
    by (vm_compute; discriminate).
  split; [reflexivity |]. split; [apply negotiation_request_ok |].
  split; [reflexivity |]. split; [exact Hflag |]. split; [reflexivity |].
  exact (C7_no_memory_fills_metadata_only unit (list Z) false example_table tt
           (noting_callback 3) (negotiation_request WSIALLOC_ALLOCATE_NO_MEMORY)
           negotiation empty_result (linear XR24) []
           eq_refl (negotiation_request_ok _) eq_refl Hflag eq_refl).
Defined.

End AllocatorClaims.

(** ** The kernel-heap back-ends *)

Section BackendClaims.

Import Helpers.

(** C8.  A request with the PROTECTED flag, on an adaptor without a
    protected heap ([protected_fd < 0] for DMA-BUF heaps,
    [protected_heap_exists == false] for ION), is answered NO_RESOURCE; the
    result and the state of the kernel are as they were, whatever the
    kernel: no allocation was asked of it. *)
Theorem C8_protected_without_heap_is_no_resource :
  forall (NDEBUG : bool) (table : list fmt_spec) (K : Type)
         (dma : DmaBufHeaps.kernel K) (ion : Ion.kernel K)
         (info : wsialloc_allocate_info)
         (result : option wsialloc_allocate_result) (k : K),
    Z.land (info_flags info) WSIALLOC_ALLOCATE_PROTECTED <> 0 ->
    (forall a : DmaBufHeaps.wsialloc_allocator,
        DmaBufHeaps.protected_fd a < 0 ->
        DmaBufHeaps.wsialloc_alloc NDEBUG table dma (Some a) (Some info) result k
        = Returns (WSIALLOC_ERROR_NO_RESOURCE, result, k))
    /\ (forall a : Ion.wsialloc_allocator,
           Ion.protected_heap_exists a = false ->
           Ion.wsialloc_alloc NDEBUG table ion (Some a) (Some info) result k
           = Returns (WSIALLOC_ERROR_NO_RESOURCE, result, k)).
Proof.
  intros NDEBUG table K dma ion info result k Hflag.
  apply Z.eqb_neq in Hflag.
  split; intros a Habsent.
  - unfold DmaBufHeaps.wsialloc_alloc. rewrite Hflag. cbn [negb].
    apply Z.ltb_lt in Habsent. rewrite Habsent. reflexivity.
  - unfold Ion.wsialloc_alloc. rewrite Hflag, Habsent. reflexivity.
Qed.

(** C8 run on the example kernels: no size is noted by either kernel. *)
Lemma C8_protected_request_on_fresh_adaptors :
  Z.land (info_flags protected_request) WSIALLOC_ALLOCATE_PROTECTED <> 0
  /\ DmaBufHeaps.wsialloc_alloc false example_table example_dma_kernel
       (Some {| DmaBufHeaps.memory_fd := 5; DmaBufHeaps.protected_fd := -1 |})
       (Some protected_request) (Some empty_result) []
     = Returns (WSIALLOC_ERROR_NO_RESOURCE, Some empty_result, [])
  /\ Ion.wsialloc_alloc false example_table (example_ion_kernel 0 [])
       (Some {| Ion.fd := 5; Ion.alloc_heap_id := 0;
                Ion.protected_alloc_heap_id := 0;
                Ion.protected_heap_exists := false |})
       (Some protected_request) (Some empty_result) []
     = Returns (WSIALLOC_ERROR_NO_RESOURCE, Some empty_result, []).
Proof.
  assert (Hflag : Z.land (info_flags protected_request) WSIALLOC_ALLOCATE_PROTECTED <> 0)
    by (vm_compute; discriminate).
  destruct (C8_protected_without_heap_is_no_resource false example_table (list Z)
              example_dma_kernel (example_ion_kernel 0 []) protected_request
              (Some empty_result) [] Hflag) as [Hdma Hion].
  split; [exact Hflag |]. split.
  - apply Hdma. cbn. lia.
  - apply Hion. reflexivity.
Defined.

(** Without a heap of type DMA among the [cnt] heaps the loop keeps -1. *)
Lemma heap_loop_without_dma (heaps : list Ion.ion_heap_data) :
  forall (i : nat) (before : list Ion.ion_heap_data),
    Forall (fun h => Ion.type h <> Ion.ION_HEAP_TYPE_DMA) heaps ->
    length before = i ->
    Ion.heap_loop (length heaps) i (before ++ heaps) (-1) = Returns (-1).
Proof.
  induction heaps as [| h rest IH]; intros i before Hall Hlen.
  - reflexivity.
  - inversion Hall as [| ? ? Hh Hrest]; subst.
    cbn [length Ion.heap_loop]. unfold load.
    rewrite nth_error_app2 by lia. rewrite Nat.sub_diag. cbn [nth_error bind].
    replace (Ion.ION_HEAP_TYPE_DMA =? Ion.type h) with false
      by (symmetry; apply Z.eqb_neq; congruence).
    replace (before ++ h :: rest) with ((before ++ [h]) ++ rest)
      by (rewrite <- app_assoc; reflexivity).
    apply IH; [exact Hrest |].
    rewrite length_app. cbn [length]. lia.
Qed.

(** C10.  In the ION back-end, once [malloc] and [open] have succeeded,
    whatever [find_alloc_heap_id] returns, [wsialloc_new] stores it as a
    [uint32_t], the test [alloc_heap_id < 0] is false, and the call returns
    NONE with that allocator; so also when the heap query failed or found no
    heap of type DMA and the value is -1. *)
Theorem C10_heap_lookup_failure_is_never_reported :
  forall (NDEBUG : bool) (K : Type) (sys : Ion.kernel K) (k k1 k2 k3 : K)
         (block : Ion.wsialloc_allocator) (dev id : Z),
    Ion.malloc sys k = (Some block, k1) ->
    Ion.open_ion sys k1 = (dev, k2) ->
    0 <= dev ->
    Ion.find_alloc_heap_id NDEBUG sys dev k2 = Returns (id, k3) ->
    (to_uint32 id <? 0) = false
    /\ Ion.wsialloc_new NDEBUG sys k
       = Returns (WSIALLOC_ERROR_NONE,
                  Some {| Ion.fd := dev;
                          Ion.alloc_heap_id := to_uint32 id;
                          Ion.protected_alloc_heap_id := Ion.protected_alloc_heap_id block;
                          Ion.protected_heap_exists := false |},
                  k3).
Proof.
  intros NDEBUG K sys k k1 k2 k3 block dev id Hmalloc Hopen Hdev Hfind.
  assert (Hcheck : (to_uint32 id <? 0) = false).
  { apply Z.ltb_ge. apply to_uint32_range. }
  split; [exact Hcheck |].
  unfold Ion.wsialloc_new. rewrite Hmalloc, Hopen. cbn [Ion.fd].
  replace (dev <? 0) with false by (symmetry; apply Z.ltb_ge; exact Hdev).
  rewrite Hfind. cbn [bind Ion.alloc_heap_id Ion.fd Ion.protected_alloc_heap_id].
  rewrite Hcheck. reflexivity.
Qed.

(** What [find_alloc_heap_id] returns when the query fails and when it finds
    no heap of type DMA. *)
Lemma find_alloc_heap_id_failure (NDEBUG : bool) (K : Type) (sys : Ion.kernel K)
    (dev ret cnt : Z) (heaps : list Ion.ion_heap_data) (k k' : K) :
  0 <= dev ->
  Ion.heap_query sys dev k = (ret, cnt, heaps, k') ->
  (ret < 0 -> Ion.find_alloc_heap_id NDEBUG sys dev k = Returns (ret, k'))
  /\ (0 <= ret -> cnt = Z.of_nat (length heaps) ->
      Forall (fun h => Ion.type h <> Ion.ION_HEAP_TYPE_DMA) heaps ->
      Ion.find_alloc_heap_id NDEBUG sys dev k = Returns (-1, k')).
Proof.
  intros Hdev Hquery. unfold Ion.find_alloc_heap_id, c_assert.
  replace (dev =? -1) with false by (symmetry; apply Z.eqb_neq; lia).
  rewrite orb_true_r. cbn [bind]. rewrite Hquery.
  split.
  - intros Hret. apply Z.ltb_lt in Hret. rewrite Hret. reflexivity.
  - intros Hret Hcnt Hnone.
    replace (ret <? 0) with false by (symmetry; apply Z.ltb_ge; exact Hret).
    rewrite Hcnt, Nat2Z.id.
    pose proof (heap_loop_without_dma heaps 0 [] Hnone eq_refl) as Hloop.
    cbn [app] in Hloop. rewrite Hloop. reflexivity.
Qed.

(** C10 run on a kernel without any heap: the allocator is handed out with
    heap id 4294967295. *)
Lemma C10_new_succeeds_without_heap :
  Ion.malloc (example_ion_kernel 0 []) []
  = (Some {| Ion.fd := 77; Ion.alloc_heap_id := 78;
             Ion.protected_alloc_heap_id := 79;
             Ion.protected_heap_exists := true |}, [])
  /\ Ion.open_ion (example_ion_kernel 0 []) [] = (5, [])
  /\ 0 <= 5
  /\ Ion.find_alloc_heap_id false (example_ion_kernel 0 []) 5 [] = Returns (-1, [])
  /\ Ion.wsialloc_new false (example_ion_kernel 0 []) []
     = Returns (WSIALLOC_ERROR_NONE,
                Some {| Ion.fd := 5; Ion.alloc_heap_id := 4294967295;
                        Ion.protected_alloc_heap_id := 79;
                        Ion.protected_heap_exists := false |},
                []).
Proof.
  split; [reflexivity |]. split; [reflexivity |]. split; [lia |].
  split; [reflexivity |].
  exact (proj2 (C10_heap_lookup_failure_is_never_reported false (list Z)
                  (example_ion_kernel 0 []) [] [] [] []
                  {| Ion.fd := 77; Ion.alloc_heap_id := 78;
                     Ion.protected_alloc_heap_id := 79;
                     Ion.protected_heap_exists := true |}
                  5 (-1) eq_refl eq_refl ltac:(lia) eq_refl)).
Defined.

End BackendClaims.

(** ** The swapchain *)

Section SwapchainFacts.

Import Wsi.

Lemma store_in_range {A : Type} (a : list A) (i : nat) (v : A) :
  (i < length a)%nat -> store a i v = Returns (update a i v).
Proof.
  intros Hi. unfold store.
  apply Nat.ltb_lt in Hi. rewrite Hi. reflexivity.
Qed.

Lemma store_after {A : Type} (done : list A) (old v : A) (todo : list A) :
  store (done ++ old :: todo) (length done) v = Returns (done ++ v :: todo).
Proof.
  rewrite store_in_range by (rewrite length_app; cbn [length]; lia).
  f_equal. induction done as [| d done IH]; cbn [app length update].
  - reflexivity.
  - rewrite IH. reflexivity.
Qed.

Lemma load_nth_error {A : Type} (a : list A) (i : nat) (v : A) :
  nth_error a i = Some v -> load a i = Returns v.
Proof. intros H. unfold load. rewrite H. reflexivity. Qed.


Context {World : Type}.
Variable P : platform World.


(** The [do ... while] of [get_swapchain_images], started at image [cur]
    with [done] already written: it writes images up to the smaller of
    [count] and [num]. *)
Lemma copy_images_runs (array : list swapchain_image) :
  forall (done todo : list Z) (cur num count : Z),
    cur = Z.of_nat (length done) ->
    num = cur + Z.of_nat (length array) ->
    array <> [] ->
    cur < count ->
    Z.min count num - cur <= Z.of_nat (length todo) ->
    copy_images array cur num count (done ++ todo)
    = Returns (if num <=? count then VK_SUCCESS else VK_INCOMPLETE,
               Z.min count num,
               done ++ map image (firstn (Z.to_nat (Z.min count num - cur)) array)
                    ++ skipn (Z.to_nat (Z.min count num - cur)) todo).
Proof.
  induction array as [| img next IH]; intros done todo cur num count Hcur Hnum Hne Hlt Hroom.
  - contradiction Hne. reflexivity.
  - cbn [length] in Hnum.
    destruct todo as [| old todo'].
    { cbn [length] in Hroom. lia. }
    cbn [copy_images].
    replace (Z.to_nat cur) with (length done) by lia.
    rewrite store_after. cbn [bind].
    destruct (Z.eqb_spec (cur + 1) num) as [Hlast | Hmore].
    + replace (num <=? count) with true by (symmetry; apply Z.leb_le; lia).
      replace (Z.min count num) with (cur + 1) by lia.
      replace (Z.to_nat (cur + 1 - cur)) with 1%nat by lia.
      destruct next; [reflexivity | cbn [length] in Hnum; lia].
    + destruct (Z.ltb_spec (cur + 1) count) as [Hgo | Hstop].
      * replace (done ++ image img :: todo') with ((done ++ [image img]) ++ todo')
          by (rewrite <- app_assoc; reflexivity).
        rewrite (IH (done ++ [image img]) todo' (cur + 1) num count).
        -- replace (Z.to_nat (Z.min count num - cur))
             with (S (Z.to_nat (Z.min count num - (cur + 1)))) by lia.
           cbn [firstn map skipn]. rewrite <- app_assoc. reflexivity.
        -- rewrite length_app. cbn [length]. lia.
        -- lia.
        -- destruct next; [cbn [length] in Hnum; lia | discriminate].
        -- lia.
        -- cbn [length] in Hroom. lia.
      * replace (num <=? count) with false by (symmetry; apply Z.leb_gt; lia).
        replace (Z.min count num) with (cur + 1) by lia.
        replace (Z.to_nat (cur + 1 - cur)) with 1%nat by lia.
        reflexivity.
Qed.

End SwapchainFacts.

Section SwapchainClaims.

Import Wsi.

(** C3 (as stated, refuted).  Image 2 of the example swapchain is ACQUIRED
    and there is no descendant, so the claim promises PENDING and SUCCESS.
    When [ResetFences] fails the call returns that failure, nothing is
    queued or posted, and the image is still ACQUIRED. *)
Lemma C3_fence_reset_failure_is_returned :
  nth_error (m_swapchain_images example_swapchain) 2 = Some (example_image 3 ACQUIRED)
  /\ descendant_took_over no_objects example_swapchain = false
  /\ queue_present false (noting_platform VK_ERROR_DEVICE_LOST VK_SUCCESS VK_SUCCESS)
       no_objects example_swapchain 11 {| pWaitSemaphores := [] |} 2 []
     = Returns (VK_ERROR_DEVICE_LOST, example_swapchain, [CallResetFences 103]).
Proof. repeat split. Qed.

(** C3 (amended).  On an image in ACQUIRED, with the pending ring as [init]
    sets it up, and when [ResetFences] and [QueueSubmit] both return
    SUCCESS: if the descendant exists and has an image in PRESENTED or
    PENDING, the image is set to FREE, its index is written at the tail of
    the ring, the tail advances, the page-flip semaphore is posted and the
    call returns OUT_OF_DATE_KHR; otherwise the same happens with PENDING
    and SUCCESS. *)
Theorem C3_queue_present_after_successful_submit :
  forall (NDEBUG : bool) (World : Type) (P : platform World) (h : objects)
         (sc : swapchain_base) (queue : Z) (present_info : VkPresentInfoKHR)
         (image_index : Z) (img : swapchain_image) (w w1 w2 : World),
    0 <= image_index ->
    nth_error (m_swapchain_images sc) (Z.to_nat image_index) = Some img ->
    status img = ACQUIRED ->
    (m_descendant sc <> VK_NULL_HANDLE -> h (m_descendant sc) <> None) ->
    pool_ok (m_pending_buffer_pool sc) ->
    ResetFences P (m_device sc) (present_fence img) w = (VK_SUCCESS, w1) ->
    QueueSubmit P queue (pWaitSemaphores present_info) (present_fence img) w1
    = (VK_SUCCESS, w2) ->
    queue_present NDEBUG P h sc queue present_info image_index w
    = if descendant_took_over h sc
      then Returns (VK_ERROR_OUT_OF_DATE_KHR, presented sc image_index img FREE,
                    sem_post P m_page_flip_semaphore w2)
      else Returns (VK_SUCCESS, presented sc image_index img PENDING,
                    sem_post P m_page_flip_semaphore w2).
Proof.
  intros NDEBUG World P h sc queue present_info image_index img w w1 w2
         Hidx Himg Hstatus Hdesc (Hsize & Htail & Hsmall) Hreset Hsubmit.
  assert (Hin : (Z.to_nat image_index < length (m_swapchain_images sc))%nat).
  { apply nth_error_Some. rewrite Himg. discriminate. }
  assert (Henq : enqueue (m_pending_buffer_pool sc) image_index
                 = Returns {| ring := update (ring (m_pending_buffer_pool sc))
                                             (Z.to_nat (tail (m_pending_buffer_pool sc)))
                                             image_index;
                              head := head (m_pending_buffer_pool sc);
                              tail := (tail (m_pending_buffer_pool sc) + 1)
                                      mod size (m_pending_buffer_pool sc);
                              size := size (m_pending_buffer_pool sc) |}).
  { unfold enqueue. rewrite store_in_range by lia. cbn [bind].
    replace (size (m_pending_buffer_pool sc) =? 0) with false
      by (symmetry; apply Z.eqb_neq; lia).
    rewrite to_uint32_small by lia. reflexivity. }
  assert (Hrest : forall started : bool,
    (img0 <- load (m_swapchain_images sc) (Z.to_nat image_index) ;;
     _ <- c_assert NDEBUG (status_eqb (status img0) ACQUIRED) ;;
     let '(result, u1) := ResetFences P (m_device sc) (present_fence img0) w in
     if negb (is_success result) then Returns (result, sc, u1)
     else
       let '(result, u2) :=
         QueueSubmit P queue (pWaitSemaphores present_info) (present_fence img0) u1 in
       if negb (is_success result) then Returns (result, sc, u2)
       else if started then
         imgs <- store (m_swapchain_images sc) (Z.to_nat image_index)
                   (set_status img0 FREE) ;;
         pool <- enqueue (m_pending_buffer_pool sc) image_index ;;
         Returns (VK_ERROR_OUT_OF_DATE_KHR, with_pool (with_images sc imgs) pool,
                  sem_post P m_page_flip_semaphore u2)
       else
         imgs <- store (m_swapchain_images sc) (Z.to_nat image_index)
                   (set_status img0 PENDING) ;;
         pool <- enqueue (m_pending_buffer_pool sc) image_index ;;
         Returns (VK_SUCCESS, with_pool (with_images sc imgs) pool,
                  sem_post P m_page_flip_semaphore u2))
    = if started
      then Returns (VK_ERROR_OUT_OF_DATE_KHR, presented sc image_index img FREE,
                    sem_post P m_page_flip_semaphore w2)
      else Returns (VK_SUCCESS, presented sc image_index img PENDING,
                    sem_post P m_page_flip_semaphore w2)).
  { intros started.
    rewrite (load_nth_error _ _ _ Himg). cbn [bind].
    rewrite Hstatus. unfold c_assert. cbn [status_eqb]. rewrite orb_true_r. cbn [bind].
    rewrite Hreset. cbn [is_success negb]. rewrite Hsubmit. cbn [is_success negb].
    rewrite !store_in_range by exact Hin. cbn [bind].
    rewrite Henq. cbn [bind].
    destruct started; reflexivity. }
  unfold queue_present, descendant_took_over.
  destruct (Z.eqb_spec (m_descendant sc) VK_NULL_HANDLE) as [Hnull | Hset].
  - cbn [negb andb bind]. apply (Hrest false).
  - cbn [negb andb].
    destruct (h (m_descendant sc)) as [desc |] eqn:Hobj.
    + cbn [bind]. apply (Hrest (started_presenting desc)).
    + exfalso. apply (Hdesc Hset). reflexivity.
Qed.

Lemma example_pool_ok : pool_ok (m_pending_buffer_pool example_swapchain).
Proof. unfold pool_ok. cbn. lia. Qed.

(** The amended C3 run on the example swapchain, first alone, then with a
    descendant that has started presenting. *)
Lemma C3_present_on_example_swapchain :
  queue_present false (noting_platform VK_SUCCESS VK_SUCCESS VK_SUCCESS)
    no_objects example_swapchain 11 {| pWaitSemaphores := [] |} 2 []
  = Returns (VK_SUCCESS,
             presented example_swapchain 2 (example_image 3 ACQUIRED) PENDING,
             [CallResetFences 103; CallQueueSubmit 11 103;
              CallSemPost m_page_flip_semaphore])
  /\ queue_present false (noting_platform VK_SUCCESS VK_SUCCESS VK_SUCCESS)
       (put no_objects 500 example_swapchain)
       (with_descendant example_swapchain 500) 11 {| pWaitSemaphores := [] |} 2 []
     = Returns (VK_ERROR_OUT_OF_DATE_KHR,
                presented (with_descendant example_swapchain 500) 2
                          (example_image 3 ACQUIRED) FREE,
                [CallResetFences 103; CallQueueSubmit 11 103;
                 CallSemPost m_page_flip_semaphore]).
Proof.
  split.
  - apply (C3_queue_present_after_successful_submit false (list call)
             (noting_platform VK_SUCCESS VK_SUCCESS VK_SUCCESS) no_objects
             example_swapchain 11 {| pWaitSemaphores := [] |} 2
             (example_image 3 ACQUIRED) [] [CallResetFences 103]
             [CallResetFences 103; CallQueueSubmit 11 103]);
      try reflexivity; try apply example_pool_ok; try lia.
    intros Hset. contradiction Hset. reflexivity.
  - apply (C3_queue_present_after_successful_submit false (list call)
             (noting_platform VK_SUCCESS VK_SUCCESS VK_SUCCESS)
             (put no_objects 500 example_swapchain)
             (with_descendant example_swapchain 500) 11 {| pWaitSemaphores := [] |} 2
             (example_image 3 ACQUIRED) [] [CallResetFences 103]
             [CallResetFences 103; CallQueueSubmit 11 103]);
      try reflexivity; try apply example_pool_ok; try lia.
    intros _. discriminate.
Defined.

(** C5 (as stated, refuted).  With an array to fill and [count_inout] 0, on
    the example swapchain of four images: a build with NDEBUG copies one
    handle, more than the 0 asked for, and writes back 1; a build without
    NDEBUG stops on the assertion. *)
Lemma C5_one_handle_is_copied_for_count_zero :
  get_swapchain_images true example_swapchain 0 (Some [0; 0; 0; 0; 0])
  = Returns (VK_INCOMPLETE, 1, Some [1; 0; 0; 0; 0])
  /\ get_swapchain_images false example_swapchain 0 (Some [0; 0; 0; 0; 0])
     = AssertionFailed.
Proof. split; reflexivity. Qed.

(** C5 (amended).  Without an array the call yields the image count and
    SUCCESS.  With an array, on a swapchain of at least one image and for
    [count_inout] of at least one (the two assertions of the code), the
    call copies the first min(count_inout, image count) handles into the
    array, which has that many cells, writes that number back, and returns
    SUCCESS when it is the image count and INCOMPLETE when it is less. *)
Theorem C5_get_swapchain_images_copies_the_smaller_count :
  forall (NDEBUG : bool) (sc : swapchain_base) (count : Z)
         (swapchain_images : option (list Z)),
    (forall out : list Z,
        swapchain_images = Some out ->
        0 < m_num_swapchain_images sc
        /\ 0 < count
        /\ copied sc count <= Z.of_nat (length out)) ->
    get_swapchain_images NDEBUG sc count swapchain_images
    = match swapchain_images with
      | None => Returns (VK_SUCCESS, m_num_swapchain_images sc, None)
      | Some out =>
          Returns (if m_num_swapchain_images sc <=? count
                   then VK_SUCCESS else VK_INCOMPLETE,
                   copied sc count,
                   Some (map image (firstn (Z.to_nat (copied sc count))
                                           (m_swapchain_images sc))
                         ++ skipn (Z.to_nat (copied sc count)) out))
      end
    /\ copied sc count <= count.
Proof.
  intros NDEBUG sc count swapchain_images Hpre.
  split; [| unfold copied; lia].
  destruct swapchain_images as [out |]; [| reflexivity].
  destruct (Hpre out eq_refl) as (Hnum & Hcount & Hroom).
  unfold copied in *.
  unfold get_swapchain_images, c_assert.
  replace (m_num_swapchain_images sc >? 0) with true by (symmetry; apply Z.gtb_lt; lia).
  replace (count >? 0) with true by (symmetry; apply Z.gtb_lt; lia).
  rewrite orb_true_r. cbn [bind].
  pose proof (copy_images_runs (m_swapchain_images sc) [] out 0
                (m_num_swapchain_images sc) count) as Hrun.
  cbn [app length] in Hrun. rewrite Z.sub_0_r in Hrun.
  rewrite Hrun.
  - reflexivity.
  - reflexivity.
  - reflexivity.
  - unfold m_num_swapchain_images in Hnum.
    destruct (m_swapchain_images sc); [cbn in Hnum; lia | discriminate].
  - exact Hcount.
  - exact Hroom.
Qed.

(** The amended C5 run on the example swapchain, for a count of 2 and for a
    count of 7. *)
Lemma C5_copies_on_example_swapchain :
  get_swapchain_images false example_swapchain 2 (Some [0; 0; 0; 0; 0])
  = Returns (VK_INCOMPLETE, 2, Some [1; 2; 0; 0; 0])
  /\ get_swapchain_images false example_swapchain 7 (Some [0; 0; 0; 0; 0])
     = Returns (VK_SUCCESS, 4, Some [1; 2; 3; 4; 0]).
Proof.
  split.
  - apply (C5_get_swapchain_images_copies_the_smaller_count
             false example_swapchain 2 (Some [0; 0; 0; 0; 0])).
    intros out Hout. injection Hout as <-. cbn. lia.
  - apply (C5_get_swapchain_images_copies_the_smaller_count
             false example_swapchain 7 (Some [0; 0; 0; 0; 0])).
    intros out Hout. injection Hout as <-. cbn. lia.
Defined.










(** C9 (evaluated where the code departs from it).  The claim: the check of
    [res] before [sem_init] is dead and [init]'s result does not depend on
    it.  The check reads [res] before anything was assigned to it, so it
    tests whatever the variable holds.  On a platform where every call
    succeeds: when that value is 0, [init] returns SUCCESS; when it is 1, a
    build with NDEBUG returns OUT_OF_HOST_MEMORY from that very branch,
    without reaching [sem_init], and a build without NDEBUG stops on the
    assertion. *)
Theorem C9_unassigned_res_decides_the_result :
  init_result (init true all_succeed (junk 0) 1000 no_objects (constructed false) 31
                 fifo_create_info [])
  = Some VK_SUCCESS
  /\ (exists sc h,
         init true all_succeed (junk 1) 1000 no_objects (constructed false) 31
           fifo_create_info []
         = Returns (VK_ERROR_OUT_OF_HOST_MEMORY, sc, h,
                    [CallHostAllocation 3; CallInitPlatform; CallHostAllocation 3;
                     CallSemInit m_free_image_semaphore 3;
                     CallCreateImage; CallCreateImage; CallCreateImage;
                     CallGetDeviceQueue; CallSetDeviceLoaderData;
                     CallSemInit m_page_flip_semaphore 0]))
  /\ init false all_succeed (junk 1) 1000 no_objects (constructed false) 31
       fifo_create_info []
     = AssertionFailed.
Proof.
  split; [reflexivity |]. split; [| reflexivity].
  eexists. eexists. vm_compute. reflexivity.
Qed.

End SwapchainClaims.

(** * Further properties *)

(** ** The allocator core, beyond the walk *)

Section AllocatorFurther.

Import Helpers.

(** The mask of [round_size_up_to_align] keeps bits 6 to 31 and nothing
    else. *)
Lemma land_align_mask_any (x : Z) :
  Z.land x (to_uint32 (Z.lnot 63)) = 64 * ((x / 64) mod 2 ^ 26).
Proof.
  change (to_uint32 (Z.lnot 63)) with (Z.shiftl (Z.ones 26) 6).
  replace (64 * ((x / 64) mod 2 ^ 26))
    with (Z.shiftl (Z.land (Z.shiftr x 6) (Z.ones 26)) 6).
  - apply Z.bits_inj'. intros n Hn.
    rewrite Z.land_spec.
    destruct (Z.ltb_spec n 6) as [Hlow | Hhigh].
    + rewrite !Z.shiftl_spec_low by lia. apply andb_false_r.
    + rewrite !Z.shiftl_spec by lia. rewrite Z.land_spec.
      rewrite Z.shiftr_spec by lia. replace (n - 6 + 6) with n by lia.
      reflexivity.
  - rewrite Z.land_ones by lia.
    rewrite Z.shiftl_mul_pow2, Z.shiftr_div_pow2 by lia.
    change (2 ^ 6) with 64. lia.
Qed.

(** [round_size_up_to_align] yields a multiple of 64 below 2^32 for every
    size; it is the round-up of sizes up to 2^32 - 64, and falls below the
    size from 2^32 on. *)
Theorem round_size_up_to_align_stays_below_32_bits :
  forall size : Z,
    0 <= size ->
    round_size_up_to_align size mod 64 = 0
    /\ 0 <= round_size_up_to_align size < 2 ^ 32
    /\ (size <= 2 ^ 32 - 64 ->
        size <= round_size_up_to_align size < size + 64)
    /\ (2 ^ 32 <= size -> round_size_up_to_align size < size).
Proof.
  intros size Hsize.
  assert (Hform : round_size_up_to_align size
                  = 64 * ((to_uint64 (size + 63) / 64) mod 2 ^ 26)).
  { unfold round_size_up_to_align, WSIALLOCP_MIN_ALIGN_SZ.
    replace (size + 64 - 1) with (size + 63) by lia.
    change (64 - 1) with 63. apply land_align_mask_any. }
  pose proof (Z.mod_pos_bound (to_uint64 (size + 63) / 64) (2 ^ 26) ltac:(lia)) as Hq.
  assert (Hrange : 0 <= round_size_up_to_align size < 2 ^ 32) by (rewrite Hform; lia).
  split; [| split; [exact Hrange | split]].
  - rewrite Hform, Z.mul_comm. apply Z.mod_mul. lia.
  - intros Hsmall.
    rewrite round_size_up_to_align_small by lia.
    pose proof (round_up64_bounds size) as [Hb _]. exact Hb.
  - intros Hbig. lia.
Qed.

Lemma round_size_up_to_align_at_the_edge :
  0 <= 2 ^ 32 - 64
  /\ round_size_up_to_align (2 ^ 32 - 64) = 2 ^ 32 - 64
  /\ round_size_up_to_align (2 ^ 32 - 63) < 2 ^ 32 - 63.
Proof.
  destruct (round_size_up_to_align_stays_below_32_bits (2 ^ 32 - 64) ltac:(lia))
    as (_ & _ & Hup & _).
  split; [lia |]. split.
  - vm_compute. reflexivity.
  - pose proof (Hup ltac:(lia)) as Hin. vm_compute. reflexivity.
Defined.

(** [find_format] does not look at the big-endian bit of the fourcc. *)
Theorem find_format_ignores_big_endian :
  forall (NDEBUG : bool) (table : list fmt_spec) (code : Z),
    find_format NDEBUG table (Z.lor code DRM_FORMAT_BIG_ENDIAN)
    = find_format NDEBUG table code.
Proof.
  intros NDEBUG table code. unfold find_format.
  change (to_uint32 (Z.lnot (to_uint32 DRM_FORMAT_BIG_ENDIAN))) with (Z.ones 31).
  rewrite Z.land_lor_distr_l.
  change (Z.land DRM_FORMAT_BIG_ENDIAN (Z.ones 31)) with 0.
  rewrite Z.lor_0_r. reflexivity.
Qed.

Lemma find_format_from_sound (NDEBUG : bool) (table : list fmt_spec) (key : Z) :
  forall found : option fmt_spec,
    find_format_from NDEBUG table key = Returns found ->
    found = find (fun s => key =? drm_format s) table.
Proof.
  induction table as [| row rest IH]; intros found Hrun; cbn [find_format_from find] in *.
  - congruence.
  - destruct (key =? drm_format row).
    + destruct (c_assert NDEBUG (nr_planes row <=? WSIALLOC_MAX_PLANES));
        cbn [bind] in Hrun; congruence.
    + apply IH. exact Hrun.
Qed.

(** When [find_format] returns a row, it is the first row of the table whose
    format is the fourcc without its big-endian bit, and it has no more than
    [WSIALLOC_MAX_PLANES] planes unless assertions are off; when it returns
    no row, no row of the table has that format. *)
Theorem find_format_returns_the_first_match :
  forall (NDEBUG : bool) (table : list fmt_spec) (code : Z) (found : option fmt_spec),
    find_format NDEBUG table code = Returns found ->
    found = lookup table code
    /\ (forall s, found = Some s ->
          In s table /\ drm_format s = Z.land code (Z.ones 31))
    /\ (found = None ->
        forall s, In s table -> drm_format s <> Z.land code (Z.ones 31)).
Proof.
  intros NDEBUG table code found Hrun.
  unfold find_format in Hrun.
  change (to_uint32 (Z.lnot (to_uint32 DRM_FORMAT_BIG_ENDIAN))) with (Z.ones 31) in Hrun.
  apply find_format_from_sound in Hrun. fold (lookup table code) in Hrun.
  split; [exact Hrun | split].
  - intros s Hs. rewrite Hs in Hrun. symmetry in Hrun.
    apply find_some in Hrun. destruct Hrun as [Hin Heq].
    apply Z.eqb_eq in Heq. split; [exact Hin | congruence].
  - intros Hnone s Hin Heq. rewrite Hnone in Hrun. symmetry in Hrun.
    pose proof (find_none _ _ Hrun s Hin) as Hno. cbn beta in Hno.
    apply Z.eqb_neq in Hno. congruence.
Qed.

Lemma find_format_on_example_table :
  find_format false example_table (Z.lor XR24 DRM_FORMAT_BIG_ENDIAN)
  = Returns (Some {| drm_format := XR24; nr_planes := 1; bpp := [32; 0; 0; 0] |})
  /\ In {| drm_format := XR24; nr_planes := 1; bpp := [32; 0; 0; 0] |} example_table
  /\ (forall s, In s example_table -> drm_format s <> Z.land 88 (Z.ones 31)).
Proof.
  assert (Hxr : find_format false example_table (Z.lor XR24 DRM_FORMAT_BIG_ENDIAN)
                = Returns (Some {| drm_format := XR24; nr_planes := 1;
                                   bpp := [32; 0; 0; 0] |})) by reflexivity.
  destruct (find_format_returns_the_first_match false example_table
              (Z.lor XR24 DRM_FORMAT_BIG_ENDIAN) _ Hxr) as (_ & Hsome & _).
  destruct (find_format_returns_the_first_match false example_table 88 None eq_refl)
    as (_ & _ & Hnone).
  split; [exact Hxr |]. split.
  - exact (proj1 (Hsome _ eq_refl)).
  - exact (Hnone eq_refl).
Defined.

(** A request that meets the input contract but offers no acceptable
    candidate is answered NOT_SUPPORTED; the callback is not called and the
    result is left as it was. *)
Theorem no_acceptable_candidate_is_not_supported :
  forall (Allocator World : Type) (NDEBUG : bool) (table : list fmt_spec)
         (a : Allocator) (fn_alloc : @wsiallocp_alloc_callback Allocator World)
         (info : wsialloc_allocate_info) (array : list wsialloc_format)
         (r : wsialloc_allocate_result) (w : World),
    table_ok table = true ->
    request_ok info array ->
    find (acceptable table) array = None ->
    wsiallocp_alloc NDEBUG table (Some a) fn_alloc (Some info) (Some r) w
    = Returns (WSIALLOC_ERROR_NOT_SUPPORTED, Some r, w).
Proof.
  intros Allocator World NDEBUG table a fn_alloc info array r w Htable Hrequest Hnone.
  unfold wsiallocp_alloc.
  rewrite (validate_request_ok a info array r Hrequest). cbn [bind negb].
  destruct Hrequest as (Hformats & Hcount & Hne & Hw & Hh).
  rewrite Hformats. cbn [bind].
  rewrite Hcount, Nat2Z.id.
  rewrite (format_loop_none_acceptable NDEBUG table Htable info array walk_start Hne Hnone).
  reflexivity.
Qed.

Lemma nv12_only_is_not_supported :
  table_ok example_table = true
  /\ find (acceptable example_table) [linear NV12] = None
  /\ wsiallocp_alloc false example_table (Some tt) (noting_callback 3)
       (Some nv12_request) (Some empty_result) []
     = Returns (WSIALLOC_ERROR_NOT_SUPPORTED, Some empty_result, []).
Proof.
  split; [reflexivity |]. split; [reflexivity |].
  apply (no_acceptable_candidate_is_not_supported unit (list Z) false example_table
           tt (noting_callback 3) nv12_request [linear NV12] empty_result []);
    try reflexivity.
  unfold request_ok, MAX_IMAGE_SIZE. cbn.
  repeat split; try discriminate; lia.
Defined.

(** Runs of two lemmas proved with the walk: a request of width 0, and the
    stride and size of a 1920 x 1080 image in XR24. *)
Lemma zero_width_is_invalid :
  violates_contract (Some tt) zero_width_request (Some empty_result)
  /\ wsiallocp_alloc false example_table (Some tt) (noting_callback 3)
       (Some zero_width_request) (Some empty_result) []
     = Returns (WSIALLOC_ERROR_INVALID, Some empty_result, []).
Proof.
  assert (Hbad : violates_contract (Some tt) zero_width_request (Some empty_result)).
  { unfold violates_contract. do 4 right. left. cbn. lia. }
  split; [exact Hbad |].
  exact (wsiallocp_alloc_invalid false example_table (Some tt) (noting_callback 3)
           zero_width_request (Some empty_result) [] Hbad).
Defined.

Lemma full_hd_stride_and_size :
  exists stride size ss os,
    calculate_format_properties false
      {| format := linear XR24;
         format_spec := {| drm_format := XR24; nr_planes := 1; bpp := [32; 0; 0; 0] |} |}
      (negotiation_request 0) fresh_locals
    = Returns (WSIALLOC_ERROR_NONE,
               {| local_strides := Some stride :: ss; local_offsets := Some 0 :: os;
                  total_size := size |})
    /\ stride = 7680
    /\ 1920 * 4 <= stride < 1920 * 4 + 64
    /\ stride mod 64 = 0
    /\ (stride * 1080 < 2 ^ 32 -> size = stride * 1080).
Proof.
  exact (accepted_stride_and_size false (linear XR24)
           {| drm_format := XR24; nr_planes := 1; bpp := [32; 0; 0; 0] |}
           (negotiation_request 0) 32 [0; 0; 0]
           eq_refl eq_refl eq_refl ltac:(lia) (or_intror eq_refl)
           ltac:(unfold MAX_IMAGE_SIZE; cbn; lia)
           ltac:(unfold MAX_IMAGE_SIZE; cbn; lia)).
Defined.

End AllocatorFurther.

(** ** The back-ends, from [wsialloc_new] to [wsialloc_delete] *)

Section BackendFurther.

Import Helpers.

(** Without NO_MEMORY the call is the callback, asked for [total_size]
    bytes, followed by the decision on its answer; a callback that does not
    return ends the call the same way. *)
Lemma alloc_is_callback_then_decision {Allocator World : Type} (NDEBUG : bool)
    (table : list fmt_spec) (a : Allocator)
    (fn_alloc : @wsiallocp_alloc_callback Allocator World)
    (info : wsialloc_allocate_info) (array : list wsialloc_format)
    (r : wsialloc_allocate_result) (c : wsialloc_format) (w : World) :
  table_ok table = true ->
  request_ok info array ->
  result_ok r = true ->
  find (acceptable table) array = Some c ->
  Z.land (info_flags info) WSIALLOC_ALLOCATE_NO_MEMORY = 0 ->
  wsiallocp_alloc NDEBUG table (Some a) fn_alloc (Some info) (Some r) w
  = ('(fd, w') <- fn_alloc a info
       (to_uint32 (plane_stride (width info) (bits_of table c) * height info)) w ;;
     if to_int fd <? 0
     then Returns (WSIALLOC_ERROR_NO_RESOURCE, Some r, w')
     else Returns (WSIALLOC_ERROR_NONE,
                   Some (populated table info c r (update (buffer_fds r) 0 (to_int fd))),
                   w')).
Proof.
  intros Htable Hrequest Hresult Hfirst Hflag.
  destruct (fn_alloc a info
              (to_uint32 (plane_stride (width info) (bits_of table c) * height info)) w)
    as [[fd w'] | |] eqn:Hcall.
  - cbn [bind].
    apply (alloc_with_memory NDEBUG table Htable a fn_alloc info array r c
             Hrequest Hresult Hfirst w w' fd Hflag Hcall).
  - unfold wsiallocp_alloc.
    rewrite (validate_request_ok a info array r Hrequest). cbn [bind negb].
    pose proof Hrequest as (Hformats & _). rewrite Hformats. cbn [bind].
    rewrite (walk_selects NDEBUG table Htable info array c Hrequest Hfirst).
    cbn [bind err vars total_size accepted_state is_none negb].
    apply Z.eqb_eq in Hflag. rewrite Hflag, Hcall. reflexivity.
  - unfold wsiallocp_alloc.
    rewrite (validate_request_ok a info array r Hrequest). cbn [bind negb].
    pose proof Hrequest as (Hformats & _). rewrite Hformats. cbn [bind].
    rewrite (walk_selects NDEBUG table Htable info array c Hrequest Hfirst).
    cbn [bind err vars total_size accepted_state is_none negb].
    apply Z.eqb_eq in Hflag. rewrite Hflag, Hcall. reflexivity.
Qed.

(** An allocator handed out by [wsialloc_new], of either back-end, answers
    every request with the PROTECTED flag with NO_RESOURCE and asks nothing
    of the kernel: [wsialloc_new] never sets up a protected heap. *)
Theorem fresh_allocators_refuse_protected_requests :
  forall (NDEBUG : bool) (table : list fmt_spec) (K : Type)
         (dma : DmaBufHeaps.kernel K) (ion : Ion.kernel K)
         (info : wsialloc_allocate_info)
         (result : option wsialloc_allocate_result) (k0 k1 k : K),
    Z.land (info_flags info) WSIALLOC_ALLOCATE_PROTECTED <> 0 ->
    (forall e a,
        DmaBufHeaps.wsialloc_new dma k0 = Returns (e, Some a, k1) ->
        DmaBufHeaps.wsialloc_alloc NDEBUG table dma (Some a) (Some info) result k
        = Returns (WSIALLOC_ERROR_NO_RESOURCE, result, k))
    /\ (forall e a,
           Ion.wsialloc_new NDEBUG ion k0 = Returns (e, Some a, k1) ->
           Ion.wsialloc_alloc NDEBUG table ion (Some a) (Some info) result k
           = Returns (WSIALLOC_ERROR_NO_RESOURCE, result, k)).
Proof.
  intros NDEBUG table K dma ion info result k0 k1 k Hflag.
  apply Z.eqb_neq in Hflag.
  split; intros e a Hnew.
  - assert (Hprot : DmaBufHeaps.protected_fd a = -1).
    { unfold DmaBufHeaps.wsialloc_new in Hnew.
      destruct (DmaBufHeaps.malloc dma k0) as [[block |] k'];
        [| discriminate Hnew].
      destruct (DmaBufHeaps.open_heap dma k') as [fd k''].
      cbn [DmaBufHeaps.memory_fd] in Hnew.
      destruct (fd <? 0); [discriminate Hnew |].
      injection Hnew as _ <- _. reflexivity. }
    unfold DmaBufHeaps.wsialloc_alloc. rewrite Hflag, Hprot. reflexivity.
  - assert (Hprot : Ion.protected_heap_exists a = false).
    { unfold Ion.wsialloc_new in Hnew.
      destruct (Ion.malloc ion k0) as [[block |] k'].
      - destruct (Ion.open_ion ion k') as [dev k''].
        cbn [Ion.fd] in Hnew.
        destruct (dev <? 0).
        + destruct (Ion.wsialloc_delete NDEBUG ion _ k''); discriminate Hnew.
        + destruct (Ion.find_alloc_heap_id NDEBUG ion dev k'') as [[id k3] | |];
            cbn [bind] in Hnew; try discriminate Hnew.
          cbn [Ion.alloc_heap_id] in Hnew.
          destruct (to_uint32 id <? 0).
          * destruct (Ion.wsialloc_delete NDEBUG ion _ k3); discriminate Hnew.
          * injection Hnew as _ <- _. reflexivity.
      - destruct (Ion.wsialloc_delete NDEBUG ion None k'); discriminate Hnew. }
    unfold Ion.wsialloc_alloc. rewrite Hflag, Hprot. reflexivity.
Qed.

Lemma fresh_example_allocators_refuse_protected_requests :
  Z.land (info_flags protected_request) WSIALLOC_ALLOCATE_PROTECTED <> 0
  /\ DmaBufHeaps.wsialloc_new example_dma_kernel []
     = Returns (WSIALLOC_ERROR_NONE,
                Some {| DmaBufHeaps.memory_fd := 5; DmaBufHeaps.protected_fd := -1 |}, [])
  /\ DmaBufHeaps.wsialloc_alloc false example_table example_dma_kernel
       (Some {| DmaBufHeaps.memory_fd := 5; DmaBufHeaps.protected_fd := -1 |})
       (Some protected_request) (Some empty_result) []
     = Returns (WSIALLOC_ERROR_NO_RESOURCE, Some empty_result, []).
Proof.
  assert (Hflag : Z.land (info_flags protected_request) WSIALLOC_ALLOCATE_PROTECTED <> 0)
    by (vm_compute; discriminate).
  split; [exact Hflag |]. split; [reflexivity |].
  apply (proj1 (fresh_allocators_refuse_protected_requests false example_table (list Z)
                  example_dma_kernel (example_ion_kernel 0 []) protected_request
                  (Some empty_result) [] [] [] Hflag) WSIALLOC_ERROR_NONE).
  reflexivity.
Defined.

(** [wsialloc_delete] after [wsialloc_new]: the descriptor that [open]
    returned is closed, once, and no other; this for both back-ends. *)
Theorem delete_closes_what_new_opened :
  forall (NDEBUG : bool) (K : Type) (dma : DmaBufHeaps.kernel K) (ion : Ion.kernel K)
         (k0 k1 k : K),
    (forall a,
        DmaBufHeaps.wsialloc_new dma k0 = Returns (WSIALLOC_ERROR_NONE, Some a, k1) ->
        0 <= DmaBufHeaps.memory_fd a
        /\ (exists k', DmaBufHeaps.open_heap dma k' = (DmaBufHeaps.memory_fd a, k1))
        /\ DmaBufHeaps.wsialloc_delete NDEBUG dma (Some a) k
           = Returns (DmaBufHeaps.close dma (DmaBufHeaps.memory_fd a) k))
    /\ (forall a,
           Ion.wsialloc_new NDEBUG ion k0 = Returns (WSIALLOC_ERROR_NONE, Some a, k1) ->
           0 <= Ion.fd a
           /\ Ion.wsialloc_delete NDEBUG ion (Some a) k
              = Returns (Ion.close ion (Ion.fd a) k)).
Proof.
  intros NDEBUG K dma ion k0 k1 k. split; intros a Hnew.
  - unfold DmaBufHeaps.wsialloc_new in Hnew.
    destruct (DmaBufHeaps.malloc dma k0) as [[block |] k'] eqn:Hmalloc;
      [| discriminate Hnew].
    destruct (DmaBufHeaps.open_heap dma k') as [fd k''] eqn:Hopen.
    cbn [DmaBufHeaps.memory_fd] in Hnew.
    destruct (Z.ltb_spec fd 0) as [Hneg | Hpos]; [discriminate Hnew |].
    injection Hnew as <- <-.
    cbn [DmaBufHeaps.memory_fd DmaBufHeaps.protected_fd].
    split; [exact Hpos |]. split; [exists k'; exact Hopen |].
    unfold DmaBufHeaps.wsialloc_delete, DmaBufHeaps.close_fd, c_assert.
    cbn [is_null negb DmaBufHeaps.memory_fd DmaBufHeaps.protected_fd].
    rewrite orb_true_r. cbn [bind].
    replace (fd >=? 0) with true by (symmetry; apply Z.geb_le; exact Hpos).
    reflexivity.
  - unfold Ion.wsialloc_new in Hnew.
    destruct (Ion.malloc ion k0) as [[block |] k'].
    + destruct (Ion.open_ion ion k') as [dev k''].
      cbn [Ion.fd] in Hnew.
      destruct (Z.ltb_spec dev 0) as [Hneg | Hpos].
      * destruct (Ion.wsialloc_delete NDEBUG ion _ k''); discriminate Hnew.
      * destruct (Ion.find_alloc_heap_id NDEBUG ion dev k'') as [[id k3] | |];
          cbn [bind] in Hnew; try discriminate Hnew.
        cbn [Ion.alloc_heap_id] in Hnew.
        destruct (to_uint32 id <? 0).
        -- destruct (Ion.wsialloc_delete NDEBUG ion _ k3); discriminate Hnew.
        -- injection Hnew as <- _.
           cbn [Ion.fd]. split; [exact Hpos |].
           unfold Ion.wsialloc_delete, c_assert.
           cbn [is_null negb Ion.fd]. rewrite orb_true_r. cbn [bind].
           replace (dev >=? 0) with true by (symmetry; apply Z.geb_le; exact Hpos).
           reflexivity.
    + destruct (Ion.wsialloc_delete NDEBUG ion None k'); discriminate Hnew.
Qed.

Lemma example_allocator_is_closed_once :
  DmaBufHeaps.wsialloc_new failing_dma_kernel []
  = Returns (WSIALLOC_ERROR_NONE,
             Some {| DmaBufHeaps.memory_fd := 5; DmaBufHeaps.protected_fd := -1 |}, [])
  /\ DmaBufHeaps.wsialloc_delete false failing_dma_kernel
       (Some {| DmaBufHeaps.memory_fd := 5; DmaBufHeaps.protected_fd := -1 |}) []
     = Returns [-5].
Proof.
  split; [reflexivity |].
  exact (proj2 (proj2 (proj1 (delete_closes_what_new_opened false (list Z)
                                failing_dma_kernel (example_ion_kernel 0 []) [] [] [])
                         {| DmaBufHeaps.memory_fd := 5; DmaBufHeaps.protected_fd := -1 |}
                         eq_refl))).
Defined.

(** When [malloc] fails, the DMA-BUF back-end returns NO_RESOURCE at once.
    The ION back-end first passes the null pointer to [wsialloc_delete],
    which asserts that it is not null: the call returns NO_RESOURCE only in
    a build with NDEBUG and stops on the assertion otherwise. *)
Theorem new_without_memory :
  forall (K : Type) (dma : DmaBufHeaps.kernel K) (ion : Ion.kernel K) (k k1 : K),
    (DmaBufHeaps.malloc dma k = (None, k1) ->
     DmaBufHeaps.wsialloc_new dma k = Returns (WSIALLOC_ERROR_NO_RESOURCE, None, k1))
    /\ (Ion.malloc ion k = (None, k1) ->
        Ion.wsialloc_new true ion k = Returns (WSIALLOC_ERROR_NO_RESOURCE, None, k1)
        /\ Ion.wsialloc_new false ion k = AssertionFailed).
Proof.
  intros K dma ion k k1. split; intros Hmalloc.
  - unfold DmaBufHeaps.wsialloc_new. rewrite Hmalloc. reflexivity.
  - unfold Ion.wsialloc_new. rewrite Hmalloc. split; reflexivity.
Qed.

Lemma ion_new_without_memory_stops_on_the_assertion :
  Ion.malloc ion_kernel_without_memory [] = (None, [])
  /\ Ion.wsialloc_new true ion_kernel_without_memory []
     = Returns (WSIALLOC_ERROR_NO_RESOURCE, None, [])
  /\ Ion.wsialloc_new false ion_kernel_without_memory [] = AssertionFailed.
Proof.
  split; [reflexivity |].
  exact (proj2 (new_without_memory (list Z) example_dma_kernel
                  ion_kernel_without_memory [] []) eq_refl).
Defined.

End BackendFurther.

Section BackendAllocation.

Import Helpers.

Lemma assert_holds (NDEBUG cond : bool) : cond = true -> c_assert NDEBUG cond = Returns tt.
Proof. intros ->. unfold c_assert. rewrite orb_true_r. reflexivity. Qed.

(** An allocation through the DMA-BUF back-end, for an unprotected request
    that meets the contract and has an acceptable candidate [c], a size that
    is not zero and an open heap: one allocation ioctl is made on
    [memory_fd] for [total_size] bytes.  When it fails the call returns
    NO_RESOURCE and the result is as it was; when it succeeds the call
    returns NONE and the new descriptor is in slot 0 of the result. *)
Theorem dma_allocation_follows_the_ioctl :
  forall (NDEBUG : bool) (table : list fmt_spec) (K : Type) (dma : DmaBufHeaps.kernel K)
         (a : DmaBufHeaps.wsialloc_allocator) (info : wsialloc_allocate_info)
         (array : list wsialloc_format) (r : wsialloc_allocate_result)
         (c : wsialloc_format) (k k' : K) (ret errno heap_fd : Z),
    table_ok table = true ->
    request_ok info array ->
    result_ok r = true ->
    find (acceptable table) array = Some c ->
    Z.land (info_flags info) WSIALLOC_ALLOCATE_NO_MEMORY = 0 ->
    Z.land (info_flags info) WSIALLOC_ALLOCATE_PROTECTED = 0 ->
    0 <= DmaBufHeaps.memory_fd a ->
    0 < to_uint32 (plane_stride (width info) (bits_of table c) * height info) ->
    DmaBufHeaps.heap_ioctl dma (DmaBufHeaps.memory_fd a)
      (to_uint32 (plane_stride (width info) (bits_of table c) * height info)) k
    = (ret, errno, heap_fd, k') ->
    (ret <> 0 -> 0 < errno < 2 ^ 31 ->
     DmaBufHeaps.wsialloc_alloc NDEBUG table dma (Some a) (Some info) (Some r) k
     = Returns (WSIALLOC_ERROR_NO_RESOURCE, Some r, k'))
    /\ (ret = 0 -> 0 < heap_fd < 2 ^ 31 ->
        DmaBufHeaps.wsialloc_alloc NDEBUG table dma (Some a) (Some info) (Some r) k
        = Returns (WSIALLOC_ERROR_NONE,
                   Some (populated table info c r (update (buffer_fds r) 0 heap_fd)),
                   k')).
Proof.
  intros NDEBUG table K dma a info array r c k k' ret errno heap_fd
         Htable Hrequest Hresult Hfirst Hmem Hprot Hfd Hsize Hioctl.
  assert (Hrun : DmaBufHeaps.wsialloc_alloc NDEBUG table dma (Some a) (Some info) (Some r) k
                 = if negb (ret =? 0)
                   then
                     if to_int (- errno) <? 0
                     then Returns (WSIALLOC_ERROR_NO_RESOURCE, Some r, k')
                     else Returns (WSIALLOC_ERROR_NONE,
                                   Some (populated table info c r
                                           (update (buffer_fds r) 0 (to_int (- errno)))),
                                   k')
                   else
                     _ <- c_assert NDEBUG (heap_fd >? 0) ;;
                     if to_int heap_fd <? 0
                     then Returns (WSIALLOC_ERROR_NO_RESOURCE, Some r, k')
                     else Returns (WSIALLOC_ERROR_NONE,
                                   Some (populated table info c r
                                           (update (buffer_fds r) 0 (to_int heap_fd))),
                                   k')).
  { unfold DmaBufHeaps.wsialloc_alloc.
    apply Z.eqb_eq in Hprot. rewrite Hprot. cbn [negb].
    replace (DmaBufHeaps.memory_fd a <? 0) with false
      by (symmetry; apply Z.ltb_ge; exact Hfd).
    rewrite (alloc_is_callback_then_decision NDEBUG table a
               (DmaBufHeaps.dma_allocate NDEBUG dma) info array r c k
               Htable Hrequest Hresult Hfirst Hmem).
    unfold DmaBufHeaps.dma_allocate, DmaBufHeaps.allocate.
    rewrite !(assert_holds NDEBUG _ (proj2 (Z.gtb_lt _ _) Hsize)). cbn [bind].
    rewrite Hprot. cbn [negb].
    replace (DmaBufHeaps.memory_fd a <? 0) with false
      by (symmetry; apply Z.ltb_ge; exact Hfd).
    rewrite assert_holds
      by (apply negb_true_iff; apply Z.eqb_neq; lia).
    cbn [bind]. rewrite Hioctl.
    destruct (ret =? 0); cbn [negb bind].
    - destruct (c_assert NDEBUG (heap_fd >? 0)) as [[] | |]; reflexivity.
    - reflexivity. }
  split.
  - intros Hret Herrno. rewrite Hrun.
    replace (ret =? 0) with false by (symmetry; apply Z.eqb_neq; exact Hret).
    cbn [negb].
    assert (Hneg : to_int (- errno) = - errno).
    { rewrite <- (to_int_to_uint32 (- errno)) at 2 by lia.
      unfold to_int, to_uint32. rewrite Z.mod_mod by lia. reflexivity. }
    rewrite Hneg.
    replace (- errno <? 0) with true by (symmetry; apply Z.ltb_lt; lia).
    reflexivity.
  - intros Hret Hheap. rewrite Hrun. rewrite Hret. cbn [Z.eqb negb].
    rewrite assert_holds by (apply Z.gtb_lt; lia). cbn [bind].
    rewrite to_int_small by lia.
    replace (heap_fd <? 0) with false by (symmetry; apply Z.ltb_ge; lia).
    reflexivity.
Qed.

Lemma dma_allocation_on_example_kernels :
  DmaBufHeaps.wsialloc_alloc false example_table failing_dma_kernel
    (Some {| DmaBufHeaps.memory_fd := 5; DmaBufHeaps.protected_fd := -1 |})
    (Some (negotiation_request 0)) (Some empty_result) []
  = Returns (WSIALLOC_ERROR_NO_RESOURCE, Some empty_result, [8294400])
  /\ DmaBufHeaps.wsialloc_alloc false example_table example_dma_kernel
       (Some {| DmaBufHeaps.memory_fd := 5; DmaBufHeaps.protected_fd := -1 |})
       (Some (negotiation_request 0)) (Some empty_result) []
     = Returns (WSIALLOC_ERROR_NONE,
                Some (populated example_table (negotiation_request 0) (linear XR24)
                        empty_result [9; -1; -1; -1]),
                [8294400]).
Proof.
  split.
  - apply (proj1 (dma_allocation_follows_the_ioctl false example_table (list Z)
                    failing_dma_kernel
                    {| DmaBufHeaps.memory_fd := 5; DmaBufHeaps.protected_fd := -1 |}
                    (negotiation_request 0) negotiation empty_result (linear XR24)
                    [] [8294400] (-1) 12 0
                    eq_refl (negotiation_request_ok 0) eq_refl eq_refl eq_refl eq_refl
                    ltac:(cbn; lia) ltac:(vm_compute; reflexivity) eq_refl));
      [discriminate | lia].
  - apply (proj2 (dma_allocation_follows_the_ioctl false example_table (list Z)
                    example_dma_kernel
                    {| DmaBufHeaps.memory_fd := 5; DmaBufHeaps.protected_fd := -1 |}
                    (negotiation_request 0) negotiation empty_result (linear XR24)
                    [] [8294400] 0 0 9
                    eq_refl (negotiation_request_ok 0) eq_refl eq_refl eq_refl eq_refl
                    ltac:(cbn; lia) ltac:(vm_compute; reflexivity) eq_refl));
      [reflexivity | lia].
Defined.

(** An allocation through the ION back-end with a heap id of 32 or more,
    such as the 4294967295 that [wsialloc_new] stores when it found no heap
    of type DMA: for an unprotected request that meets the contract, has an
    acceptable candidate and a size that is not zero, the heap mask
    [1u << heap_id] is a shift by 32 bits or more, which has no defined
    result. *)
Theorem ion_allocation_with_heap_id_out_of_range :
  forall (NDEBUG : bool) (table : list fmt_spec) (K : Type) (ion : Ion.kernel K)
         (a : Ion.wsialloc_allocator) (info : wsialloc_allocate_info)
         (array : list wsialloc_format) (r : wsialloc_allocate_result)
         (c : wsialloc_format) (k : K),
    table_ok table = true ->
    request_ok info array ->
    result_ok r = true ->
    find (acceptable table) array = Some c ->
    Z.land (info_flags info) WSIALLOC_ALLOCATE_NO_MEMORY = 0 ->
    Z.land (info_flags info) WSIALLOC_ALLOCATE_PROTECTED = 0 ->
    Ion.fd a <> -1 ->
    0 < to_uint32 (plane_stride (width info) (bits_of table c) * height info) ->
    32 <= Ion.alloc_heap_id a ->
    Ion.wsialloc_alloc NDEBUG table ion (Some a) (Some info) (Some r) k = Undefined.
Proof.
  intros NDEBUG table K ion a info array r c k
         Htable Hrequest Hresult Hfirst Hmem Hprot Hfd Hsize Hid.
  unfold Ion.wsialloc_alloc.
  apply Z.eqb_eq in Hprot. rewrite Hprot. cbn [negb andb].
  rewrite (alloc_is_callback_then_decision NDEBUG table a
             (Ion.ion_allocate NDEBUG ion) info array r c k
             Htable Hrequest Hresult Hfirst Hmem).
  unfold Ion.ion_allocate, Ion.allocate.
  rewrite !(assert_holds NDEBUG (negb (Ion.fd a =? -1)))
    by (apply negb_true_iff; apply Z.eqb_neq; exact Hfd).
  rewrite !(assert_holds NDEBUG _ (proj2 (Z.gtb_lt _ _) Hsize)). cbn [bind].
  rewrite Hprot. cbn [negb].
  replace (Ion.alloc_heap_id a >=? 32) with true by (symmetry; apply Z.geb_le; exact Hid).
  reflexivity.
Qed.

Lemma ion_allocation_after_failed_heap_lookup :
  Ion.wsialloc_new false (example_ion_kernel 0 []) []
  = Returns (WSIALLOC_ERROR_NONE,
             Some {| Ion.fd := 5; Ion.alloc_heap_id := 4294967295;
                     Ion.protected_alloc_heap_id := 79;
                     Ion.protected_heap_exists := false |},
             [])
  /\ Ion.wsialloc_alloc false example_table (example_ion_kernel 0 [])
       (Some {| Ion.fd := 5; Ion.alloc_heap_id := 4294967295;
                Ion.protected_alloc_heap_id := 79;
                Ion.protected_heap_exists := false |})
       (Some (negotiation_request 0)) (Some empty_result) []
     = Undefined.
Proof.
  split; [reflexivity |].
  apply (ion_allocation_with_heap_id_out_of_range false example_table (list Z)
           (example_ion_kernel 0 [])
           {| Ion.fd := 5; Ion.alloc_heap_id := 4294967295;
              Ion.protected_alloc_heap_id := 79;
              Ion.protected_heap_exists := false |}
           (negotiation_request 0) negotiation empty_result (linear XR24) []
           eq_refl (negotiation_request_ok 0) eq_refl eq_refl eq_refl eq_refl);
    [discriminate | vm_compute; reflexivity | cbn; lia].
Defined.

End BackendAllocation.

(** ** The pending ring *)

Section RingFacts.

Import Wsi.
Import Lifecycle.

Lemma update_length {A : Type} (a : list A) :
  forall (i : nat) (v : A), length (update a i v) = length a.
Proof.
  induction a as [| x rest IH]; intros i v; destruct i; cbn [update length];
    try reflexivity.
  rewrite IH. reflexivity.
Qed.

Lemma update_same {A : Type} (a : list A) :
  forall (i : nat) (v : A),
    (i < length a)%nat -> nth_error (update a i v) i = Some v.
Proof.
  induction a as [| x rest IH]; intros i v Hi; cbn [length] in Hi.
  - lia.
  - destruct i; cbn [update nth_error]; [reflexivity |].
    apply IH. lia.
Qed.

Lemma update_other {A : Type} (a : list A) :
  forall (i j : nat) (v : A),
    i <> j -> nth_error (update a i v) j = nth_error a j.
Proof.
  induction a as [| x rest IH]; intros i j v Hij.
  - destruct i; reflexivity.
  - destruct i, j; cbn [update nth_error]; try reflexivity.
    + contradiction Hij. reflexivity.
    + apply IH. congruence.
Qed.

(** Two offsets from [head] that differ by less than the capacity fall on
    different cells. *)
Lemma cells_differ (h n i j : Z) :
  0 < n -> 0 <= i < j -> j < n -> (h + i) mod n <> (h + j) mod n.
Proof.
  intros Hn Hi Hj Heq.
  pose proof (Z.div_mod (h + i) n ltac:(lia)) as Hdi.
  pose proof (Z.div_mod (h + j) n ltac:(lia)) as Hdj.
  rewrite Heq in Hdi.
  assert (Hdiff : j - i = n * ((h + j) / n - (h + i) / n)) by lia.
  assert (Hq : (h + j) / n - (h + i) / n = 0 \/ (h + j) / n - (h + i) / n <> 0) by lia.
  destruct Hq as [Hq | Hq]; [rewrite Hq in Hdiff; lia | nia].
Qed.

Lemma cell_in_range (h n i : Z) :
  0 < n -> (Z.to_nat ((h + i) mod n) < Z.to_nat n)%nat.
Proof.
  intros Hn. pose proof (Z.mod_pos_bound (h + i) n Hn). lia.
Qed.

(** While fewer indices than cells are queued, [enqueue] adds its index
    behind them. *)
Lemma enqueue_keeps_order (pool : ring_buffer) (xs : list Z) (x : Z) :
  holds pool xs ->
  Z.of_nat (length xs) < size pool ->
  enqueue pool x
  = Returns {| ring := update (ring pool) (Z.to_nat (tail pool)) x;
               head := head pool;
               tail := (tail pool + 1) mod size pool;
               size := size pool |}
  /\ holds {| ring := update (ring pool) (Z.to_nat (tail pool)) x;
              head := head pool;
              tail := (tail pool + 1) mod size pool;
              size := size pool |} (xs ++ [x]).
Proof.
  intros (Hsize & Hsmall & Hhead & Hlen & Htail & Hcells) Hroom.
  assert (Hpos : 0 < size pool) by lia.
  assert (Htin : (Z.to_nat (tail pool) < length (ring pool))%nat).
  { rewrite Htail.
    pose proof (cell_in_range (head pool) (size pool) (Z.of_nat (length xs)) Hpos).
    lia. }
  split.
  - unfold enqueue. rewrite store_in_range by exact Htin. cbn [bind].
    replace (size pool =? 0) with false by (symmetry; apply Z.eqb_neq; lia).
    pose proof (Z.mod_pos_bound (head pool + Z.of_nat (length xs)) (size pool) Hpos).
    rewrite to_uint32_small by lia. reflexivity.
  - unfold holds. cbn [ring head tail size].
    rewrite update_length, length_app. cbn [length].
    repeat split; try lia.
    + rewrite Htail, Z.add_mod_idemp_l by lia. f_equal. lia.
    + intros j Hj.
      destruct (Nat.eq_dec j (length xs)) as [-> | Hne].
      * rewrite <- Htail, update_same by exact Htin.
        rewrite nth_error_app2 by lia. rewrite Nat.sub_diag. reflexivity.
      * rewrite update_other.
        -- rewrite Hcells by lia. rewrite nth_error_app1 by lia. reflexivity.
        -- rewrite Htail. intros Heq.
           apply (cells_differ (head pool) (size pool) (Z.of_nat j)
                    (Z.of_nat (length xs)) Hpos); try lia.
           pose proof (Z.mod_pos_bound (head pool + Z.of_nat j) (size pool) Hpos).
           pose proof (Z.mod_pos_bound (head pool + Z.of_nat (length xs))
                         (size pool) Hpos).
           lia.
Qed.

(** While an index is queued, [dequeue] takes the oldest one. *)
Lemma dequeue_takes_oldest (pool : ring_buffer) (y : Z) (ys : list Z) :
  holds pool (y :: ys) ->
  dequeue pool
  = Returns (y, {| ring := ring pool;
                   head := (head pool + 1) mod size pool;
                   tail := tail pool;
                   size := size pool |})
  /\ holds {| ring := ring pool;
              head := (head pool + 1) mod size pool;
              tail := tail pool;
              size := size pool |} ys.
Proof.
  intros (Hsize & Hsmall & Hhead & Hlen & Htail & Hcells).
  assert (Hpos : 0 < size pool) by lia.
  cbn [length] in *.
  split.
  - unfold dequeue.
    pose proof (Hcells 0%nat ltac:(lia)) as Hfirst.
    cbn [nth_error] in Hfirst.
    rewrite Z.add_0_r, Z.mod_small in Hfirst by lia.
    rewrite (load_nth_error _ _ _ Hfirst). cbn [bind].
    replace (size pool =? 0) with false by (symmetry; apply Z.eqb_neq; lia).
    rewrite to_uint32_small by lia. reflexivity.
  - unfold holds. cbn [ring head tail size].
    pose proof (Z.mod_pos_bound (head pool + 1) (size pool) Hpos).
    repeat split; try lia.
    + rewrite Htail, Z.add_mod_idemp_l by lia. f_equal. lia.
    + intros j Hj.
      rewrite Z.add_mod_idemp_l by lia.
      replace (head pool + 1 + Z.of_nat j) with (head pool + Z.of_nat (S j)) by lia.
      rewrite Hcells by lia. reflexivity.
Qed.

(** The ring is a first-in first-out queue of image indices: while fewer
    indices than cells are queued, [enqueue] (from [queue_present]) adds its
    index behind them; while an index is queued, [dequeue] (from the
    page-flip thread) takes the oldest one. *)
Theorem pending_ring_is_first_in_first_out :
  forall (pool : ring_buffer) (xs : list Z) (x : Z),
    holds pool xs ->
    (Z.of_nat (length xs) < size pool ->
     exists pool',
       enqueue pool x = Returns pool' /\ holds pool' (xs ++ [x]))
    /\ (forall y ys,
           xs = y :: ys ->
           exists pool',
             dequeue pool = Returns (y, pool') /\ holds pool' ys).
Proof.
  intros pool xs x Hholds. split.
  - intros Hroom. eexists. apply enqueue_keeps_order; assumption.
  - intros y ys ->. eexists. apply dequeue_takes_oldest. exact Hholds.
Qed.

Lemma idle_ring_holds_nothing : holds (m_pending_buffer_pool idle_swapchain) [].
Proof.
  unfold holds. cbn. repeat split; lia.
Qed.

(** The ring of the busy example holds index 3 and, behind it, index 1; it
    starts in the last cell and goes on in the first. *)
Lemma busy_ring_holds_two : holds (m_pending_buffer_pool busy_swapchain) [3; 1].
Proof.
  unfold holds. cbn. repeat split; try lia.
  intros [| [| j]] Hj; [reflexivity | reflexivity | cbn in Hj; lia].
Qed.

(** Index 2 is queued behind 3 and 1; the index then taken is 3, the
    oldest, and 1 and 2 stay in that order. *)
Lemma indices_go_through_busy_ring :
  exists pool' pool'',
    enqueue (m_pending_buffer_pool busy_swapchain) 2 = Returns pool'
    /\ holds pool' [3; 1; 2]
    /\ dequeue pool' = Returns (3, pool'')
    /\ holds pool'' [1; 2].
Proof.
  destruct (proj1 (pending_ring_is_first_in_first_out
                     (m_pending_buffer_pool busy_swapchain) [3; 1] 2
                     busy_ring_holds_two) ltac:(cbn; lia))
    as (pool' & Henq & Hholds).
  destruct (proj2 (pending_ring_is_first_in_first_out pool' [3; 1; 2] 0 Hholds)
              3 [1; 2] eq_refl)
    as (pool'' & Hdeq & Hrest).
  exists pool', pool''.
  split; [exact Henq | split; [exact Hholds | split; [exact Hdeq | exact Hrest]]].
Defined.

End RingFacts.

(** ** Acquiring and releasing images *)

Section AcquireFacts.

Import Wsi.
Import Lifecycle.

Lemma status_eqb_eq (a b : status_t) : status_eqb a b = true <-> a = b.
Proof. destruct a, b; cbn [status_eqb]; split; intros H; congruence. Qed.

Lemma status_eqb_neq (a b : status_t) : status_eqb a b = false <-> a <> b.
Proof.
  rewrite <- status_eqb_eq. destruct (status_eqb a b); split; congruence.
Qed.

Lemma with_images_same (sc : swapchain_base) :
  with_images sc (m_swapchain_images sc) = sc.
Proof. destruct sc. reflexivity. Qed.

(** The scan either finds the first FREE image and switches it to
    ACQUIRED, or finds none and changes nothing. *)
Lemma acquire_first_free_spec (imgs : list swapchain_image) :
  forall (i : Z) (imgs' : list swapchain_image) (found : option Z),
    acquire_first_free imgs i = (imgs', found) ->
    match found with
    | Some k =>
        exists pre img post,
          imgs = pre ++ img :: post
          /\ status img = FREE
          /\ Forall (fun x => status x <> FREE) pre
          /\ k = i + Z.of_nat (length pre)
          /\ imgs' = pre ++ set_status img ACQUIRED :: post
    | None => imgs' = imgs /\ Forall (fun x => status x <> FREE) imgs
    end.
Proof.
  induction imgs as [| img rest IH]; intros i imgs' found Hscan; cbn [acquire_first_free] in Hscan.
  - injection Hscan as <- <-. split; [reflexivity | constructor].
  - destruct (status_eqb (status img) FREE) eqn:Hfree.
    + injection Hscan as <- <-.
      exists [], img, rest. apply status_eqb_eq in Hfree.
      cbn [app length]. repeat split; try assumption; try constructor. lia.
    + destruct (acquire_first_free rest (i + 1)) as [rest' found'] eqn:Hrest.
      injection Hscan as <- <-.
      apply status_eqb_neq in Hfree.
      specialize (IH (i + 1) rest' found' Hrest).
      destruct found' as [k |].
      * destruct IH as (pre & x & post & Hsplit & Hx & Hpre & Hk & Hnew).
        exists (img :: pre), x, post. subst rest rest'.
        cbn [app length]. repeat split; try assumption.
        -- constructor; assumption.
        -- lia.
      * destruct IH as [-> Hall]. split; [reflexivity |].
        constructor; assumption.
Qed.

Lemma count_acquired_app (pre post : list swapchain_image) :
  count_acquired (pre ++ post) = count_acquired pre + count_acquired post.
Proof.
  induction pre as [| x pre IH]; cbn [app count_acquired]; [reflexivity |].
  rewrite IH. lia.
Qed.

Context {World : Type}.
Variable NDEBUG : bool.
Variable P : platform World.
Variable C : calls World.

(** Whenever [acquire_next_image] returns: if it wrote an index, the wait
    for a free buffer had succeeded, the swapchain was valid, the index is
    that of the first image in FREE, that image alone changed, to ACQUIRED,
    and one more image is ACQUIRED; if it wrote none, the swapchain is as it
    was. *)
Theorem acquire_takes_the_first_free_image :
  forall (sc sc' : swapchain_base) (timeout semaphore fence : Z) (w w' : World)
         (res : VkResult) (written : option Z),
    acquire_next_image NDEBUG P C sc timeout semaphore fence w
    = Returns (res, sc', written, w') ->
    (forall k,
        written = Some k ->
        fst (wait_for_free_buffer P timeout w) = VK_SUCCESS
        /\ m_is_valid sc = true
        /\ exists pre img post,
             m_swapchain_images sc = pre ++ img :: post
             /\ status img = FREE
             /\ Forall (fun x => status x <> FREE) pre
             /\ k = Z.of_nat (length pre)
             /\ sc' = with_images sc (pre ++ set_status img ACQUIRED :: post)
             /\ count_acquired (m_swapchain_images sc')
                = count_acquired (m_swapchain_images sc) + 1)
    /\ (written = None -> sc' = sc).
Proof.
  intros sc sc' timeout semaphore fence w w' res written Hrun.
  unfold acquire_next_image in Hrun.
  destruct (wait_for_free_buffer P timeout w) as [retval w1] eqn:Hwait.
  destruct (is_success retval) eqn:Hok; cbn [negb] in Hrun;
    [| injection Hrun as <- <- <- <-; split; [discriminate | reflexivity]].
  destruct (m_is_valid sc) eqn:Hvalid; cbn [negb] in Hrun;
    [| injection Hrun as <- <- <- <-; split; [discriminate | reflexivity]].
  destruct (acquire_first_free (m_swapchain_images sc) 0) as [imgs found] eqn:Hscan.
  pose proof (acquire_first_free_spec _ _ _ _ Hscan) as Hspec.
  assert (Hout : written = found /\ sc' = with_images sc imgs).
  { destruct (c_assert NDEBUG (is_some found)) as [[] | |]; cbn [bind] in Hrun;
      try discriminate Hrun.
    destruct (negb (semaphore =? VK_NULL_HANDLE) || negb (fence =? VK_NULL_HANDLE)).
    - destruct (SubmitSignal C _ _ fence w1) as [r2 w2].
      destruct (c_assert NDEBUG (is_success r2)) as [[] | |]; cbn [bind] in Hrun;
        try discriminate Hrun.
      injection Hrun as _ <- <- _. split; reflexivity.
    - injection Hrun as _ <- <- _. split; reflexivity. }
  destruct Hout as [-> ->].
  split.
  - intros k ->.
    destruct Hspec as (pre & img & post & Hsplit & Hfree & Hpre & Hk & Hnew).
    split; [| split; [reflexivity |]].
    + cbn [fst]. destruct retval; try discriminate Hok. reflexivity.
    + exists pre, img, post. rewrite Hnew.
      repeat split; try assumption; try lia.
      cbn [with_images m_swapchain_images]. rewrite Hsplit, !count_acquired_app.
      cbn [count_acquired set_status status status_eqb]. rewrite Hfree.
      cbn [status_eqb]. lia.
  - intros ->. destruct Hspec as [-> _]. apply with_images_same.
Qed.

End AcquireFacts.

Section AcquireRuns.

Import Wsi.
Import Lifecycle.

(** On the example swapchain the image of index 3 is the first in FREE. *)
Lemma acquire_on_example_swapchain :
  acquire_next_image false all_succeed (quiet_calls VK_SUCCESS VK_SUCCESS)
    example_swapchain 0 0 0 []
  = Returns (VK_SUCCESS,
             with_images example_swapchain
               [ example_image 1 PRESENTED; example_image 2 PENDING;
                 example_image 3 ACQUIRED; example_image 4 ACQUIRED ],
             Some 3, [CallSemWait m_free_image_semaphore 0])
  /\ exists pre img post,
       m_swapchain_images example_swapchain = pre ++ img :: post
       /\ status img = FREE
       /\ Forall (fun x => status x <> FREE) pre
       /\ 3 = Z.of_nat (length pre).
Proof.
  split; [reflexivity |].
  destruct (proj1 (acquire_takes_the_first_free_image false all_succeed
                     (quiet_calls VK_SUCCESS VK_SUCCESS) example_swapchain _ 0 0 0 [] _ _ _
                     eq_refl) 3 eq_refl)
    as (_ & _ & pre & img & post & Hsplit & Hfree & Hpre & Hk & _).
  exists pre, img, post.
  split; [exact Hsplit | split; [exact Hfree | split; [exact Hpre | exact Hk]]].
Defined.

Lemma acquire_first_free_finds (imgs : list swapchain_image) :
  forall (n : nat) (img : swapchain_image) (i : Z),
    nth_error imgs n = Some img ->
    status img = FREE ->
    exists imgs' k,
      acquire_first_free imgs i = (imgs', Some k) /\ i <= k <= i + Z.of_nat n.
Proof.
  induction imgs as [| x rest IH]; intros n img i Hnth Hfree.
  - destruct n; discriminate Hnth.
  - cbn [acquire_first_free].
    destruct (status_eqb (status x) FREE) eqn:Hx.
    + eexists. exists i. split; [reflexivity | lia].
    + destruct n as [| n].
      * injection Hnth as ->. apply status_eqb_neq in Hx. contradiction.
      * cbn [nth_error] in Hnth.
        destruct (IH n img (i + 1) Hnth Hfree) as (rest' & k & Hscan & Hk).
        rewrite Hscan. eexists. exists k. split; [reflexivity | lia].
Qed.

(** [unpresent_image] on a swapchain without descendant sets the image to
    FREE, leaves every other image alone and posts the free-image semaphore;
    and an [acquire_next_image] on a valid swapchain whose wait succeeds
    then hands out an image, of an index no greater than the one released.
    Without semaphore and fence its result is SUCCESS; with one of them it
    is the result of the signalling submit, which a build without NDEBUG
    asserts to be SUCCESS. *)
Theorem unpresented_image_can_be_acquired :
  forall (World : Type) (NDEBUG : bool) (P : platform World) (C : calls World)
         (sc sc1 : swapchain_base) (presented_index timeout semaphore fence : Z)
         (w w1 : World),
    0 <= presented_index ->
    m_descendant sc = VK_NULL_HANDLE ->
    m_is_valid sc = true ->
    unpresent_image P sc presented_index w = Returns (sc1, w1) ->
    fst (wait_for_free_buffer P timeout w1) = VK_SUCCESS ->
    w1 = sem_post P m_free_image_semaphore w
    /\ (exists img,
           nth_error (m_swapchain_images sc) (Z.to_nat presented_index) = Some img
           /\ sc1 = with_images sc (update (m_swapchain_images sc)
                                           (Z.to_nat presented_index)
                                           (set_status img FREE)))
    /\ exists k sc2,
         0 <= k <= presented_index
         /\ (semaphore = VK_NULL_HANDLE ->
             fence = VK_NULL_HANDLE ->
             acquire_next_image NDEBUG P C sc1 timeout semaphore fence w1
             = Returns (VK_SUCCESS, sc2, Some k, snd (wait_for_free_buffer P timeout w1)))
         /\ (semaphore <> VK_NULL_HANDLE \/ fence <> VK_NULL_HANDLE ->
             acquire_next_image NDEBUG P C sc1 timeout semaphore fence w1
             = if NDEBUG
                  || is_success
                       (fst (signalling_submit C sc semaphore fence
                               (snd (wait_for_free_buffer P timeout w1))))
               then Returns (fst (signalling_submit C sc semaphore fence
                                    (snd (wait_for_free_buffer P timeout w1))),
                             sc2, Some k,
                             snd (signalling_submit C sc semaphore fence
                                    (snd (wait_for_free_buffer P timeout w1))))
               else AssertionFailed).
Proof.
  intros World NDEBUG P C sc sc1 presented_index timeout semaphore fence w w1
         Hidx Hdesc Hvalid Hrun Hwait.
  unfold unpresent_image in Hrun.
  unfold load in Hrun.
  destruct (nth_error (m_swapchain_images sc) (Z.to_nat presented_index))
    as [img |] eqn:Himg; [| discriminate Hrun].
  cbn [bind] in Hrun. rewrite Hdesc in Hrun. cbn [Z.eqb negb VK_NULL_HANDLE] in Hrun.
  assert (Hin : (Z.to_nat presented_index < length (m_swapchain_images sc))%nat).
  { apply nth_error_Some. rewrite Himg. discriminate. }
  rewrite store_in_range in Hrun by exact Hin. cbn [bind] in Hrun.
  injection Hrun as <- <-.
  split; [reflexivity |].
  split; [exists img; split; reflexivity |].
  assert (Hfree : nth_error (update (m_swapchain_images sc) (Z.to_nat presented_index)
                               (set_status img FREE)) (Z.to_nat presented_index)
                  = Some (set_status img FREE))
    by (apply update_same; exact Hin).
  destruct (acquire_first_free_finds _ _ _ 0 Hfree eq_refl) as (imgs' & k & Hscan & Hk).
  exists k. eexists.
  split; [lia |].
  unfold acquire_next_image, signalling_submit.
  destruct (wait_for_free_buffer P timeout (sem_post P m_free_image_semaphore w))
    as [retval w2] eqn:Hw.
  cbn [fst snd] in *. subst retval. cbn [is_success negb].
  cbn [with_images m_is_valid m_swapchain_images m_queue]. rewrite Hvalid. cbn [negb].
  rewrite Hscan. cbn [is_some]. rewrite assert_holds by reflexivity.
  cbn [bind]. split.
  - intros -> ->. cbn [Z.eqb VK_NULL_HANDLE negb orb]. reflexivity.
  - intros Hgiven.
    replace (negb (semaphore =? VK_NULL_HANDLE) || negb (fence =? VK_NULL_HANDLE))
      with true.
    + destruct (semaphore =? VK_NULL_HANDLE); cbn [negb];
        destruct (SubmitSignal C (m_queue sc) _ fence w2) as [r w3];
        cbn [fst snd]; unfold c_assert;
        destruct (NDEBUG || is_success r); reflexivity.
    + symmetry. apply orb_true_iff.
      destruct Hgiven as [Hs | Hf]; [left | right];
        apply negb_true_iff; apply Z.eqb_neq; assumption.
Qed.

(** The image of index 0 of the example swapchain, released and acquired
    again: without semaphore and fence; and with semaphore 77, in a build
    with NDEBUG, where the signalling submit loses the device. *)
Lemma presented_example_image_can_be_acquired :
  (exists k sc2,
      0 <= k <= 0
      /\ acquire_next_image false all_succeed (quiet_calls VK_SUCCESS VK_SUCCESS)
           (with_images example_swapchain
              (update (m_swapchain_images example_swapchain) 0
                      (example_image 1 FREE)))
           0 VK_NULL_HANDLE VK_NULL_HANDLE [CallSemPost m_free_image_semaphore]
         = Returns (VK_SUCCESS, sc2, Some k,
                    [CallSemPost m_free_image_semaphore;
                     CallSemWait m_free_image_semaphore 0]))
  /\ (exists k sc2,
         0 <= k <= 0
         /\ acquire_next_image true all_succeed
              (quiet_calls VK_ERROR_DEVICE_LOST VK_SUCCESS)
              (with_images example_swapchain
                 (update (m_swapchain_images example_swapchain) 0
                         (example_image 1 FREE)))
              0 77 VK_NULL_HANDLE [CallSemPost m_free_image_semaphore]
            = Returns (VK_ERROR_DEVICE_LOST, sc2, Some k,
                       [CallSemPost m_free_image_semaphore;
                        CallSemWait m_free_image_semaphore 0])).
Proof.
  split.
  - destruct (unpresented_image_can_be_acquired (list call) false all_succeed
                (quiet_calls VK_SUCCESS VK_SUCCESS) example_swapchain _ 0 0
                VK_NULL_HANDLE VK_NULL_HANDLE [] _
                ltac:(lia) eq_refl eq_refl eq_refl eq_refl)
      as (_ & _ & k & sc2 & Hk & Hrun & _).
    exists k, sc2. split; [exact Hk | exact (Hrun eq_refl eq_refl)].
  - destruct (unpresented_image_can_be_acquired (list call) true all_succeed
                (quiet_calls VK_ERROR_DEVICE_LOST VK_SUCCESS) example_swapchain _ 0 0
                77 VK_NULL_HANDLE [] _
                ltac:(lia) eq_refl eq_refl eq_refl eq_refl)
      as (_ & _ & k & sc2 & Hk & _ & Hrun).
    exists k, sc2. split; [exact Hk |].
    assert (Hgiven : 77 <> VK_NULL_HANDLE) by discriminate.
    exact (Hrun (or_introl Hgiven)).
Defined.

Lemma destroy_free_spec {World : Type} (P : platform World)
    (imgs : list swapchain_image) :
  forall (w w' : World) (imgs' : list swapchain_image),
    destroy_free P imgs w = (imgs', w') ->
    length imgs' = length imgs
    /\ (forall j img,
           nth_error imgs j = Some img -> status img <> FREE ->
           nth_error imgs' j = Some img)
    /\ (Forall (fun x => status x <> FREE) imgs -> imgs' = imgs /\ w' = w).
Proof.
  induction imgs as [| x rest IH]; intros w w' imgs' Hrun; cbn [destroy_free] in Hrun.
  - injection Hrun as <- <-. repeat split. intros [| j] img H; discriminate H.
  - destruct (if status_eqb (status x) FREE then destroy_image P x w else (x, w))
      as [x' w1] eqn:Hx.
    destruct (destroy_free P rest w1) as [rest' w2] eqn:Hrest.
    injection Hrun as <- <-.
    destruct (IH _ _ _ Hrest) as (Hlen & Hkeep & Hnone).
    split; [cbn [length]; lia | split].
    + intros [| j] img Hnth Hstatus; cbn [nth_error] in *.
      * injection Hnth as ->. apply status_eqb_neq in Hstatus.
        rewrite Hstatus in Hx. injection Hx as <- _. reflexivity.
      * apply Hkeep; assumption.
    + intros Hall. inversion Hall as [| ? ? Hhead Htail]; subst.
      apply status_eqb_neq in Hhead. rewrite Hhead in Hx. injection Hx as <- <-.
      destruct (Hnone Htail) as [-> ->]. split; reflexivity.
Qed.

(** [deprecate] records the descendant and keeps the number of images; an
    image that is not FREE is left as it is, and without any image in FREE
    the presenter is not called at all. *)
Theorem deprecate_touches_free_images_only :
  forall (World : Type) (P : platform World) (sc sc' : swapchain_base)
         (descendant : Z) (w w' : World),
    deprecate P sc descendant w = (sc', w') ->
    m_descendant sc' = descendant
    /\ m_num_swapchain_images sc' = m_num_swapchain_images sc
    /\ m_pending_buffer_pool sc' = m_pending_buffer_pool sc
    /\ (forall j img,
           nth_error (m_swapchain_images sc) j = Some img ->
           status img <> FREE ->
           nth_error (m_swapchain_images sc') j = Some img)
    /\ (Forall (fun x => status x <> FREE) (m_swapchain_images sc) ->
        sc' = with_descendant sc descendant /\ w' = w).
Proof.
  intros World P sc sc' descendant w w' Hrun.
  unfold deprecate in Hrun.
  destruct (destroy_free P (m_swapchain_images sc) w) as [imgs w1] eqn:Hdestroy.
  injection Hrun as <- <-.
  destruct (destroy_free_spec P _ _ _ _ Hdestroy) as (Hlen & Hkeep & Hnone).
  split; [reflexivity |].
  split; [unfold m_num_swapchain_images; cbn [with_descendant with_images m_swapchain_images];
          rewrite Hlen; reflexivity |].
  split; [reflexivity |].
  split; [exact Hkeep |].
  intros Hall. destruct (Hnone Hall) as [-> ->].
  rewrite with_images_same. split; reflexivity.
Qed.

Lemma deprecate_example_swapchain :
  deprecate all_succeed example_swapchain 500 []
  = (with_descendant
       (with_images example_swapchain
          [ example_image 1 PRESENTED; example_image 2 PENDING;
            example_image 3 ACQUIRED; example_image 4 INVALID ]) 500,
     [CallDestroyImage])
  /\ nth_error (m_swapchain_images
                  (fst (deprecate all_succeed example_swapchain 500 []))) 2
     = Some (example_image 3 ACQUIRED).
Proof.
  split; [reflexivity |].
  apply (deprecate_touches_free_images_only (list call) all_succeed example_swapchain
           _ 500 [] _ eq_refl); [reflexivity | discriminate].
Defined.

(** [wait_for_free_buffer] reports SUCCESS only when a wait on the
    free-image semaphore has just returned SUCCESS.  When the first poll
    says anything but NOT_READY (be it SUCCESS, TIMEOUT or an error), that
    poll is the whole call: its answer and its world are returned and no
    other call is made.  When the poll says NOT_READY and the presenter
    does not succeed, the presenter's answer is returned and the semaphore
    is not waited for again. *)
Theorem free_buffer_success_is_a_semaphore_success :
  forall (World : Type) (P : platform World) (timeout : Z) (w : World),
    (forall w',
        wait_for_free_buffer P timeout w = (VK_SUCCESS, w') ->
        exists t w0, sem_wait P m_free_image_semaphore t w0 = (VK_SUCCESS, w'))
    /\ (fst (sem_wait P m_free_image_semaphore 0 w) <> VK_NOT_READY ->
        wait_for_free_buffer P timeout w = sem_wait P m_free_image_semaphore 0 w
        /\ snd (snd (wait_for_free_buffer (logged P) timeout (w, [])))
           = [CallSemWait m_free_image_semaphore 0])
    /\ (fst (sem_wait P m_free_image_semaphore 0 w) = VK_NOT_READY ->
        fst (fst (get_free_buffer P timeout (snd (sem_wait P m_free_image_semaphore 0 w))))
        <> VK_SUCCESS ->
        wait_for_free_buffer P timeout w
        = (fst (fst (get_free_buffer P timeout
                       (snd (sem_wait P m_free_image_semaphore 0 w)))),
           snd (get_free_buffer P timeout (snd (sem_wait P m_free_image_semaphore 0 w))))
        /\ snd (snd (wait_for_free_buffer (logged P) timeout (w, [])))
           = [CallSemWait m_free_image_semaphore 0; CallGetFreeBuffer timeout]).
Proof.
  intros World P timeout w.
  unfold wait_for_free_buffer. cbn [logged sem_wait fst snd].
  destruct (sem_wait P m_free_image_semaphore 0 w) as [r1 w1] eqn:Hpoll.
  cbn [fst snd].
  destruct (is_not_ready r1) eqn:Hnr.
  - cbn [logged get_free_buffer fst snd].
    destruct (get_free_buffer P timeout w1) as [[r2 t2] w2]. cbn [fst snd].
    destruct (is_success r2) eqn:Hsecond.
    + split; [intros w' Hrun; exists t2, w2; exact Hrun |].
      split.
      * intros Hne. destruct r1; try discriminate Hnr. contradiction.
      * intros _ Hfail. destruct r2; try discriminate Hsecond. contradiction.
    + split; [intros w' Hrun; injection Hrun as -> _; discriminate Hsecond |].
      split.
      * intros Hne. destruct r1; try discriminate Hnr. contradiction.
      * intros _ _. split; reflexivity.
  - split; [intros w' Hrun; injection Hrun as -> ->; exists 0, w; exact Hpoll |].
    split.
    + intros _. split; reflexivity.
    + intros ->. discriminate Hnr.
Qed.

(** Three runs with timeout 7: the poll says NOT_READY and the second wait
    succeeds; the poll says TIMEOUT; the poll says NOT_READY and the
    presenter says TIMEOUT. *)
Lemma free_buffer_on_noting_platform :
  (wait_for_free_buffer (noting_platform VK_SUCCESS VK_SUCCESS VK_NOT_READY) 7 []
   = (VK_SUCCESS, [CallSemWait m_free_image_semaphore 0; CallGetFreeBuffer 7;
                   CallSemWait m_free_image_semaphore 7])
   /\ exists t w0,
        sem_wait (noting_platform VK_SUCCESS VK_SUCCESS VK_NOT_READY)
          m_free_image_semaphore t w0
        = (VK_SUCCESS, [CallSemWait m_free_image_semaphore 0; CallGetFreeBuffer 7;
                        CallSemWait m_free_image_semaphore 7]))
  /\ (wait_for_free_buffer (noting_platform VK_SUCCESS VK_SUCCESS VK_TIMEOUT) 7 []
      = (VK_TIMEOUT, [CallSemWait m_free_image_semaphore 0])
      /\ snd (snd (wait_for_free_buffer
                     (logged (noting_platform VK_SUCCESS VK_SUCCESS VK_TIMEOUT)) 7 ([], [])))
         = [CallSemWait m_free_image_semaphore 0])
  /\ (wait_for_free_buffer without_free_buffer 7 []
      = (VK_TIMEOUT, [CallSemWait m_free_image_semaphore 0; CallGetFreeBuffer 7])
      /\ snd (snd (wait_for_free_buffer (logged without_free_buffer) 7 ([], [])))
         = [CallSemWait m_free_image_semaphore 0; CallGetFreeBuffer 7]).
Proof.
  split; [split; [reflexivity |] | split].
  - exact (proj1 (free_buffer_success_is_a_semaphore_success (list call)
                    (noting_platform VK_SUCCESS VK_SUCCESS VK_NOT_READY) 7 []) _ eq_refl).
  - exact (proj1 (proj2 (free_buffer_success_is_a_semaphore_success (list call)
                           (noting_platform VK_SUCCESS VK_SUCCESS VK_TIMEOUT) 7 []))
             ltac:(discriminate)).
  - exact (proj2 (proj2 (free_buffer_success_is_a_semaphore_success (list call)
                           without_free_buffer 7 []))
             eq_refl ltac:(discriminate)).
Defined.

(** The two-call idiom of [get_swapchain_images]: the count given by a call
    without array, used as the count of a call with an array of that many
    cells, yields SUCCESS and the handles of all images in order. *)
Theorem image_handles_in_two_calls :
  forall (NDEBUG : bool) (sc : swapchain_base) (any n : Z) (out : list Z),
    get_swapchain_images NDEBUG sc any None = Returns (VK_SUCCESS, n, None) ->
    0 < n ->
    Z.of_nat (length out) = n ->
    get_swapchain_images NDEBUG sc n (Some out)
    = Returns (VK_SUCCESS, n, Some (map image (m_swapchain_images sc))).
Proof.
  intros NDEBUG sc any n out Hfirst Hn Hout.
  cbn [get_swapchain_images] in Hfirst. injection Hfirst as <-.
  unfold get_swapchain_images.
  rewrite !assert_holds by (apply Z.gtb_lt; exact Hn). cbn [bind].
  pose proof (copy_images_runs (m_swapchain_images sc) [] out 0
                (m_num_swapchain_images sc) (m_num_swapchain_images sc)) as Hcopy.
  cbn [app length] in Hcopy. rewrite Hcopy; clear Hcopy.
  - rewrite Z.leb_refl, Z.min_id, Z.sub_0_r.
    unfold m_num_swapchain_images in *. rewrite Nat2Z.id.
    rewrite firstn_all.
    replace (length (m_swapchain_images sc)) with (length out) by lia.
    rewrite skipn_all, app_nil_r. reflexivity.
  - reflexivity.
  - reflexivity.
  - unfold m_num_swapchain_images in Hn.
    destruct (m_swapchain_images sc); [cbn in Hn; lia | discriminate].
  - exact Hn.
  - lia.
Qed.

Lemma example_image_handles_in_two_calls :
  get_swapchain_images false example_swapchain 0 None = Returns (VK_SUCCESS, 4, None)
  /\ get_swapchain_images false example_swapchain 4 (Some [0; 0; 0; 0])
     = Returns (VK_SUCCESS, 4, Some [1; 2; 3; 4]).
Proof.
  split; [reflexivity |].
  apply (image_handles_in_two_calls false example_swapchain 0 4 [0; 0; 0; 0]);
    [reflexivity | lia | reflexivity].
Defined.

End AcquireRuns.

(** ** From [queue_present] to the page-flip thread *)

Section PresentFacts.

Import Wsi.
Import Lifecycle.

Context {World : Type}.
Variable NDEBUG : bool.
Variable P : platform World.
Variable C : calls World.

(** [queue_present] once both device calls have succeeded. *)
Lemma queue_present_after_submit (h : objects) (sc : swapchain_base) (queue : Z)
    (present_info : VkPresentInfoKHR) (image_index : Z) (img : swapchain_image)
    (w w1 w2 : World) :
  0 <= image_index ->
  nth_error (m_swapchain_images sc) (Z.to_nat image_index) = Some img ->
  status img = ACQUIRED ->
  (m_descendant sc <> VK_NULL_HANDLE -> h (m_descendant sc) <> None) ->
  pool_ok (m_pending_buffer_pool sc) ->
  ResetFences P (m_device sc) (present_fence img) w = (VK_SUCCESS, w1) ->
  QueueSubmit P queue (pWaitSemaphores present_info) (present_fence img) w1
  = (VK_SUCCESS, w2) ->
  queue_present NDEBUG P h sc queue present_info image_index w
  = Returns (if descendant_took_over h sc then VK_ERROR_OUT_OF_DATE_KHR else VK_SUCCESS,
             presented sc image_index img
               (if descendant_took_over h sc then FREE else PENDING),
             sem_post P m_page_flip_semaphore w2).
Proof.
  intros Hidx Himg Hstatus Hdesc (Hsize & Htail & Hsmall) Hreset Hsubmit.
  assert (Hin : (Z.to_nat image_index < length (m_swapchain_images sc))%nat).
  { apply nth_error_Some. rewrite Himg. discriminate. }
  assert (Hstarted : (if negb (m_descendant sc =? VK_NULL_HANDLE)
                      then match h (m_descendant sc) with
                           | Some desc => Returns (started_presenting desc)
                           | None => Undefined
                           end
                      else Returns false)
                     = Returns (descendant_took_over h sc)).
  { unfold descendant_took_over.
    destruct (Z.eqb_spec (m_descendant sc) VK_NULL_HANDLE) as [Hnull | Hset];
      cbn [negb andb]; [reflexivity |].
    destruct (h (m_descendant sc)) eqn:Hobj; [reflexivity |].
    exfalso. apply (Hdesc Hset). reflexivity. }
  unfold queue_present. rewrite Hstarted. cbn [bind].
  rewrite (load_nth_error _ _ _ Himg). cbn [bind].
  rewrite Hstatus, assert_holds by reflexivity. cbn [bind].
  rewrite Hreset. cbn [is_success negb]. rewrite Hsubmit. cbn [is_success negb].
  rewrite !store_in_range by exact Hin.
  unfold enqueue. rewrite store_in_range by lia. cbn [bind].
  replace (size (m_pending_buffer_pool sc) =? 0) with false
    by (symmetry; apply Z.eqb_neq; lia).
  rewrite to_uint32_small by lia.
  destruct (descendant_took_over h sc); reflexivity.
Qed.

Lemma holds_pool_ok (pool : ring_buffer) (xs : list Z) :
  holds pool xs -> pool_ok pool.
Proof.
  intros (Hsize & Hsmall & Hhead & Hlen & Htail & _).
  unfold pool_ok. repeat split; try lia.
  - rewrite Htail. apply Z.mod_pos_bound. lia.
  - rewrite Htail. apply Z.mod_pos_bound. lia.
Qed.

(** A present that reaches the ring queues its image behind the presents
    still pending, for the page-flip thread to take in that order; this
    whether the image was marked PENDING, with result SUCCESS, or, the
    descendant having taken over, FREE, with result OUT_OF_DATE_KHR.  No
    other image changes. *)
Theorem present_queues_behind_pending_presents :
  forall (h : objects) (sc : swapchain_base) (queue : Z)
         (present_info : VkPresentInfoKHR) (image_index : Z) (img : swapchain_image)
         (xs : list Z) (w w1 w2 : World),
    0 <= image_index ->
    nth_error (m_swapchain_images sc) (Z.to_nat image_index) = Some img ->
    status img = ACQUIRED ->
    (m_descendant sc <> VK_NULL_HANDLE -> h (m_descendant sc) <> None) ->
    holds (m_pending_buffer_pool sc) xs ->
    Z.of_nat (length xs) < size (m_pending_buffer_pool sc) ->
    ResetFences P (m_device sc) (present_fence img) w = (VK_SUCCESS, w1) ->
    QueueSubmit P queue (pWaitSemaphores present_info) (present_fence img) w1
    = (VK_SUCCESS, w2) ->
    exists res sc',
      queue_present NDEBUG P h sc queue present_info image_index w
      = Returns (res, sc', sem_post P m_page_flip_semaphore w2)
      /\ holds (m_pending_buffer_pool sc') (xs ++ [image_index])
      /\ (forall j, j <> Z.to_nat image_index ->
            nth_error (m_swapchain_images sc') j = nth_error (m_swapchain_images sc) j)
      /\ nth_error (m_swapchain_images sc') (Z.to_nat image_index)
         = Some (set_status img (if descendant_took_over h sc then FREE else PENDING))
      /\ res = (if descendant_took_over h sc
                then VK_ERROR_OUT_OF_DATE_KHR else VK_SUCCESS).
Proof.
  intros h sc queue present_info image_index img xs w w1 w2
         Hidx Himg Hstatus Hdesc Hholds Hroom Hreset Hsubmit.
  eexists. eexists. split; [| split; [| split; [| split]]].
  - apply (queue_present_after_submit h sc queue present_info image_index img w w1 w2);
      try assumption.
    apply (holds_pool_ok _ xs). exact Hholds.
  - unfold presented. cbn [with_pool m_pending_buffer_pool].
    apply enqueue_keeps_order; assumption.
  - intros j Hj. unfold presented.
    cbn [with_pool with_images m_swapchain_images].
    apply update_other. congruence.
  - unfold presented. cbn [with_pool with_images m_swapchain_images].
    apply update_same. apply nth_error_Some. rewrite Himg. discriminate.
  - reflexivity.
Qed.

(** A pass of the page-flip thread over a ring that holds at least one
    index, with the run flag set, a page-flip semaphore that is up and a
    fence wait that succeeds on an image that is not FREE, after the first
    present: the presenter is given the index queued the longest ago, and
    the ring holds the others. *)
Theorem worker_presents_the_oldest_index :
  forall (PA : platform World) (self : Z) (h : objects) (sc : swapchain_base)
         (x : Z) (xs : list Z) (img : swapchain_image) (w w1 w2 : World),
    holds (m_pending_buffer_pool sc) (x :: xs) ->
    m_page_flip_thread_run sc = true ->
    m_first_present sc = false ->
    sem_wait P m_page_flip_semaphore 0 w = (VK_SUCCESS, w1) ->
    nth_error (m_swapchain_images sc) (Z.to_nat x) = Some img ->
    status img <> FREE ->
    WaitForFences C (m_device sc) (present_fence img) UINT64_MAX w1 = (VK_SUCCESS, w2) ->
    exists pool',
      holds pool' xs
      /\ page_flip_pass NDEBUG P C PA self h sc w
         = Returns (LoopAgain,
                    fst (present_image C (with_pool sc pool') x w2),
                    snd (present_image C (with_pool sc pool') x w2)).
Proof.
  intros PA self h sc x xs img w w1 w2 Hholds Hrun Hfirst Hpoll Himg Hstatus Hfence.
  destruct (dequeue_takes_oldest _ x xs Hholds) as [Hdeq Hrest].
  eexists. split; [exact Hrest |].
  unfold page_flip_pass. rewrite Hrun. cbn [negb].
  rewrite Hpoll. cbn [is_not_ready is_success].
  rewrite assert_holds by reflexivity. cbn [bind].
  rewrite Hdeq. cbn [bind].
  cbn [with_pool m_swapchain_images m_device m_first_present].
  rewrite (load_nth_error _ _ _ Himg). cbn [bind].
  rewrite Hfence. cbn [is_success negb].
  apply status_eqb_neq in Hstatus. rewrite Hstatus, Hfirst.
  destruct (present_image C _ x w2) as [sc2 w3]. reflexivity.
Qed.

(** When the fence wait of a pass fails, the swapchain is marked invalid
    and the free-image semaphore is posted; every later
    [acquire_next_image] whose wait succeeds then returns
    OUT_OF_HOST_MEMORY, writes no index and changes no image. *)
Theorem fence_failure_is_seen_by_the_next_acquire :
  forall (PA : platform World) (self : Z) (h : objects) (sc : swapchain_base)
         (x : Z) (xs : list Z) (img : swapchain_image) (w w1 w2 : World)
         (failure : VkResult),
    holds (m_pending_buffer_pool sc) (x :: xs) ->
    m_page_flip_thread_run sc = true ->
    sem_wait P m_page_flip_semaphore 0 w = (VK_SUCCESS, w1) ->
    nth_error (m_swapchain_images sc) (Z.to_nat x) = Some img ->
    WaitForFences C (m_device sc) (present_fence img) UINT64_MAX w1 = (failure, w2) ->
    failure <> VK_SUCCESS ->
    exists sc',
      page_flip_pass NDEBUG P C PA self h sc w
      = Returns (LoopAgain, sc', sem_post P m_free_image_semaphore w2)
      /\ m_is_valid sc' = false
      /\ m_swapchain_images sc' = m_swapchain_images sc
      /\ forall (timeout semaphore fence : Z) (w3 : World),
           fst (wait_for_free_buffer P timeout w3) = VK_SUCCESS ->
           acquire_next_image NDEBUG P C sc' timeout semaphore fence w3
           = Returns (VK_ERROR_OUT_OF_HOST_MEMORY, sc', None,
                      snd (wait_for_free_buffer P timeout w3)).
Proof.
  intros PA self h sc x xs img w w1 w2 failure
         Hholds Hrun Hpoll Himg Hfence Hfail.
  destruct (dequeue_takes_oldest _ x xs Hholds) as [Hdeq _].
  eexists. split; [| split; [| split]].
  - unfold page_flip_pass. rewrite Hrun. cbn [negb].
    rewrite Hpoll. cbn [is_not_ready is_success].
    rewrite assert_holds by reflexivity. cbn [bind].
    rewrite Hdeq. cbn [bind].
    cbn [with_pool m_swapchain_images m_device].
    rewrite (load_nth_error _ _ _ Himg). cbn [bind].
    rewrite Hfence.
    replace (is_success failure) with false
      by (destruct failure; try reflexivity; contradiction Hfail; reflexivity).
    reflexivity.
  - reflexivity.
  - reflexivity.
  - intros timeout semaphore fence w3 Hwait.
    unfold acquire_next_image.
    destruct (wait_for_free_buffer P timeout w3) as [retval w4].
    cbn [fst snd] in *. subst retval. reflexivity.
Qed.

(** The hand-over to a descendant, end to end: a present on a swapchain
    whose descendant has started presenting returns OUT_OF_DATE_KHR, and
    the next pass of the page-flip thread takes that image from the ring,
    has the presenter destroy it and posts the free-image semaphore; the
    image is not presented and the ring is empty again. *)
Theorem out_of_date_present_is_released_by_the_worker :
  forall (PA : platform World) (self : Z) (h : objects) (sc : swapchain_base)
         (queue : Z) (present_info : VkPresentInfoKHR) (image_index : Z)
         (img img' : swapchain_image) (w w1 w2 w3 w4 w5 : World),
    0 <= image_index ->
    nth_error (m_swapchain_images sc) (Z.to_nat image_index) = Some img ->
    status img = ACQUIRED ->
    descendant_took_over h sc = true ->
    holds (m_pending_buffer_pool sc) [] ->
    m_page_flip_thread_run sc = true ->
    ResetFences P (m_device sc) (present_fence img) w = (VK_SUCCESS, w1) ->
    QueueSubmit P queue (pWaitSemaphores present_info) (present_fence img) w1
    = (VK_SUCCESS, w2) ->
    sem_wait P m_page_flip_semaphore 0 (sem_post P m_page_flip_semaphore w2)
    = (VK_SUCCESS, w3) ->
    WaitForFences C (m_device sc) (present_fence img) UINT64_MAX w3 = (VK_SUCCESS, w4) ->
    destroy_image P (set_status img FREE) w4 = (img', w5) ->
    exists sc1 sc2,
      queue_present NDEBUG P h sc queue present_info image_index w
      = Returns (VK_ERROR_OUT_OF_DATE_KHR, sc1, sem_post P m_page_flip_semaphore w2)
      /\ page_flip_pass NDEBUG P C PA self h sc1 (sem_post P m_page_flip_semaphore w2)
         = Returns (LoopAgain, sc2, sem_post P m_free_image_semaphore w5)
      /\ m_swapchain_images sc2
         = update (m_swapchain_images sc) (Z.to_nat image_index) img'
      /\ holds (m_pending_buffer_pool sc2) [].
Proof.
  intros PA self h sc queue present_info image_index img img' w w1 w2 w3 w4 w5
         Hidx Himg Hstatus Htook Hholds Hrun Hreset Hsubmit Hpoll Hfence Hdestroy.
  assert (Hin : (Z.to_nat image_index < length (m_swapchain_images sc))%nat).
  { apply nth_error_Some. rewrite Himg. discriminate. }
  assert (Hdesc : m_descendant sc <> VK_NULL_HANDLE -> h (m_descendant sc) <> None).
  { intros _ Hnone. unfold descendant_took_over in Htook. rewrite Hnone in Htook.
    rewrite andb_false_r in Htook. discriminate Htook. }
  assert (Hroom : Z.of_nat (length (@nil Z)) < size (m_pending_buffer_pool sc)).
  { destruct Hholds as (_ & _ & Hhead & _). cbn [length]. lia. }
  destruct (enqueue_keeps_order _ [] image_index Hholds Hroom) as [_ Hqueued].
  cbn [app] in Hqueued.
  destruct (dequeue_takes_oldest _ image_index [] Hqueued) as [Hdeq Hempty].
  pose proof (queue_present_after_submit h sc queue present_info image_index img w w1 w2
                Hidx Himg Hstatus Hdesc (holds_pool_ok _ _ Hholds) Hreset Hsubmit) as Hpresent.
  rewrite Htook in Hpresent.
  eexists. eexists. split; [exact Hpresent |].
  split; [| split].
  - unfold page_flip_pass, presented.
    cbn [with_pool with_images m_page_flip_thread_run m_pending_buffer_pool].
    rewrite Hrun. cbn [negb].
    rewrite Hpoll. cbn [is_not_ready is_success].
    rewrite assert_holds by reflexivity. cbn [bind].
    rewrite Hdeq. cbn [bind].
    cbn [with_pool with_images m_swapchain_images m_device].
    rewrite (load_nth_error _ _ (set_status img FREE))
      by (apply update_same; exact Hin).
    cbn [bind].
    change (present_fence (set_status img FREE)) with (present_fence img).
    rewrite Hfence. cbn [is_success negb].
    change (status (set_status img FREE)) with FREE. cbn [status_eqb].
    rewrite Hdestroy.
    rewrite store_in_range by (rewrite update_length; exact Hin).
    cbn [bind]. reflexivity.
  - cbn [with_images m_swapchain_images].
    clear. generalize (m_swapchain_images sc) (Z.to_nat image_index).
    intros l. induction l as [| y rest IH]; intros [| n]; cbn [update]; try reflexivity.
    rewrite IH. reflexivity.
  - cbn [with_images with_pool m_pending_buffer_pool]. exact Hempty.
Qed.

End PresentFacts.

Section PresentRuns.

Import Wsi.
Import Lifecycle.

Lemma example_ring_holds_one : holds (m_pending_buffer_pool example_swapchain) [1].
Proof.
  unfold holds. cbn. repeat split; try lia.
  intros [| j] Hj; [reflexivity | lia].
Qed.

(** A present of image 2 on the busy example, where the presents of 3 and 1
    are pending: without descendant, and with the example swapchain, which
    has started presenting, as descendant at address 500. *)
Lemma presents_on_busy_swapchain :
  (exists res sc',
      queue_present false all_succeed no_objects busy_swapchain 11
        {| pWaitSemaphores := [] |} 2 []
      = Returns (res, sc',
                 [CallResetFences 103; CallQueueSubmit 11 103;
                  CallSemPost m_page_flip_semaphore])
      /\ holds (m_pending_buffer_pool sc') [3; 1; 2]
      /\ nth_error (m_swapchain_images sc') 2 = Some (example_image 3 PENDING)
      /\ res = VK_SUCCESS)
  /\ (exists res sc',
         queue_present false all_succeed (put no_objects 500 example_swapchain)
           (with_descendant busy_swapchain 500) 11 {| pWaitSemaphores := [] |} 2 []
         = Returns (res, sc',
                    [CallResetFences 103; CallQueueSubmit 11 103;
                     CallSemPost m_page_flip_semaphore])
         /\ holds (m_pending_buffer_pool sc') [3; 1; 2]
         /\ nth_error (m_swapchain_images sc') 2 = Some (example_image 3 FREE)
         /\ res = VK_ERROR_OUT_OF_DATE_KHR).
Proof.
  split.
  - destruct (present_queues_behind_pending_presents (World := list call) false
                all_succeed no_objects busy_swapchain 11 {| pWaitSemaphores := [] |} 2
                (example_image 3 ACQUIRED) [3; 1] [] [CallResetFences 103]
                [CallResetFences 103; CallQueueSubmit 11 103]
                ltac:(lia) eq_refl eq_refl
                ltac:(intros Hset; contradiction Hset; reflexivity)
                busy_ring_holds_two ltac:(cbn; lia) eq_refl eq_refl)
      as (res & sc' & Hrun & Hholds & _ & Himg & Hres).
    exists res, sc'.
    split; [exact Hrun | split; [exact Hholds | split; [exact Himg | exact Hres]]].
  - destruct (present_queues_behind_pending_presents (World := list call) false
                all_succeed (put no_objects 500 example_swapchain)
                (with_descendant busy_swapchain 500) 11 {| pWaitSemaphores := [] |} 2
                (example_image 3 ACQUIRED) [3; 1] [] [CallResetFences 103]
                [CallResetFences 103; CallQueueSubmit 11 103]
                ltac:(lia) eq_refl eq_refl
                ltac:(intros _; discriminate)
                busy_ring_holds_two ltac:(cbn; lia) eq_refl eq_refl)
      as (res & sc' & Hrun & Hholds & _ & Himg & Hres).
    exists res, sc'.
    split; [exact Hrun | split; [exact Hholds | split; [exact Himg | exact Hres]]].
Defined.

(** A pass over the busy example, whose ring holds 3 and then 1: image 3,
    queued the longest ago, is presented, and 1 stays queued. *)
Lemma worker_presents_index_three :
  exists pool',
    holds pool' [1]
    /\ page_flip_pass false all_succeed (quiet_calls VK_SUCCESS VK_SUCCESS) all_succeed
         1000 no_objects busy_swapchain []
       = Returns (LoopAgain,
                  with_images (with_pool busy_swapchain pool')
                    [ example_image 1 PRESENTED; example_image 2 PENDING;
                      example_image 3 ACQUIRED; example_image 4 PRESENTED ],
                  [CallSemWait m_page_flip_semaphore 0]).
Proof.
  apply (worker_presents_the_oldest_index (World := list call) false all_succeed
           (quiet_calls VK_SUCCESS VK_SUCCESS) all_succeed 1000 no_objects
           busy_swapchain 3 [1] (example_image 4 PENDING)
           [] [CallSemWait m_page_flip_semaphore 0] [CallSemWait m_page_flip_semaphore 0]);
    try reflexivity.
  - apply busy_ring_holds_two.
  - discriminate.
Defined.

Lemma lost_device_is_seen_by_the_next_acquire :
  exists sc',
    page_flip_pass false all_succeed (quiet_calls VK_SUCCESS VK_ERROR_DEVICE_LOST)
      all_succeed 1000 no_objects example_swapchain []
    = Returns (LoopAgain, sc',
               [CallSemWait m_page_flip_semaphore 0; CallSemPost m_free_image_semaphore])
    /\ m_is_valid sc' = false
    /\ acquire_next_image false all_succeed (quiet_calls VK_SUCCESS VK_ERROR_DEVICE_LOST)
         sc' 0 0 0 []
       = Returns (VK_ERROR_OUT_OF_HOST_MEMORY, sc', None,
                  [CallSemWait m_free_image_semaphore 0]).
Proof.
  destruct (fence_failure_is_seen_by_the_next_acquire (World := list call) false
              all_succeed (quiet_calls VK_SUCCESS VK_ERROR_DEVICE_LOST) all_succeed
              1000 no_objects example_swapchain 1 [] (example_image 2 PENDING)
              [] [CallSemWait m_page_flip_semaphore 0]
              [CallSemWait m_page_flip_semaphore 0] VK_ERROR_DEVICE_LOST
              example_ring_holds_one eq_refl eq_refl eq_refl eq_refl
              ltac:(discriminate))
    as (sc' & Hpass & Hinvalid & _ & Hacquire).
  exists sc'. split; [exact Hpass | split; [exact Hinvalid |]].
  exact (Hacquire 0 0 0 [] eq_refl).
Defined.

Lemma idle_ring_with_descendant_holds_nothing :
  holds (m_pending_buffer_pool (with_descendant idle_swapchain 500)) [].
Proof. exact idle_ring_holds_nothing. Qed.

Lemma out_of_date_present_on_idle_swapchain :
  exists sc1 sc2,
    queue_present false all_succeed (put no_objects 500 example_swapchain)
      (with_descendant idle_swapchain 500) 11 {| pWaitSemaphores := [] |} 2 []
    = Returns (VK_ERROR_OUT_OF_DATE_KHR, sc1,
               [CallResetFences 103; CallQueueSubmit 11 103;
                CallSemPost m_page_flip_semaphore])
    /\ page_flip_pass false all_succeed (quiet_calls VK_SUCCESS VK_SUCCESS) all_succeed
         1000 (put no_objects 500 example_swapchain) sc1
         [CallResetFences 103; CallQueueSubmit 11 103; CallSemPost m_page_flip_semaphore]
       = Returns (LoopAgain, sc2,
                  [CallResetFences 103; CallQueueSubmit 11 103;
                   CallSemPost m_page_flip_semaphore;
                   CallSemWait m_page_flip_semaphore 0;
                   CallDestroyImage; CallSemPost m_free_image_semaphore])
    /\ m_swapchain_images sc2
       = [ example_image 1 PRESENTED; example_image 2 PENDING;
           example_image 3 INVALID; example_image 4 FREE ]
    /\ holds (m_pending_buffer_pool sc2) [].
Proof.
  exact (out_of_date_present_is_released_by_the_worker (World := list call) false
           all_succeed (quiet_calls VK_SUCCESS VK_SUCCESS) all_succeed 1000
           (put no_objects 500 example_swapchain) (with_descendant idle_swapchain 500)
           11 {| pWaitSemaphores := [] |} 2
           (example_image 3 ACQUIRED) (example_image 3 INVALID)
           [] [CallResetFences 103] [CallResetFences 103; CallQueueSubmit 11 103]
           [CallResetFences 103; CallQueueSubmit 11 103;
            CallSemPost m_page_flip_semaphore; CallSemWait m_page_flip_semaphore 0]
           [CallResetFences 103; CallQueueSubmit 11 103;
            CallSemPost m_page_flip_semaphore; CallSemWait m_page_flip_semaphore 0]
           [CallResetFences 103; CallQueueSubmit 11 103;
            CallSemPost m_page_flip_semaphore; CallSemWait m_page_flip_semaphore 0;
            CallDestroyImage]
           ltac:(lia) eq_refl eq_refl eq_refl
           idle_ring_with_descendant_holds_nothing eq_refl
           eq_refl eq_refl eq_refl eq_refl eq_refl).
Defined.

End PresentRuns.

(** ** Initialisation *)

Section InitFacts.

Import Wsi.
Import Lifecycle.

Context {World : Type}.
Variable NDEBUG : bool.
Variable P : platform World.



(** A present mode other than FIFO and FIFO_RELAXED ends [init] with
    INITIALIZATION_FAILED before anything outside is called: the world and
    the other swapchains are as they were, and the swapchain has no image. *)
Theorem init_rejects_other_present_modes :
  forall (junk : indeterminate) (self : Z) (h : objects) (sc : swapchain_base)
         (device : Z) (info : VkSwapchainCreateInfoKHR) (w : World),
    device <> VK_NULL_HANDLE ->
    surface info <> VK_NULL_HANDLE ->
    presentMode info <> VK_PRESENT_MODE_FIFO_KHR ->
    presentMode info <> VK_PRESENT_MODE_FIFO_RELAXED_KHR ->
    init NDEBUG P junk self h sc device info w
    = Returns (VK_ERROR_INITIALIZATION_FAILED, with_device sc device (surface info), h, w).
Proof.
  intros junk self h sc device info w Hdevice Hsurface Hfifo Hrelaxed.
  unfold init.
  rewrite !assert_holds by (apply negb_true_iff; apply Z.eqb_neq; assumption).
  cbn [bind].
  replace (existsb (present_mode_eqb (presentMode info)) present_modes) with false.
  - reflexivity.
  - unfold present_modes. cbn [existsb].
    destruct (presentMode info); try reflexivity; [contradiction Hfifo | contradiction Hrelaxed];
      reflexivity.
Qed.



End InitFacts.

Section InitRuns.

Import Wsi.
Import Lifecycle.

Lemma init_with_mailbox_mode :
  init false all_succeed (junk 0) 1000 no_objects (constructed false) 31
    {| surface := 21; minImageCount := 3;
       presentMode := VK_PRESENT_MODE_MAILBOX_KHR; oldSwapchain := VK_NULL_HANDLE |} []
  = Returns (VK_ERROR_INITIALIZATION_FAILED, with_device (constructed false) 31 21,
             no_objects, []).
Proof.
  apply (init_rejects_other_present_modes (World := list call) false all_succeed
           (junk 0) 1000 no_objects (constructed false) 31
           {| surface := 21; minImageCount := 3;
              presentMode := VK_PRESENT_MODE_MAILBOX_KHR;
              oldSwapchain := VK_NULL_HANDLE |} []);
    discriminate.
Defined.


End InitRuns.

(** ** Teardown *)

Section TeardownFacts.

Import Wsi.
Import Lifecycle.

Lemma destroy_all_length {World : Type} (P : platform World)
    (imgs : list swapchain_image) :
  forall (w w' : World) (imgs' : list swapchain_image),
    destroy_all P imgs w = (imgs', w') -> length imgs' = length imgs.
Proof.
  induction imgs as [| img rest IH]; intros w w' imgs' Hrun; cbn [destroy_all] in Hrun.
  - injection Hrun as <- _. reflexivity.
  - destruct (destroy_image P img w) as [img' w1].
    destruct (destroy_all P rest w1) as [rest' w2] eqn:Hrest.
    injection Hrun as <- _. cbn [length]. f_equal. eapply IH. exact Hrest.
Qed.

(** When [teardown] returns, the links are broken on both sides: the
    descendant has no ancestor and the ancestor has no descendant any more,
    no other swapchain was touched, the page-flip thread was told to end if
    it had been started, and the number of images is the same. *)
Theorem teardown_breaks_the_links :
  forall (World : Type) (P : platform World) (C : calls World) (self : Z)
         (h h' : objects) (sc sc' : swapchain_base) (held : blocks) (w w' : World),
    teardown P C self h sc held w = Returns (sc', h', w') ->
    (m_descendant sc <> VK_NULL_HANDLE ->
     exists desc, h' (m_descendant sc) = Some desc /\ m_ancestor desc = VK_NULL_HANDLE)
    /\ (m_ancestor sc <> VK_NULL_HANDLE ->
        exists anc, h' (m_ancestor sc) = Some anc /\ m_descendant anc = VK_NULL_HANDLE)
    /\ (forall p, p <> m_descendant sc -> p <> m_ancestor sc -> h' p = h p)
    /\ (m_thread_sem_defined sc = true -> m_page_flip_thread_run sc' = false)
    /\ m_num_swapchain_images sc' = m_num_swapchain_images sc.
Proof.
  intros World P C self h h' sc sc' held w w' Hrun.
  unfold teardown in Hrun.
  destruct (if negb (m_descendant sc =? VK_NULL_HANDLE)
            then match h (m_descendant sc) with
                 | Some desc => Returns (started_presenting desc)
                 | None => Undefined
                 end
            else Returns false) as [started | |];
    cbn [bind] in Hrun; try discriminate Hrun.
  match type of Hrun with
  | bind ?m _ = _ => destruct m as [wa | |]; cbn [bind] in Hrun; try discriminate Hrun
  end.
  set (wq := QueueWaitIdle C (m_queue sc) wa) in Hrun.
  set (stopped := if m_thread_sem_defined sc
                  then (let sc0 := with_thread_run sc false in
                        let w0 := if joinable C wq then join C wq else wq in
                        let '(_, w1) := posix_sem_destroy C self w0 in (sc0, w1))
                  else (sc, wq)) in Hrun.
  assert (Hstopped : m_descendant (fst stopped) = m_descendant sc
                     /\ m_ancestor (fst stopped) = m_ancestor sc
                     /\ m_swapchain_images (fst stopped) = m_swapchain_images sc
                     /\ (m_thread_sem_defined sc = true ->
                         m_page_flip_thread_run (fst stopped) = false)).
  { subst stopped. destruct (m_thread_sem_defined sc).
    - cbv zeta. destruct (posix_sem_destroy C self _) as [r w1].
      repeat split. 
    - repeat split. discriminate. }
  destruct stopped as [sc1 w1]. cbn [fst] in Hstopped.
  destruct Hstopped as (Hd & Ha & Hi & Ht).
  rewrite Hd, Ha in Hrun.
  assert (Hfinal : forall (h2 : objects),
            (let '(sc2, w2) :=
               if images_not_null sc1 held
               then (let '(imgs, w3) := destroy_all P (m_swapchain_images sc1) w1 in
                     (with_images sc1 imgs, host_free C w3))
               else (sc1, w1) in
             Returns (sc2, h2, if ring_not_null sc2 held then host_free C w2 else w2))
            = Returns (sc', h', w') ->
            h' = h2
            /\ m_page_flip_thread_run sc' = m_page_flip_thread_run sc1
            /\ length (m_swapchain_images sc') = length (m_swapchain_images sc1)).
  { intros h2 Hlast.
    destruct (images_not_null sc1 held).
    - destruct (destroy_all P (m_swapchain_images sc1) w1) as [imgs w3] eqn:Hdestroy.
      injection Hlast as <- <- _.
      apply destroy_all_length in Hdestroy.
      repeat split. exact Hdestroy.
    - injection Hlast as <- <- _. repeat split. }
  destruct (Z.eqb_spec (m_descendant sc) VK_NULL_HANDLE) as [Hdnull | Hdset];
    cbn [negb] in Hrun.
  - cbn [bind] in Hrun.
    destruct (Z.eqb_spec (m_ancestor sc) VK_NULL_HANDLE) as [Hanull | Haset];
      cbn [negb] in Hrun.
    + cbn [bind] in Hrun. destruct (Hfinal h Hrun) as (-> & Hrunflag & Hlen).
      repeat match goal with |- _ /\ _ => split end.
      * intros Hne. contradiction.
      * intros Hne. contradiction.
      * reflexivity.
      * intros Hdef. rewrite Hrunflag. apply Ht. exact Hdef.
      * unfold m_num_swapchain_images. rewrite Hlen, Hi. reflexivity.
    + destruct (h (m_ancestor sc)) as [anc |] eqn:Hanc; cbn [bind] in Hrun;
        [| discriminate Hrun].
      destruct (Hfinal _ Hrun) as (-> & Hrunflag & Hlen).
      repeat match goal with |- _ /\ _ => split end.
      * intros Hne. contradiction.
      * intros _. exists (clear_descendant anc). unfold put. rewrite Z.eqb_refl.
        split; reflexivity.
      * intros p _ Hp. unfold put.
        destruct (Z.eqb_spec p (m_ancestor sc)); [contradiction | reflexivity].
      * intros Hdef. rewrite Hrunflag. apply Ht. exact Hdef.
      * unfold m_num_swapchain_images. rewrite Hlen, Hi. reflexivity.
  - destruct (h (m_descendant sc)) as [desc |] eqn:Hdesc; cbn [bind] in Hrun;
      [| discriminate Hrun].
    destruct (Z.eqb_spec (m_ancestor sc) VK_NULL_HANDLE) as [Hanull | Haset];
      cbn [negb] in Hrun.
    + cbn [bind] in Hrun. destruct (Hfinal _ Hrun) as (-> & Hrunflag & Hlen).
      repeat match goal with |- _ /\ _ => split end.
      * intros _. exists (clear_ancestor desc). unfold put. rewrite Z.eqb_refl.
        split; reflexivity.
      * intros Hne. contradiction.
      * intros p Hp _. unfold put.
        destruct (Z.eqb_spec p (m_descendant sc)); [contradiction | reflexivity].
      * intros Hdef. rewrite Hrunflag. apply Ht. exact Hdef.
      * unfold m_num_swapchain_images. rewrite Hlen, Hi. reflexivity.
    + destruct (put h (m_descendant sc) (clear_ancestor desc) (m_ancestor sc))
        as [anc |] eqn:Hanc; cbn [bind] in Hrun; [| discriminate Hrun].
      destruct (Hfinal _ Hrun) as (-> & Hrunflag & Hlen).
      repeat match goal with |- _ /\ _ => split end.
      * intros _. unfold put in *.
        destruct (Z.eqb_spec (m_descendant sc) (m_ancestor sc)) as [Hsame | Hdiff].
        -- rewrite <- Hsame in Hanc. rewrite Z.eqb_refl in Hanc.
           injection Hanc as <-.
           exists (clear_descendant (clear_ancestor desc)). split; reflexivity.
        -- rewrite Z.eqb_refl. exists (clear_ancestor desc). split; reflexivity.
      * intros _. exists (clear_descendant anc). unfold put. rewrite Z.eqb_refl.
        split; reflexivity.
      * intros p Hp1 Hp2. unfold put.
        destruct (Z.eqb_spec p (m_ancestor sc)); [contradiction |].
        destruct (Z.eqb_spec p (m_descendant sc)); [contradiction | reflexivity].
      * intros Hdef. rewrite Hrunflag. apply Ht. exact Hdef.
      * unfold m_num_swapchain_images. rewrite Hlen, Hi. reflexivity.
Qed.

End TeardownFacts.

Section TeardownRuns.

Import Wsi.
Import Lifecycle.

(** The idle swapchain at address 1000, between an ancestor at 500 and a
    descendant at 700 that has not presented yet. *)
Lemma teardown_between_two_swapchains :
  exists sc' h' w',
    teardown all_succeed (quiet_calls VK_SUCCESS VK_SUCCESS) 1000
      (put (put no_objects 500 (with_descendant example_swapchain 1000))
           700 (with_ancestor (constructed false) 1000))
      (with_thread_sem_defined
         (with_ancestor (with_descendant idle_swapchain 700) 500) true)
      {| images_block := false; ring_block := false |} []
    = Returns (sc', h', w')
    /\ (exists desc, h' 700 = Some desc /\ m_ancestor desc = VK_NULL_HANDLE)
    /\ (exists anc, h' 500 = Some anc /\ m_descendant anc = VK_NULL_HANDLE)
    /\ h' 900 = None
    /\ m_page_flip_thread_run sc' = false
    /\ m_num_swapchain_images sc' = 4.
Proof.
  eexists. eexists. eexists. split; [vm_compute; reflexivity |].
  match goal with
  | |- (exists desc, ?h' 700 = _ /\ _) /\ _ /\ _ /\ m_page_flip_thread_run ?sc' = _ /\ _ =>
      destruct (teardown_breaks_the_links (list call) all_succeed
                  (quiet_calls VK_SUCCESS VK_SUCCESS) 1000
                  (put (put no_objects 500 (with_descendant example_swapchain 1000))
                       700 (with_ancestor (constructed false) 1000))
                  h'
                  (with_thread_sem_defined
                     (with_ancestor (with_descendant idle_swapchain 700) 500) true)
                  sc' {| images_block := false; ring_block := false |} [] _
                  ltac:(vm_compute; reflexivity))
        as (Hdesc & Hanc & Hother & Hthread & Hnum)
  end.
  split; [apply Hdesc; discriminate |].
  split; [apply Hanc; discriminate |].
  split; [exact (Hother 900 ltac:(discriminate) ltac:(discriminate)) |].
  split; [apply Hthread; reflexivity |].
  exact Hnum.
Defined.

End TeardownRuns.

(** ** Time domains *)

Section TimeDomainFacts.

Import Wsi.
Import TimeDomains.

(** [calibrate] answers with the first domain that shares a stage with the
    one asked for, and with VK_ERROR_OUT_OF_HOST_MEMORY, writing nothing,
    when no domain does. *)
Theorem calibrate_uses_the_first_matching_domain :
  forall (domains : list swapchain_time_domain) (present_stage : Z),
    match calibrate domains present_stage with
    | (result, Some time) =>
        result = VK_SUCCESS
        /\ exists before domain after,
             domains = before ++ domain :: after
             /\ Forall (fun d => Z.land (get_present_stages d) present_stage = 0) before
             /\ Z.land (get_present_stages domain) present_stage <> 0
             /\ time = calibrate_result domain
    | (result, None) =>
        result = VK_ERROR_OUT_OF_HOST_MEMORY
        /\ Forall (fun d => Z.land (get_present_stages d) present_stage = 0) domains
    end.
Proof.
  intros domains present_stage.
  induction domains as [| d rest IH]; cbn [calibrate].
  - split; [reflexivity | constructor].
  - destruct (Z.eqb_spec (Z.land (get_present_stages d) present_stage) 0) as [Hzero | Hset];
      cbn [negb].
    + destruct (calibrate rest present_stage) as [result [time |]].
      * destruct IH as (Hres & before & domain & after & Hsplit & Hbefore & Hhit & Htime).
        split; [exact Hres |].
        exists (d :: before), domain, after.
        split; [rewrite Hsplit; reflexivity |].
        split; [constructor; assumption |].
        split; assumption.
      * destruct IH as (Hres & Hall).
        split; [exact Hres | constructor; assumption].
    + split; [reflexivity |].
      exists [], d, rest.
      split; [reflexivity |]. split; [constructor |]. split; [exact Hset | reflexivity].
Qed.

(** Whatever [set_swapchain_time_domain_properties] is given, a call that
    returns reports VK_SUCCESS or VK_INCOMPLETE; VK_INCOMPLETE exactly when
    both pointers are given and the counter is below 1; the counter is only
    written, to 1, when the properties are missing; and properties that were
    changed have a count of 1 and no ids. *)
Theorem time_domain_properties_report :
  forall (props props' : option VkSwapchainTimeDomainPropertiesEXT)
         (counter counter' : option Z) (result : VkResult),
    set_swapchain_time_domain_properties props counter = Returns (result, props', counter') ->
    (result = VK_INCOMPLETE \/ result = VK_SUCCESS)
    /\ (result = VK_INCOMPLETE <->
        props <> None /\ exists c, counter = Some c /\ c < 1)
    /\ (counter' = counter \/ (props = None /\ counter <> None /\ counter' = Some 1))
    /\ (props' = props
        \/ exists p', props' = Some p' /\ props <> None
                      /\ timeDomainCount p' = 1 /\ pTimeDomainIds p' = None).
Proof.
  intros props props' counter counter' result Hrun.
  unfold set_swapchain_time_domain_properties in Hrun.
  destruct counter as [c |]; destruct props as [p |].
  - destruct (write_domain (pTimeDomains p)) as [domains | |]; cbn [bind] in Hrun;
      try discriminate Hrun.
    injection Hrun as <- <- <-.
    destruct (Z.ltb_spec c 1) as [Hlow | Hhigh].
    + split; [left; reflexivity |].
      split; [split; [intros _; split; [discriminate | exists c; split; [reflexivity | exact Hlow]] | reflexivity] |].
      split; [left; reflexivity |].
      right. eexists. split; [reflexivity |]. split; [discriminate |]. split; reflexivity.
    + split; [right; reflexivity |].
      split.
      { split; [discriminate |].
        intros (_ & c0 & Hc0 & Hlt). injection Hc0 as <-. lia. }
      split; [left; reflexivity |].
      right. eexists. split; [reflexivity |]. split; [discriminate |]. split; reflexivity.
  - injection Hrun as <- <- <-.
    split; [right; reflexivity |].
    split; [split; [discriminate | intros (Hp & _); contradiction] |].
    split; [right; split; [reflexivity | split; [discriminate | reflexivity]] |].
    left. reflexivity.
  - assert (Hcount : (result = VK_SUCCESS /\ counter' = None)
                     /\ (props' = Some p
                         \/ exists p', props' = Some p'
                                       /\ timeDomainCount p' = 1 /\ pTimeDomainIds p' = None)).
    { destruct (pTimeDomains p) as [cells |] eqn:Hcells;
        destruct (pTimeDomainIds p) as [ids |] eqn:Hids.
      - destruct (write_domain (Some cells)) as [domains | |]; cbn [bind] in Hrun;
          try discriminate Hrun.
        injection Hrun as <- <- <-.
        split; [split; reflexivity |]. right. eexists. repeat split.
      - injection Hrun as <- <- <-. split; [split; reflexivity |]. left. reflexivity.
      - injection Hrun as <- <- <-. split; [split; reflexivity |]. left. reflexivity.
      - injection Hrun as <- <- <-.
        split; [split; reflexivity |]. right. eexists. repeat split. }
    destruct Hcount as ((-> & ->) & Hprops).
    split; [right; reflexivity |].
    split; [split; [discriminate | intros (_ & c0 & Hc0 & _); discriminate Hc0] |].
    split; [left; reflexivity |].
    destruct Hprops as [-> | (p' & -> & Hone & Hids)].
    + left. reflexivity.
    + right. exists p'. split; [reflexivity |]. split; [discriminate |]. split; assumption.
  - injection Hrun as <- <- <-.
    split; [right; reflexivity |].
    split; [split; [discriminate | intros (Hp & _); contradiction] |].
    split; [left; reflexivity |].
    left. reflexivity.
Qed.

(** With a counter, properties whose domain array is missing or has no cell
    make the first store undefined; with an array of at least one cell the
    call returns and the first cell holds
    VK_TIME_DOMAIN_PRESENT_STAGE_LOCAL_EXT, whatever the counter says the
    capacity is. *)
Theorem time_domain_is_stored_whatever_the_counter :
  forall (p : VkSwapchainTimeDomainPropertiesEXT) (c : Z),
    (forall first rest,
        pTimeDomains p = Some (first :: rest) ->
        set_swapchain_time_domain_properties (Some p) (Some c)
        = Returns (if c <? 1 then VK_INCOMPLETE else VK_SUCCESS,
                   Some {| timeDomainCount := 1;
                           pTimeDomains :=
                             Some (VK_TIME_DOMAIN_PRESENT_STAGE_LOCAL_EXT :: rest);
                           pTimeDomainIds := None |},
                   Some c))
    /\ (pTimeDomains p = None \/ pTimeDomains p = Some [] ->
        set_swapchain_time_domain_properties (Some p) (Some c) = Undefined).
Proof.
  intros p c. split.
  - intros first rest Hcells.
    unfold set_swapchain_time_domain_properties, write_domain.
    rewrite Hcells. rewrite store_head. reflexivity.
  - intros [Hnone | Hempty];
      unfold set_swapchain_time_domain_properties, write_domain.
    + rewrite Hnone. reflexivity.
    + rewrite Hempty. reflexivity.
Qed.

End TimeDomainFacts.

Section TimeDomainRuns.

Import Wsi.
Import TimeDomains.

Lemma incomplete_for_counter_zero :
  exists props',
    set_swapchain_time_domain_properties
      (Some {| timeDomainCount := 7; pTimeDomains := Some [5; 6]; pTimeDomainIds := Some [8] |})
      (Some 0)
    = Returns (VK_INCOMPLETE, props', Some 0)
    /\ (VK_INCOMPLETE = VK_INCOMPLETE <->
        Some {| timeDomainCount := 7; pTimeDomains := Some [5; 6];
                pTimeDomainIds := Some [8] |} <> None
        /\ exists c, Some 0 = Some c /\ c < 1).
Proof.
  eexists. split; [vm_compute; reflexivity |].
  exact (proj1 (proj2 (time_domain_properties_report
           (Some {| timeDomainCount := 7; pTimeDomains := Some [5; 6];
                    pTimeDomainIds := Some [8] |})
           _ (Some 0) (Some 0) VK_INCOMPLETE ltac:(vm_compute; reflexivity)))).
Defined.

Lemma domain_is_stored_for_counter_zero :
  set_swapchain_time_domain_properties
    (Some {| timeDomainCount := 7; pTimeDomains := Some [5; 6]; pTimeDomainIds := Some [8] |})
    (Some 0)
  = Returns (VK_INCOMPLETE,
             Some {| timeDomainCount := 1;
                     pTimeDomains := Some [VK_TIME_DOMAIN_PRESENT_STAGE_LOCAL_EXT; 6];
                     pTimeDomainIds := None |},
             Some 0).
Proof.
  exact (proj1 (time_domain_is_stored_whatever_the_counter
                  {| timeDomainCount := 7; pTimeDomains := Some [5; 6];
                     pTimeDomainIds := Some [8] |} 0)
           5 [6] eq_refl).
Defined.

End TimeDomainRuns.
